(** * DaisenBot dataset generator: the benchmark-processing orchestration

    A shallow embedding of [create_data.py]: the file-name formatting, the
    benchmark runner, the doubling search for the base problem size, the
    normal (combinatorial) and special sweeps with their shared index
    counter, the per-run records and the per-benchmark summary; and, after
    it, of the upload of a benchmark in [upload_data.py] with the Drive
    helpers of [google_drive.py] it relies on.

    Conventions of the embedding.
    - Python [int] is [Z] (unbounded); the index counter, which starts at 0
      and is only incremented, is [nat].
    - [size_mb] is either the integer 0 that the runner returns when there is
      no artifact, or the float [round(bytes / 2^20, 2)].  For files below
      2^53 bytes the division is exact and [round] is the correctly rounded
      half-to-even value, so the float is represented by its number of
      hundredths, and [repr] of it is the shortest decimal that denotes it.
    - Python dicts read from the configuration are [gmap]s; a record document
      (a dict with a fixed set of keys) is a Rocq record.
    - The external world (the build, the benchmark processes, the moves) is an
      oracle [world]; the k-th benchmark invocation of a run sees [w_proc k].
    - [print] calls and the purge / deletion of stray artifacts in the working
      directory have no effect on what is modelled and are left out.
    - Exceptions the source does not catch (a record that cannot be written,
      an unbalanced quote in an argument string) end the process; the model
      covers the runs in which they do not occur. *)

From Stdlib Require Import ZArith NArith List String Ascii Lia.
From Stdlib Require Import Decimal DecimalFacts DecimalNat DecimalString.
From stdpp Require Import gmap strings list.

Local Open Scope string_scope.
Local Open Scope list_scope.
Local Open Scope Z_scope.

(** ** Strings and numbers as Python prints them *)

(** [str(n)] for an [int]. *)
Definition str_of_Z (z : Z) : string := NilEmpty.string_of_int (Z.to_int z).

Definition str_of_nat (n : nat) : string := NilEmpty.string_of_uint (Nat.to_uint n).

Definition str_of_N (n : N) : string := NilEmpty.string_of_uint (N.to_uint n).

Fixpoint zeros (k : nat) : string :=
  match k with
  | O => ""
  | S k' => String "0" (zeros k')
  end.

(** [f"{index:04d}"] for a non-negative index: the decimal digits, filled on
    the left with zeros up to width 4 (never truncated). *)
Definition fmt_04d (index : nat) : string :=
  let s := str_of_nat index in
  zeros (4 - String.length s) +:+ s.

(** [s.lstrip("-")] *)
Fixpoint lstrip_dash (s : string) : string :=
  match s with
  | String "-" s' => lstrip_dash s'
  | _ => s
  end.

(** [s.replace(old, new)] for a non-empty [old]: leftmost, non-overlapping
    occurrences.  [skip] counts the characters of a match still to drop. *)
Fixpoint replace_from (old new : string) (skip : nat) (s : string) : string :=
  match s with
  | "" => ""
  | String c s' =>
      match skip with
      | S k => replace_from old new k s'
      | O =>
          if String.prefix old s
          then new +:+ replace_from old new (String.length old - 1) s'
          else String c (replace_from old new 0 s')
      end
  end.

Definition str_replace (old new s : string) : string := replace_from old new 0 s.

(** The final path component: [os.path.basename], and [Path(..).name] for a
    path that does not end with a separator. *)
Fixpoint basename_from (acc s : string) : string :=
  match s with
  | "" => acc
  | String "/" s' => basename_from s' s'
  | String _ s' => basename_from acc s'
  end.

Definition basename (s : string) : string := basename_from s s.

(** [os.path.join(a, b)] on POSIX. *)
Fixpoint ends_with_slash (s : string) : bool :=
  match s with
  | "" => false
  | String c "" => Ascii.eqb c "/"
  | String _ s' => ends_with_slash s'
  end.

Definition path_join (a b : string) : string :=
  match b with
  | String "/" _ => b
  | _ => if String.eqb a "" || ends_with_slash a then a +:+ b else a +:+ "/" +:+ b
  end.

(** ** File names *)

Definition MGPUSIM_COMMIT_SHA : string := "8ef2478f927933de2711ddea400927453079955c".
Definition DATA_TASK_PREFIX : string := "D".

Definition format_data_filename (bench_id type_id : string) (index : nat) : string :=
  DATA_TASK_PREFIX +:+ bench_id +:+ type_id +:+ fmt_04d index +:+ ".sqlite3".

(** The [id] of a record: the trace file name without its extension. *)
Definition record_id (bench_id type_id : string) (index : nat) : string :=
  str_replace ".sqlite3" "" (format_data_filename bench_id type_id index).

(** Modelled from the spec: the reader of file names, which the repository
    does not have (section 8: parsing the formatted name recovers the
    benchmark id, the type id and the index).  It reads the prefix, two
    characters of benchmark id, one character of type id, decimal digits and
    the extension. *)
Fixpoint strip_suffix (suf s : string) : option string :=
  if String.eqb s suf then Some ""
  else match s with
       | "" => None
       | String c s' => option_map (String c) (strip_suffix suf s')
       end.

Definition parse_data_filename (s : string) : option (string * string * nat) :=
  match s with
  | String "D" (String b1 (String b2 (String t rest))) =>
      match strip_suffix ".sqlite3" rest with
      | Some digits =>
          match NilEmpty.uint_of_string digits with
          | Some d => Some (String b1 (String b2 ""), String t "", Nat.of_uint d)
          | None => None
          end
      | None => None
      end
  | _ => None
  end.


(** ** Measured sizes *)

Inductive mb : Type :=
| MbInt (z : Z)              (* a Python int: the literal 0 the runner returns *)
| MbFloat (hundredths : N).  (* a Python float holding a two-decimal value *)

(** [repr] of a float that holds [h / 100]: at least one decimal, no trailing
    zero beyond it. *)
Definition repr_hundredths (h : N) : string :=
  let frac := (h mod 100)%N in
  str_of_N (h / 100) +:+ "." +:+
  (if (frac mod 10 =? 0)%N
   then str_of_N (frac / 10)
   else str_of_N (frac / 10) +:+ str_of_N (frac mod 10)).

Definition fmt_mb (m : mb) : string :=
  match m with
  | MbInt z => str_of_Z z
  | MbFloat h => repr_hundredths h
  end.

(** [f"{size_mb} MB" if size_mb is not None else "0 MB"]; the runner never
    returns [None] for the size, so the second branch is dead. *)
Definition size_field (m : mb) : string := fmt_mb m +:+ " MB".

(** [size_mb < benchmark_trace_min_size_MB] *)
Definition mb_ltb (m : mb) (threshold : Z) : bool :=
  match m with
  | MbInt z => z <? threshold
  | MbFloat h => Z.of_N h <? 100 * threshold
  end.

(** [round(size_bytes / (1024 * 1024), 2)], in hundredths, ties to even. *)
Definition size_mb_of_bytes (size_bytes : N) : N :=
  let n := (size_bytes * 100)%N in
  let q := (n / 1048576)%N in
  let r := (n mod 1048576)%N in
  if (2 * r <? 1048576)%N then q
  else if (1048576 <? 2 * r)%N then (q + 1)%N
  else if N.even q then q else (q + 1)%N.

(** ** The benchmark runner *)

(** A file of the working directory matching [akita_sim_*.sqlite3]. *)
Record afile : Type := { af_name : string; af_mtime : Z; af_size : N }.

(** What one benchmark process leaves behind: its return code and the
    matching files found afterwards, in the order the glob lists them. *)
Record proc : Type := { returncode : Z; matches : list afile }.

Record run_result : Type :=
  { succeeded : bool; size_mb : mb; produced_path : option string }.

(** [matches.sort(key=mtime, reverse=True); matches[0]]: the sort is stable,
    so among the most recent files the first listed one is chosen. *)
Fixpoint newest (best : afile) (l : list afile) : afile :=
  match l with
  | [] => best
  | f :: l' => newest (if af_mtime best <? af_mtime f then f else best) l'
  end.

Definition measure (pr : proc) : run_result :=
  if negb (returncode pr =? 0)
  then {| succeeded := false; size_mb := MbInt 0; produced_path := None |}
  else match matches pr with
       | [] => {| succeeded := true; size_mb := MbInt 0; produced_path := None |}
       | f :: l =>
           let src := newest f l in
           {| succeeded := true;
              size_mb := MbFloat (size_mb_of_bytes (af_size src));
              produced_path := Some (af_name src) |}
       end.

(** ** Configuration, documents, world and state *)

(** A candidate value of the configuration, and [str(val)]. *)
Inductive jvalue : Type :=
| JInt (z : Z)
| JStr (s : string).

Definition py_str (v : jvalue) : string :=
  match v with
  | JInt z => str_of_Z z
  | JStr s => s
  end.

Record bconf : Type :=
  { bc_id : string;
    base_script : string;
    size_arg : string;
    size_arg_start : Z;
    normal_arg_list : list string;
    normal_arg_values : gmap string (list jvalue);
    special_arg_list : list string }.

Record profile : Type :=
  { benchmark_config : gmap string bconf;
    data_save_path : string;
    data_record_save_path : string;
    benchmark_path : string;
    benchmark_base_arg : string;
    benchmark_trace_filename_arg : string;
    benchmark_trace_min_size_MB : Z }.

Record record : Type :=
  { rec_id : string;
    rec_benchmark : string;
    rec_benchmark_cmd : string;
    rec_trace_file : string;
    rec_mgpusim_commit_SHA : string;
    rec_size : string;
    rec_comment : string }.

Record summary : Type :=
  { sum_benchmark : string;
    sum_data : list string;
    sum_data_record : list string }.

Inductive doc : Type :=
| DocRecord (r : record)
| DocSummary (s : summary).

(** The outside of the program.  [w_proc k] is what the k-th benchmark
    invocation does, [w_move k] whether the relocation of its artifact
    succeeds, [w_go_build d] the return code of [go build] in [d]. *)
Record world : Type :=
  { w_isdir : string -> bool;
    w_go_build : string -> Z;
    w_proc : nat -> proc;
    w_move : nat -> bool;
    w_summary_ok : bool }.

(** The state threaded through [process_benchmark].
    - [clock]: number of benchmark invocations so far;
    - [executed]: their argument vectors, oldest first;
    - [record_dir]: the journal of the record directory, every file written
      with its content, oldest first (in the directory a later write of a
      name replaces the earlier one);
    - [data_dir]: the files relocated into the trace directory;
    - [idx_counter], [produced_traces], [produced_records]: the locals. *)
Record state : Type :=
  { clock : nat;
    executed : list (list string);
    record_dir : list (string * doc);
    data_dir : gset string;
    idx_counter : nat;
    produced_traces : list string;
    produced_records : list string }.

Definition enter (st : state) : state :=
  {| clock := clock st; executed := executed st; record_dir := record_dir st;
     data_dir := data_dir st;
     idx_counter := 0; produced_traces := []; produced_records := [] |}.

Definition set_idx_counter (i : nat) (st : state) : state :=
  {| clock := clock st; executed := executed st; record_dir := record_dir st;
     data_dir := data_dir st;
     idx_counter := i; produced_traces := produced_traces st;
     produced_records := produced_records st |}.

Definition log_run (cmd : list string) (st : state) : state :=
  {| clock := S (clock st); executed := executed st ++ [cmd];
     record_dir := record_dir st; data_dir := data_dir st;
     idx_counter := idx_counter st; produced_traces := produced_traces st;
     produced_records := produced_records st |}.

Definition put_data (name : string) (st : state) : state :=
  {| clock := clock st; executed := executed st; record_dir := record_dir st;
     data_dir := {[ name ]} ∪ data_dir st;
     idx_counter := idx_counter st; produced_traces := produced_traces st;
     produced_records := produced_records st |}.

Definition put_doc (name : string) (d : doc) (st : state) : state :=
  {| clock := clock st; executed := executed st;
     record_dir := record_dir st ++ [(name, d)]; data_dir := data_dir st;
     idx_counter := idx_counter st; produced_traces := produced_traces st;
     produced_records := produced_records st |}.

Definition note_produced (record_name trace_name : string) (st : state) : state :=
  {| clock := clock st; executed := executed st; record_dir := record_dir st;
     data_dir := data_dir st; idx_counter := idx_counter st;
     produced_traces := produced_traces st ++ [trace_name];
     produced_records := produced_records st ++ [record_name] |}.

(** [run_benchmark_and_get_size(cmd_list)] *)
Definition run_benchmark_and_get_size (w : world) (cmd_list : list string)
    (st : state) : run_result * state :=
  (measure (w_proc w (clock st)), log_run cmd_list st).

(** [shutil.move(produced_path, Path(data_save_path) / trace_filename)] after
    invocation [k]; a failure is caught and leaves the file where it was. *)
Definition relocate (w : world) (k : nat) (trace_filename : string) (st : state) : state :=
  if w_move w k then put_data trace_filename st else st.

(** [write_data_record]: writes [<id>.json] and returns the written path,
    of which the caller keeps the [name]. *)
Definition write_data_record (r : record) (st : state) : string * state :=
  let out_path := rec_id r +:+ ".json" in
  (basename out_path, put_doc out_path (DocRecord r) st).

Definition strip_leading_dot_slash (s : string) : string := s.

(** [itertools.product] applied to the pools: the tuples are built left to
    right, each pool extending every tuple made so far. *)
Definition product {A : Type} (pools : list (list A)) : list (list A) :=
  fold_left
    (fun result pool => flat_map (fun x => map (fun y => x ++ [y]) pool) result)
    pools [[]].

(** ** The orchestrator *)

Inductive search_result : Type :=
| SearchAborted (st : state)                (* a run failed: [return 1] *)
| SearchFound (base_size : Z) (st : state)  (* [break] with the base record written *)
| SearchPending (cur_size : Z) (st : state). (* still in the loop when the fuel ran out *)

Inductive result : Type :=
| Returned (status : Z) (st : state)
| Pending (cur_size : Z) (st : state).

Section Orchestrator.

(** [shlex.split] and [os.path.abspath] belong to the host; the
    orchestration is defined for any of them. *)
Variable shlex_split : string -> list string.
Variable abspath : string -> string.

Definition build_base_benchmark_cmd
    (exe_path base_args trace_arg_flag trace_file_path size_arg_name : string)
    (size_value : Z) : list string :=
  let cmd := [exe_path] in
  let cmd := if String.eqb base_args "" then cmd else cmd ++ shlex_split base_args in
  cmd ++ [size_arg_name; str_of_Z size_value].

Section Benchmark.

Variable w : world.
Variable p : profile.
Variable bench_name : string.
Variable bc : bconf.
Variable exe_path : string.

(** The prefix common to the commands of both sweeps: executable, base
    arguments if any, size flag, base size. *)
Definition sweep_cmd_prefix (base_size : Z) : list string :=
  let cmd := [exe_path] in
  let cmd :=
    if String.eqb (benchmark_base_arg p) "" then cmd
    else cmd ++ shlex_split (benchmark_base_arg p) in
  cmd ++ [size_arg bc; str_of_Z base_size].

Definition base_record (idx : nat) (base_size : Z) (size : mb)
    (dest_name : string) : record :=
  {| rec_id := record_id (bc_id bc) "0" idx;
     rec_benchmark := bench_name;
     rec_benchmark_cmd :=
       String.concat " "
         ([strip_leading_dot_slash (basename exe_path)]
            ++ shlex_split (benchmark_base_arg p)
            ++ [size_arg bc +:+ " " +:+ str_of_Z base_size]);
     rec_trace_file := dest_name;
     rec_mgpusim_commit_SHA := MGPUSIM_COMMIT_SHA;
     rec_size := size_field size;
     rec_comment := "base trace" |}.

(** The [while True] loop of step 3.  No iteration changes
    [idx_counter], which is 0 when the loop is entered. *)
Fixpoint base_search (fuel : nat) (cur_size : Z) (st : state) : search_result :=
  match fuel with
  | O => SearchPending cur_size st
  | S fuel' =>
      let trace_filename := format_data_filename (bc_id bc) "0" (idx_counter st) in
      let trace_file_rel := path_join (data_save_path p) trace_filename in
      let cmd_list :=
        build_base_benchmark_cmd exe_path (benchmark_base_arg p)
          (benchmark_trace_filename_arg p) trace_file_rel (size_arg bc) cur_size in
      let '(r, st1) := run_benchmark_and_get_size w cmd_list st in
      if negb (succeeded r) then SearchAborted st1
      else
        match produced_path r with
        | None => base_search fuel' (cur_size * 2) st1
        | Some src =>
            if mb_ltb (size_mb r) (benchmark_trace_min_size_MB p)
            then base_search fuel' (cur_size * 2) st1
            else
              let moved := w_move w (clock st) in
              let st2 := relocate w (clock st) trace_filename st1 in
              (* dest_path = produced_path when the move failed *)
              let dest_name := if moved then basename trace_filename else src in
              let base_size := cur_size in
              let '(out_name, st3) :=
                write_data_record
                  (base_record (idx_counter st) base_size (size_mb r) dest_name) st2 in
              SearchFound base_size (note_produced out_name dest_name st3)
        end
  end.

(** Step 4: the value lists in the order of [normal_arg_list], and their
    combinations. *)
Definition normal_values_lists : list (list jvalue) :=
  map (fun arg => default [] (normal_arg_values bc !! lstrip_dash arg))
      (normal_arg_list bc).

Definition normal_combinations : list (list jvalue) :=
  match normal_values_lists with
  | [] => []
  | _ => product normal_values_lists
  end.

Definition normal_cmd (base_size : Z) (combo : list jvalue) : list string :=
  sweep_cmd_prefix base_size
    ++ flat_map (fun av => [fst av; py_str (snd av)])
                (combine (normal_arg_list bc) combo).

Definition normal_record (idx : nat) (size : mb) (combo : list jvalue) : record :=
  {| rec_id := record_id (bc_id bc) "0" idx;
     rec_benchmark := bench_name;
     rec_benchmark_cmd :=
       String.concat " "
         ([strip_leading_dot_slash (basename exe_path)]
            ++ shlex_split (benchmark_base_arg p)
            ++ map (fun av => fst av +:+ " " +:+ py_str (snd av))
                   (combine (normal_arg_list bc) combo));
     rec_trace_file := format_data_filename (bc_id bc) "0" idx;
     rec_mgpusim_commit_SHA := MGPUSIM_COMMIT_SHA;
     rec_size := size_field size;
     rec_comment := "" |}.

(** What both sweeps do once the command has run: relocate the artifact
    if there is one, write the record, note both names, advance. *)
Definition finish_run (k : nat) (r : run_result) (trace_filename : string)
    (rcd : record) (st : state) : state :=
  let st2 :=
    match produced_path r with
    | Some _ => relocate w k trace_filename st
    | None => st
    end in
  let '(out_name, st3) := write_data_record rcd st2 in
  let st4 := note_produced out_name trace_filename st3 in
  set_idx_counter (S (idx_counter st4)) st4.

(** One iteration of [for combo in normal_combinations]. *)
Definition normal_step (base_size : Z) (st : state) (combo : list jvalue) : state :=
  let trace_filename := format_data_filename (bc_id bc) "0" (idx_counter st) in
  let cmd := normal_cmd base_size combo in
  let '(r, st1) := run_benchmark_and_get_size w cmd st in
  let rcd := normal_record (idx_counter st) (size_mb r) combo in
  finish_run (clock st) r trace_filename rcd st1.

Definition special_cmd (base_size : Z) (special : string) : list string :=
  sweep_cmd_prefix base_size ++ shlex_split special.

Definition special_record (base_size : Z) (idx : nat) (size : mb)
    (special : string) : record :=
  let parts := [strip_leading_dot_slash (basename exe_path)] in
  let parts :=
    if String.eqb (benchmark_base_arg p) "" then parts
    else parts ++ shlex_split (benchmark_base_arg p) in
  let parts := parts ++ [size_arg bc; str_of_Z base_size] in
  let parts := parts ++ shlex_split special in
  {| rec_id := record_id (bc_id bc) "1" idx;
     rec_benchmark := bench_name;
     rec_benchmark_cmd := String.concat " " parts;
     rec_trace_file := format_data_filename (bc_id bc) "1" idx;
     rec_mgpusim_commit_SHA := MGPUSIM_COMMIT_SHA;
     rec_size := size_field size;
     rec_comment := "" |}.

(** One iteration of [for special in special_arg_list]. *)
Definition special_step (base_size : Z) (st : state) (special : string) : state :=
  let trace_filename := format_data_filename (bc_id bc) "1" (idx_counter st) in
  let cmd := special_cmd base_size special in
  let '(r, st1) := run_benchmark_and_get_size w cmd st in
  let rcd := special_record base_size (idx_counter st) (size_mb r) special in
  finish_run (clock st) r trace_filename rcd st1.

Definition normal_pass (base_size : Z) (st : state) : state :=
  fold_left (normal_step base_size) normal_combinations st.

Definition special_pass (base_size : Z) (st : state) : state :=
  fold_left (special_step base_size) (special_arg_list bc) st.

(** Steps 4 and 5 after the base was found. *)
Definition sweeps (base_size : Z) (st : state) : state :=
  special_pass base_size (normal_pass base_size (set_idx_counter 1 st)).

(** The summary document; a failure to write it is caught. *)
Definition the_summary (st : state) : summary :=
  {| sum_benchmark := bench_name;
     sum_data := produced_traces st;
     sum_data_record := produced_records st |}.

Definition write_summary (st : state) : state :=
  if w_summary_ok w
  then put_doc (bench_name +:+ ".json") (DocSummary (the_summary st)) st
  else st.

(** Steps 3 to the end. *)
Definition generate (fuel : nat) (st : state) : result :=
  match base_search fuel (size_arg_start bc) st with
  | SearchAborted st1 => Returned 1 st1
  | SearchPending cur_size st1 => Pending cur_size st1
  | SearchFound base_size st1 => Returned 0 (write_summary (sweeps base_size st1))
  end.

End Benchmark.

(** [os.path.join(benchmark_path, bench_name)] *)
Definition benchmark_dir (p : profile) (bench_name : string) : string :=
  path_join (benchmark_path p) bench_name.

(** The executable: every branch of the look-up settles on the same path,
    made absolute. *)
Definition executable (p : profile) (bench_name : string) (bc : bconf) : string :=
  let exe_name := strip_leading_dot_slash (base_script bc) in
  abspath (path_join (benchmark_dir p bench_name) exe_name).

Definition process_benchmark (fuel : nat) (w : world) (p : profile)
    (bench_name : string) (st : state) : result :=
  match benchmark_config p !! bench_name with
  | None => Returned 1 st
  | Some bc =>
      if negb (w_isdir w (benchmark_dir p bench_name)) then Returned 1 st
      else if negb (w_go_build w (benchmark_dir p bench_name) =? 0) then Returned 1 st
      else generate w p bench_name bc (executable p bench_name bc) fuel (enter st)
  end.

End Orchestrator.

(** ** Vocabulary of the properties *)

(** The enumeration the specification describes for the normal pass: the
    flags in declared order, and for each choice of the earlier flags the
    values of the current flag in declared order, so that the last flag
    varies fastest.  With no flag at all there is one, empty, combination. *)
Fixpoint lex_product {A : Type} (pools : list (list A)) : list (list A) :=
  match pools with
  | [] => [[]]
  | pool :: rest => flat_map (fun v => map (cons v) (lex_product rest)) pool
  end.

(** The number of combinations, and the combination at position [n]: each
    flag takes the value whose rank is a digit of [n] in the mixed radix of
    the list lengths, the last flag being the least significant digit, that
    is, the one that varies fastest. *)
Fixpoint volume {A : Type} (pools : list (list A)) : nat :=
  match pools with
  | [] => 1%nat
  | pool :: rest => (length pool * volume rest)%nat
  end.

Fixpoint combo_at {A : Type} (pools : list (list A)) (n : nat) : option (list A) :=
  match pools with
  | [] => Some []
  | pool :: rest =>
      match pool !! (n / volume rest)%nat, combo_at rest (n mod volume rest)%nat with
      | Some v, Some c => Some (v :: c)
      | _, _ => None
      end
  end.

(** How the base-size search reads the result of an attempt: it accepts an
    artifact that reaches the threshold, retries with the doubled size after
    a successful run without artifact or with a smaller one, and gives up
    after a failed run. *)
Definition accepts (threshold : Z) (r : run_result) : bool :=
  succeeded r
  && match produced_path r with
     | Some _ => negb (mb_ltb (size_mb r) threshold)
     | None => false
     end.

Definition retries (threshold : Z) (r : run_result) : bool :=
  succeeded r
  && match produced_path r with
     | Some _ => mb_ltb (size_mb r) threshold
     | None => true
     end.

(** The k-th attempt of a search that starts when the clock shows [t0]. *)
Definition attempt (w : world) (t0 k : nat) : run_result :=
  measure (w_proc w (t0 + k)).

(** The shape shared by the iterations of both sweeps. *)
Definition sweep_step {X : Type} (w : world) (trace_name : nat -> string)
    (mkcmd : X -> list string) (mkrec : nat -> mb -> X -> record)
    (st : state) (x : X) : state :=
  let '(r, st1) := run_benchmark_and_get_size w (mkcmd x) st in
  finish_run w (clock st) r (trace_name (idx_counter st))
    (mkrec (idx_counter st) (size_mb r) x) st1.

(** The journal entry a sweep run writes when it is invocation [k] and
    holds index [idx]. *)
Definition sweep_doc {X : Type} (w : world) (mkrec : nat -> mb -> X -> record)
    (k idx : nat) (x : X) : string * doc :=
  let rcd := mkrec idx (size_mb (measure (w_proc w k))) x in
  (rec_id rcd +:+ ".json", DocRecord rcd).

(** Whether invocation [k] leaves a file in the trace directory. *)
Definition lands (w : world) (k : nat) : bool :=
  match produced_path (measure (w_proc w k)) with
  | Some _ => w_move w k
  | None => false
  end.

(** The command of a search attempt at [cur_size]; the trace-file flag and
    path handed to [build_base_benchmark_cmd] are not part of it. *)
Definition search_cmd (shlex_split : string -> list string) (p : profile)
    (bc : bconf) (exe_path : string) (cur_size : Z) : list string :=
  build_base_benchmark_cmd shlex_split exe_path (benchmark_base_arg p)
    (benchmark_trace_filename_arg p)
    (path_join (data_save_path p) (format_data_filename (bc_id bc) "0" 0))
    (size_arg bc) cur_size.

(** The state after [n] attempts that were retried, the first at size [c]. *)
Fixpoint retried (shlex_split : string -> list string) (p : profile)
    (bc : bconf) (exe_path : string) (n : nat) (c : Z) (st : state) : state :=
  match n with
  | O => st
  | S n' =>
      retried shlex_split p bc exe_path n' (c * 2)
        (log_run (search_cmd shlex_split p bc exe_path c) st)
  end.

(** The name the base record and the summary give to the base trace. *)
Definition base_dest_name (w : world) (bc : bconf) (st : state) : string :=
  if w_move w (clock st)
  then basename (format_data_filename (bc_id bc) "0" (idx_counter st))
  else default "" (produced_path (measure (w_proc w (clock st)))).

(** The record written when the attempt at size [c] is accepted. *)
Definition accepted_record (shlex_split : string -> list string) (w : world)
    (p : profile) (bench_name : string) (bc : bconf) (exe_path : string)
    (c : Z) (st : state) : record :=
  base_record shlex_split p bench_name bc exe_path (idx_counter st) c
    (size_mb (measure (w_proc w (clock st)))) (base_dest_name w bc st).

(** The state in which the search leaves the loop when the attempt at size
    [c], made in state [st], is accepted. *)
Definition accepted (shlex_split : string -> list string) (w : world)
    (p : profile) (bench_name : string) (bc : bconf) (exe_path : string)
    (c : Z) (st : state) : state :=
  let rcd := accepted_record shlex_split w p bench_name bc exe_path c st in
  note_produced (basename (rec_id rcd +:+ ".json")) (base_dest_name w bc st)
    (put_doc (rec_id rcd +:+ ".json") (DocRecord rcd)
       (relocate w (clock st) (format_data_filename (bc_id bc) "0" (idx_counter st))
          (log_run (search_cmd shlex_split p bc exe_path c) st))).

(** No fatal condition before the search: the benchmark is configured, its
    directory exists and the build succeeds. *)
Definition ready (w : world) (p : profile) (bench_name : string) (bc : bconf) : Prop :=
  benchmark_config p !! bench_name = Some bc
  /\ w_isdir w (benchmark_dir p bench_name) = true
  /\ w_go_build w (benchmark_dir p bench_name) = 0.

(** The search of a run started in [st] accepts its attempt number [k],
    having retried all the earlier ones. *)
Definition base_found_at (w : world) (p : profile) (st : state) (k : nat) : Prop :=
  (forall j, (j < k)%nat ->
     retries (benchmark_trace_min_size_MB p) (attempt w (clock st) j) = true)
  /\ accepts (benchmark_trace_min_size_MB p) (attempt w (clock st) k) = true.

(** The base size reached after [k] doublings of the configured start. *)
Definition base_size_at (bc : bconf) (k : nat) : Z :=
  size_arg_start bc * 2 ^ Z.of_nat k.

(** The state of a run, started in [st], whose search accepted attempt [k]:
    when the base record has been written, after both sweeps, and at the
    end. *)
Definition based (shlex_split : string -> list string) (w : world) (p : profile)
    (bench_name : string) (bc : bconf) (exe_path : string) (st : state)
    (k : nat) : state :=
  accepted shlex_split w p bench_name bc exe_path (base_size_at bc k)
    (retried shlex_split p bc exe_path k (size_arg_start bc) (enter st)).

Definition swept (shlex_split : string -> list string) (w : world) (p : profile)
    (bench_name : string) (bc : bconf) (exe_path : string) (st : state)
    (k : nat) : state :=
  sweeps shlex_split w p bench_name bc exe_path (base_size_at bc k)
    (based shlex_split w p bench_name bc exe_path st k).

Definition finished (shlex_split : string -> list string) (w : world) (p : profile)
    (bench_name : string) (bc : bconf) (exe_path : string) (st : state)
    (k : nat) : state :=
  write_summary w bench_name (swept shlex_split w p bench_name bc exe_path st k).

(** ** Sample host and configurations

    A whitespace tokenizer (stdpp's [String.words]), which is what [shlex.split] does on text without
    quotes or backslashes, and a host whose working directory is [/work]. *)

Module Sample.

Definition split_ws (s : string) : list string := String.words s.

Definition abspath (s : string) : string :=
  match s with
  | String "/" _ => s
  | _ => "/work/" +:+ s
  end.

Definition MiB : N := 1048576%N.

(** A process that exits with 0 and leaves one artifact of [n] bytes. *)
Definition artifact (name : string) (n : N) : proc :=
  {| returncode := 0;
     matches := [ {| af_name := name; af_mtime := 0; af_size := n |} ] |}.

Definition no_artifact : proc := {| returncode := 0; matches := [] |}.
Definition failure : proc := {| returncode := 1; matches := [] |}.

(** The k-th process behaves as the k-th element of [l], and as [d] once
    the list is used up. *)
Definition script (l : list proc) (d : proc) (k : nat) : proc := nth k l d.

Definition mk_world (procs : nat -> proc) (moves : nat -> bool) : world :=
  {| w_isdir := fun _ => true; w_go_build := fun _ => 0;
     w_proc := procs; w_move := moves; w_summary_ok := true |}.

Definition mk_bconf (start : Z) (flags : list string)
    (values : gmap string (list jvalue)) (specials : list string) : bconf :=
  {| bc_id := "03"; base_script := "kmeans"; size_arg := "-points";
     size_arg_start := start; normal_arg_list := flags;
     normal_arg_values := values; special_arg_list := specials |}.

Definition mk_profile (bc : bconf) (threshold : Z) : profile :=
  {| benchmark_config := {[ "kmeans" := bc ]};
     data_save_path := "./data"; data_record_save_path := "./data_record";
     benchmark_path := "bench"; benchmark_base_arg := "-timing -trace-vis";
     benchmark_trace_filename_arg := "-trace-vis-db-file";
     benchmark_trace_min_size_MB := threshold |}.

Definition fresh : state :=
  {| clock := 0; executed := []; record_dir := []; data_dir := ∅;
     idx_counter := 0; produced_traces := []; produced_records := [] |}.


Definition plain_bconf : bconf := mk_bconf 1 [] ∅ [].

(** Two flags with two values each and one special entry; the search is
    the one above, then the five sweep runs fail, leave nothing, leave an
    artifact that is relocated, leave one that cannot be, and fail. *)
Definition sweep_bconf : bconf :=
  mk_bconf 1 ["-a"; "-b"]
    {[ "a" := [JInt 1; JInt 2]; "b" := [JInt 10; JInt 20] ]} ["-x 1 2"].

Definition sweep_world : world :=
  mk_world
    (script [ no_artifact;
              artifact "akita_sim_1.sqlite3" (2 * MiB);
              artifact "akita_sim_2.sqlite3" (2 * MiB);
              artifact "akita_sim_3.sqlite3" (6 * MiB);
              failure;
              no_artifact;
              artifact "akita_sim_6.sqlite3" (3 * MiB);
              artifact "akita_sim_7.sqlite3" (3 * MiB);
              failure ] failure)
    (fun k => negb (Nat.eqb k 7)).

(** The first attempt is accepted, and no relocation ever succeeds. *)
Definition stuck_world : world :=
  mk_world (script [] (artifact "akita_sim_0.sqlite3" (6 * MiB))) (fun _ => false).

(** The second attempt of the search fails. *)
Definition failing_world : world :=
  mk_world (script [ no_artifact ] failure) (fun _ => true).

(** No attempt ever leaves an artifact. *)
Definition barren_world : world :=
  mk_world (script [] no_artifact) (fun _ => true).

Definition zero_bconf : bconf := mk_bconf 0 [] ∅ [].

End Sample.

(** The type id of the run at position [a] of an orchestration, the base
    run being at position 0: "0" up to the last normal combination, "1"
    after it. *)
Definition run_type (bc : bconf) (a : nat) : string :=
  if (a <=? length (normal_combinations bc))%nat then "0" else "1".

(** ** The command line

    The [__main__] block, from the list of benchmark names on: the names
    given with [--benchmarks], or else the tokens of the line read at the
    prompt.  [None] for the profile is a [data_config.json] that is not
    there. *)

Inductive main_result : Type :=
| Exit (code : Z) (st : state)                             (* [sys.exit(code)] *)
| Hang (bench_name : string) (cur_size : Z) (st : state).  (* a search still running *)

Section CommandLine.

Variable shlex_split : string -> list string.
Variable abspath : string -> string.
Variable fuel : nat.
Variable w : world.
Variable p : profile.

(** [for bench in benchmarks: rc |= process_benchmark(profile, bench)] *)
Fixpoint run_benchmarks (benchmarks : list string) (rc : Z) (st : state) : main_result :=
  match benchmarks with
  | [] => Exit rc st
  | bench :: rest =>
      match process_benchmark shlex_split abspath fuel w p bench st with
      | Returned status st' => run_benchmarks rest (Z.lor rc status) st'
      | Pending cur_size st' => Hang bench cur_size st'
      end
  end.

(** The benchmarks processed one after the other, each from the state the
    one before left, with the statuses they returned. *)
Inductive processed : list string -> state -> list Z -> state -> Prop :=
| processed_nil (st : state) : processed [] st [] st
| processed_cons (bench : string) (rest : list string) (st st1 st2 : state)
    (status : Z) (statuses : list Z) :
    process_benchmark shlex_split abspath fuel w p bench st = Returned status st1 ->
    processed rest st1 statuses st2 ->
    processed (bench :: rest) st (status :: statuses) st2.

End CommandLine.

Definition main (shlex_split : string -> list string) (abspath : string -> string)
    (fuel : nat) (w : world) (loaded : option profile) (benchmarks : list string)
    (st : state) : main_result :=
  match loaded with
  | None => Exit 1 st
  | Some p =>
      match benchmarks with
      | [] => Exit 1 st
      | _ =>
          let missing :=
            List.filter (fun b => negb (bool_decide (is_Some (benchmark_config p !! b))))
              benchmarks in
          match missing with
          | _ :: _ => Exit 1 st
          | [] => run_benchmarks shlex_split abspath fuel w p benchmarks 0 st
          end
      end
  end.


(** * Uploading a benchmark: [upload_data.py] and [google_drive.py]

    Conventions of this part.
    - A path is the string the source holds; [Path(..)] is the list of its
      [parts] as [pathlib] computes them on POSIX.
    - The local files [upload] looks at are an oracle [local_files].
    - The Drive service is an oracle [drive].  The requests that change the
      Drive (creating a folder, creating a file, updating a file) are kept in
      a journal, oldest first; the reply to any request may depend on the
      journal so far, and on nothing else: nobody else changes the Drive
      while one of these functions runs.  Any request may fail with
      [HttpError], which no function here handles itself.
    - [get_service] (the authorisation) is outside: every function is given
      its [service]. *)

(** ** Paths as [os.path] and [pathlib] read them *)

(** [s.lstrip("/")] and [s.rstrip("/")] *)
Fixpoint lstrip_slash (s : string) : string :=
  match s with
  | String "/" s' => lstrip_slash s'
  | _ => s
  end.

Fixpoint rstrip_slash (s : string) : string :=
  match s with
  | "" => ""
  | String c s' =>
      match rstrip_slash s' with
      | "" => if Ascii.eqb c "/" then "" else String c ""
      | t => String c t
      end
  end.

(** [s.split("/")] *)
Fixpoint split_slash (s : string) : list string :=
  match s with
  | "" => [""]
  | String c s' =>
      if Ascii.eqb c "/" then "" :: split_slash s'
      else match split_slash s' with
           | x :: xs => String c x :: xs
           | [] => [String c ""]
           end
  end.

(** [p[:p.rfind("/") + 1]]: the path up to its last separator, included. *)
Fixpoint head_of (p : string) : string :=
  match p with
  | "" => ""
  | String c p' =>
      match head_of p' with
      | "" => if Ascii.eqb c "/" then "/" else ""
      | h => String c h
      end
  end.

(** [os.path.dirname] *)
Definition dirname (p : string) : string :=
  let head := head_of p in
  if negb (String.eqb head "") && negb (String.eqb (lstrip_slash head) "")
  then rstrip_slash head
  else head.

Definition is_rooted (s : string) : bool :=
  match s with
  | String "/" _ => true
  | _ => false
  end.

(** The root of a POSIX path and what follows it: exactly two leading
    separators are kept as the root, any other number counts as one. *)
Definition splitroot (part : string) : string * string :=
  if is_rooted part then
    let stripped := lstrip_slash part in
    if (String.length part - String.length stripped =? 2)%nat
    then ("//", stripped) else ("/", stripped)
  else ("", part).

(** [Path(path).parts] *)
Definition path_parts (path : string) : list string :=
  let '(root, rel) := splitroot path in
  let tail :=
    List.filter (fun x => negb (String.eqb x "" || String.eqb x ".")) (split_slash rel) in
  if String.eqb root "" then tail else root :: tail.

(** [Path / key] on the parts, and [str(Path)]. *)
Definition joinpath (parts : list string) (key : string) : list string :=
  if is_rooted key then path_parts key else parts ++ path_parts key.

Definition path_str (parts : list string) : string :=
  match parts with
  | [] => "."
  | r :: tail =>
      if is_rooted r then r +:+ String.concat "/" tail else String.concat "/" parts
  end.

(** [s.lower()] on the characters of ASCII.  A string with a character
    outside ASCII lowers in Python to one that still has such a character,
    or has a [k] (from the Kelvin sign); the strings compared with below
    have neither, so these comparisons come out as in Python. *)
Definition lower_ascii (c : ascii) : ascii :=
  let n := nat_of_ascii c in
  if ((65 <=? n) && (n <=? 90))%nat then ascii_of_nat (n + 32) else c.

Fixpoint lower (s : string) : string :=
  match s with
  | "" => ""
  | String c s' => String (lower_ascii c) (lower s')
  end.

(** ** The Drive service *)

Inductive reply (A : Type) : Type :=
| Ok (a : A)
| Failed.                                   (* [HttpError] *)

Arguments Ok {A} a.
Arguments Failed {A}.

Inductive request : Type :=
| CreateFolder (name parent_id : string)
| CreateFile (name parent_id src_path : string)
| UpdateFile (file_id src_path : string).

(** - [files_list j q]: the ids of the files [files().list(q=q)] returns;
    - [files_mimeType j id], [files_parents j id]: the fields of
      [files().get(fileId=id)];
    - [files_write j r]: the id in the reply to the changing request [r];
    - [media_ok src]: whether [MediaFileUpload(src)] can be made. *)
Record drive : Type :=
  { files_list : list request -> string -> reply (list string);
    files_mimeType : list request -> string -> reply string;
    files_parents : list request -> string -> reply (list string);
    files_write : list request -> request -> reply string;
    media_ok : string -> bool }.

Inductive exn : Type :=
| FileNotFoundError (msg : string)
| FileExistsError (msg : string)
| HttpError
| MediaError.

Inductive outcome (A : Type) : Type :=
| Done (a : A)
| Raised (e : exn).

Arguments Done {A} a.
Arguments Raised {A} e.

Definition FOLDER_MIME : string := "application/vnd.google-apps.folder".

(** The truth value of an optional id: [None] and the empty string are
    false. *)
Definition truthy (o : option string) : option string :=
  match o with
  | Some "" => None
  | _ => o
  end.

Section Drive.

Variable service : drive.

Definition _find_child_id (j : list request) (parent_id name : string)
    (is_folder : option bool) : reply (option string) :=
  let escaped_name := str_replace "'" "\'" name in
  let q_parts :=
    [ "'" +:+ parent_id +:+ "' in parents";
      "name = '" +:+ escaped_name +:+ "'";
      "trashed = false" ] in
  let q_parts :=
    match is_folder with
    | Some true => q_parts ++ ["mimeType = 'application/vnd.google-apps.folder'"]
    | Some false => q_parts ++ ["mimeType != 'application/vnd.google-apps.folder'"]
    | None => q_parts
    end in
  let q := String.concat " and " q_parts in
  match files_list service j q with
  | Failed => Failed
  | Ok [] => Ok None
  | Ok (f :: _) => Ok (Some f)
  end.

(** The loop of [path_to_id] over the segments that are left: folders on
    the way, and for the last segment a file if there is one, else a
    folder. *)
Fixpoint walk (j : list request) (current_id : string) (parts : list string)
    : outcome string :=
  match parts with
  | [] => Done current_id
  | seg :: rest =>
      match rest with
      | _ :: _ =>
          match _find_child_id j current_id seg (Some true) with
          | Failed => Raised HttpError
          | Ok next_id =>
              match truthy next_id with
              | None =>
                  Raised (FileNotFoundError
                            ("Folder '" +:+ seg +:+ "' not found under parent id "
                               +:+ current_id))
              | Some next_id => walk j next_id rest
              end
          end
      | [] =>
          match _find_child_id j current_id seg (Some false) with
          | Failed => Raised HttpError
          | Ok fid =>
              match truthy fid with
              | Some fid => Done fid
              | None =>
                  match _find_child_id j current_id seg (Some true) with
                  | Failed => Raised HttpError
                  | Ok fid =>
                      match truthy fid with
                      | Some fid => Done fid
                      | None =>
                          Raised (FileNotFoundError
                                    ("Item '" +:+ seg +:+ "' not found under parent id "
                                       +:+ current_id))
                      end
                  end
              end
          end
      end
  end.

Definition is_root_marker (s : string) : bool :=
  String.eqb s "my drive" || String.eqb s "mydrive" || String.eqb s "root".

Definition path_to_id (j : list request) (path : string) : outcome string :=
  let parts :=
    List.filter (fun seg => negb (String.eqb seg "" || String.eqb seg "/"))
      (path_parts path) in
  match parts with
  | [] => Done "root"
  | first :: rest =>
      let parts := if is_root_marker (lower first) then rest else parts in
      walk j "root" parts
  end.

(** A changing request: it is entered in the journal, and answered. *)
Definition issue (j : list request) (r : request) : outcome string * list request :=
  match files_write service j r with
  | Ok id => (Done id, j ++ [r])
  | Failed => (Raised HttpError, j ++ [r])
  end.

(** The end of [upload_file], from [media = MediaFileUpload(src_path)]. *)
Definition send (src_path parent_id file_name : string)
    (existing_file_id : option string) (j : list request)
    : outcome string * list request :=
  if negb (media_ok service src_path) then (Raised MediaError, j)
  else
    match truthy existing_file_id with
    | Some id => issue j (UpdateFile id src_path)
    | None => issue j (CreateFile file_name parent_id src_path)
    end.

Definition upload_file (src_path google_drive_relative_path : string)
    (overwrite : bool) (j : list request) : outcome string * list request :=
  match path_to_id j google_drive_relative_path with
  | Done target_id =>
      match files_mimeType service j target_id with
      | Failed => (Raised HttpError, j)
      | Ok mime =>
          if String.eqb mime FOLDER_MIME
          then send src_path target_id (basename src_path) None j
          else if overwrite then
            match files_parents service j target_id with
            | Failed => (Raised HttpError, j)
            | Ok parent_list =>
                let parent_id := hd "root" parent_list in
                send src_path parent_id (basename google_drive_relative_path)
                  (Some target_id) j
            end
          else
            (Raised (FileExistsError
                       ("Target file exists at " +:+ google_drive_relative_path
                          +:+ ". Use overwrite=True.")), j)
      end
  | Raised (FileNotFoundError _) =>
      let parent_path := dirname google_drive_relative_path in
      let folder_name := basename google_drive_relative_path in
      let parent :=
        if String.eqb parent_path "" then Done "root"
        else path_to_id j parent_path in
      match parent with
      | Raised e => (Raised e, j)
      | Done parent_id =>
          match issue j (CreateFolder folder_name parent_id) with
          | (Raised e, j1) => (Raised e, j1)
          | (Done created, j1) => send src_path created (basename src_path) None j1
          end
      end
  | Raised e => (Raised e, j)
  end.

(** [upload_files]: one result per pair, [(src, target, True, id)] or
    [(src, target, False, e)]. *)
Fixpoint upload_files (src_and_targets : list (string * string)) (overwrite : bool)
    (j : list request) : list (string * string * outcome string) * list request :=
  match src_and_targets with
  | [] => ([], j)
  | (src, drive_target) :: rest =>
      let '(o, j1) := upload_file src drive_target overwrite j in
      let '(results, j2) := upload_files rest overwrite j1 in
      ((src, drive_target, o) :: results, j2)
  end.

End Drive.

(** ** [upload] *)

Definition DRIVE_BASE : string := "My Drive/Workspace/Daisenbot_Dataset".

(** The local files: which paths exist, and the summary a path holds, a key
    that is not there read as the empty list. *)
Record local_files : Type :=
  { lf_exists : string -> bool;
    lf_summary : string -> summary }.

(** [str(Path(dir) / name)] *)
Definition local_path (dir name : string) : string :=
  path_str (joinpath (path_parts dir) name).

Definition summary_path (benchmark : string) : string :=
  local_path "data_record" (benchmark +:+ ".json").

(** One iteration of the loops over the listed names: the file goes to
    [pairs] with its remote folder, or to [missing]. *)
Definition collect (fs : local_files) (dir drive_target : string)
    (acc : list (string * string) * list string) (name : string)
    : list (string * string) * list string :=
  let src := local_path dir name in
  if negb (lf_exists fs src) then (fst acc, snd acc ++ [src])
  else (fst acc ++ [(src, drive_target)], snd acc).

Definition missing_message (benchmark : string) (missing : list string) : string :=
  "Missing local files referenced by " +:+ summary_path benchmark +:+ ": "
    +:+ String.concat ", " missing.

Definition upload (fs : local_files) (service : drive) (benchmark : string)
    (overwrite : bool) (j : list request)
    : outcome (list (string * string * outcome string)) * list request :=
  if negb (lf_exists fs (summary_path benchmark))
  then (Raised (FileNotFoundError
                  ("Summary file not found: " +:+ summary_path benchmark)), j)
  else
    let summary := lf_summary fs (summary_path benchmark) in
    let acc := ([], []) in
    let acc := fold_left (collect fs "data" (DRIVE_BASE +:+ "/data/"))
                 (sum_data summary) acc in
    let acc := fold_left (collect fs "data_record" (DRIVE_BASE +:+ "/data_record/"))
                 (sum_data_record summary) acc in
    match snd acc with
    | _ :: _ => (Raised (FileNotFoundError (missing_message benchmark (snd acc))), j)
    | [] =>
        let '(results, j1) := upload_files service (fst acc) overwrite j in
        (Done results, j1)
    end.

(** ** Sample Drive and local files *)

Module DriveSample.

Definition assoc {A : Type} (d : A) (table : list (string * A)) (key : string) : A :=
  match List.find (fun kv => String.eqb (fst kv) key) table with
  | Some kv => snd kv
  | None => d
  end.

(** A Drive given by the answers to its queries and the types of its
    items; it accepts every changing request and answers it with the id
    [new<n>], [n] being the number of requests before. *)
Definition table_drive (listing : list (string * list string))
    (mimes : list (string * string)) : drive :=
  {| files_list := fun _ q => Ok (assoc [] listing q);
     files_mimeType := fun _ id => Ok (assoc "application/octet-stream" mimes id);
     files_parents := fun _ _ => Ok [];
     files_write := fun j _ => Ok ("new" +:+ str_of_nat (length j));
     media_ok := fun _ => true |}.

(** A Drive that holds nothing. *)
Definition empty_drive : drive := table_drive [] [].

(** A Drive with the folders [Workspace/Daisenbot_Dataset/data], and in
    the last one the file [D0300000.sqlite3]. *)
Definition dataset_drive : drive :=
  table_drive
    [ ("'root' in parents and name = 'Workspace' and trashed = false and mimeType = 'application/vnd.google-apps.folder'",
       ["W"]);
      ("'W' in parents and name = 'Daisenbot_Dataset' and trashed = false and mimeType = 'application/vnd.google-apps.folder'",
       ["DD"]);
      ("'DD' in parents and name = 'data' and trashed = false and mimeType = 'application/vnd.google-apps.folder'",
       ["DATA"]);
      ("'DATA' in parents and name = 'D0300000.sqlite3' and trashed = false and mimeType != 'application/vnd.google-apps.folder'",
       ["F0"]) ]
    [ ("W", FOLDER_MIME); ("DD", FOLDER_MIME); ("DATA", FOLDER_MIME) ].

(** A Drive with the folder [Workspace/Daisenbot_Dataset] and nothing in
    it. *)
Definition bare_drive : drive :=
  table_drive
    [ ("'root' in parents and name = 'Workspace' and trashed = false and mimeType = 'application/vnd.google-apps.folder'",
       ["W"]);
      ("'W' in parents and name = 'Daisenbot_Dataset' and trashed = false and mimeType = 'application/vnd.google-apps.folder'",
       ["DD"]) ]
    [ ("W", FOLDER_MIME); ("DD", FOLDER_MIME) ].

(** Local files: the paths that exist, and one summary for every path. *)
Definition files_of (paths : list string) (s : summary) : local_files :=
  {| lf_exists := fun path => existsb (String.eqb path) paths;
     lf_summary := fun _ => s |}.

Definition kmeans_summary : summary :=
  {| sum_benchmark := "kmeans";
     sum_data := ["D0300000.sqlite3"; "D0300001.sqlite3"];
     sum_data_record := ["D0300000.json"; "D0300001.json"] |}.

End DriveSample.


(** * Properties *)

(** ** The printing and measuring functions on a few inputs *)

Example fmt_04d_examples :
  fmt_04d 0 = "0000" /\ fmt_04d 7 = "0007" /\ fmt_04d 9999 = "9999"
  /\ fmt_04d 12345 = "12345".
Proof. repeat split. Qed.

(** [repr] of 6.0, 6.25, 6.5, 0.05 and 0.0. *)
Example repr_hundredths_examples :
  repr_hundredths 600 = "6.0" /\ repr_hundredths 625 = "6.25"
  /\ repr_hundredths 650 = "6.5" /\ repr_hundredths 5 = "0.05"
  /\ repr_hundredths 0 = "0.0".
Proof. repeat split. Qed.

(** 6 MiB is 6.0; 0.125 and 0.375 are ties, rounded to the even hundredth;
    a million bytes is 0.95. *)
Example size_mb_of_bytes_examples :
  size_mb_of_bytes 6291456 = 600%N /\ size_mb_of_bytes 131072 = 12%N
  /\ size_mb_of_bytes 393216 = 38%N /\ size_mb_of_bytes 1000000 = 95%N.
Proof. repeat split. Qed.

(** Of two files of the same, latest, modification time the first listed is
    the one measured. *)
Example measure_tie :
  measure {| returncode := 0;
             matches := [ {| af_name := "akita_sim_a.sqlite3"; af_mtime := 5; af_size := 0 |};
                          {| af_name := "akita_sim_b.sqlite3"; af_mtime := 9; af_size := 1048576 |};
                          {| af_name := "akita_sim_c.sqlite3"; af_mtime := 9; af_size := 2097152 |} ] |}
  = {| succeeded := true; size_mb := MbFloat 100;
       produced_path := Some "akita_sim_b.sqlite3" |}.
Proof. reflexivity. Qed.

(** ** Strings and decimal numerals *)

Lemma string_app_cons (c : ascii) (a b : string) :
  String c a +:+ b = String c (a +:+ b).
Proof. reflexivity. Qed.

Lemma string_app_nil_l (b : string) : "" +:+ b = b.
Proof. reflexivity. Qed.

Lemma string_app_nil_r (s : string) : s +:+ "" = s.
Proof.
  induction s as [|c s IH]; [reflexivity|].
  now rewrite string_app_cons, IH.
Qed.

Lemma string_app_assoc (a b c : string) : (a +:+ b) +:+ c = a +:+ b +:+ c.
Proof.
  induction a as [|x a IH]; [reflexivity|].
  now rewrite !string_app_cons, IH.
Qed.

Lemma string_length_app (a b : string) :
  String.length (a +:+ b) = (String.length a + String.length b)%nat.
Proof.
  induction a as [|x a IH]; [reflexivity|].
  rewrite string_app_cons. cbn. now rewrite IH.
Qed.

Lemma strip_suffix_app (a suf : string) : strip_suffix suf (a +:+ suf) = Some a.
Proof.
  induction a as [|c a IH].
  - rewrite string_app_nil_l. destruct suf as [|x suf]; [reflexivity|].
    cbn [strip_suffix]. now rewrite String.eqb_refl.
  - rewrite string_app_cons. cbn [strip_suffix].
    destruct (String.eqb_spec (String c (a +:+ suf)) suf) as [E|_].
    + apply (f_equal String.length) in E. cbn in E.
      rewrite string_length_app in E. lia.
    + rewrite IH. reflexivity.
Qed.

Lemma zeros_uint (k : nat) (d : uint) :
  zeros k +:+ NilEmpty.string_of_uint d = NilEmpty.string_of_uint (Nat.iter k D0 d).
Proof.
  induction k as [|k IH]; [reflexivity|].
  cbn [zeros]. rewrite string_app_cons, IH. reflexivity.
Qed.

Lemma zeros_length (k : nat) : String.length (zeros k) = k.
Proof. induction k; cbn; congruence. Qed.

(** The digits of [index:04d] read back as [index]. *)
Lemma fmt_04d_read (index : nat) :
  exists d, NilEmpty.uint_of_string (fmt_04d index) = Some d /\ Nat.of_uint d = index.
Proof.
  unfold fmt_04d, str_of_nat. rewrite zeros_uint, NilEmpty.usu.
  eexists; split; [reflexivity|].
  rewrite <- DecimalNat.Unsigned.of_uint_norm, unorm_iter_D0,
    DecimalNat.Unsigned.of_uint_norm.
  apply DecimalNat.Unsigned.of_to.
Qed.

Lemma fmt_04d_length (index : nat) :
  String.length (fmt_04d index) = Nat.max 4 (String.length (str_of_nat index)).
Proof. unfold fmt_04d. rewrite string_length_app, zeros_length. lia. Qed.

Lemma fmt_04d_inj (i j : nat) : fmt_04d i = fmt_04d j -> i = j.
Proof.
  intros E. destruct (fmt_04d_read i) as (d & Hd & <-).
  destruct (fmt_04d_read j) as (d' & Hd' & <-). congruence.
Qed.

Lemma parse_format (b1 b2 t : ascii) (index : nat) :
  parse_data_filename
    (format_data_filename (String b1 (String b2 "")) (String t "") index)
  = Some (String b1 (String b2 ""), String t "", index).
Proof.
  unfold format_data_filename, DATA_TASK_PREFIX.
  rewrite !string_app_cons, !string_app_nil_l.
  unfold parse_data_filename. rewrite strip_suffix_app.
  destruct (fmt_04d_read index) as (d & -> & ->). reflexivity.
Qed.

(** ** The combinations of the normal pass *)

Section Product.
Context {A : Type}.
Implicit Types (pool : list A) (pools : list (list A)).

Lemma flat_map_flat_map {B C D : Type} (f : C -> list D) (g : B -> list C) (l : list B) :
  flat_map f (flat_map g l) = flat_map (fun x => flat_map f (g x)) l.
Proof.
  induction l as [|x l IH]; [reflexivity|].
  cbn. now rewrite flat_map_app, IH.
Qed.

Lemma extend_tuple (x : list A) (tails : list (list A)) pool :
  flat_map (fun z => map (app z) tails) (map (fun y => x ++ [y]) pool)
  = map (app x) (flat_map (fun v => map (cons v) tails) pool).
Proof.
  induction pool as [|y pool IH]; [reflexivity|].
  cbn. rewrite IH, map_app, map_map. f_equal.
  apply map_ext. intros c. now rewrite <- app_assoc.
Qed.

(** The left-to-right construction of [itertools.product], started from any
    list of partial tuples, appends the lexicographic enumeration of the
    remaining pools to each of them. *)
Lemma product_fold pools (acc : list (list A)) :
  fold_left
    (fun result pool => flat_map (fun x => map (fun y => x ++ [y]) pool) result)
    pools acc
  = flat_map (fun x => map (app x) (lex_product pools)) acc.
Proof.
  revert acc. induction pools as [|pool rest IH]; intros acc.
  - cbn. induction acc as [|x acc IHa]; [reflexivity|].
    cbn. now rewrite app_nil_r, <- IHa.
  - cbn [fold_left lex_product]. rewrite IH, flat_map_flat_map.
    apply flat_map_ext. intros x. apply extend_tuple.
Qed.

Lemma product_lex pools : product pools = lex_product pools.
Proof.
  unfold product. rewrite product_fold. cbn.
  rewrite app_nil_r. apply map_id.
Qed.

Lemma lex_product_volume (pools : list (list A)) :
  length (lex_product pools) = volume pools.
Proof.
  induction pools as [|pool rest IH]; [reflexivity|].
  cbn [lex_product volume]. rewrite <- IH. clear IH.
  induction pool as [|v pool IHp]; [reflexivity|].
  cbn. rewrite length_app, length_map, IHp. lia.
Qed.

(** Blocks of equal length laid end to end: position [n] is in block
    [n / m], at offset [n mod m]. *)
Lemma blocks_lookup (pool : list A) (tails : list (list A)) (n : nat) :
  (n < length pool * length tails)%nat ->
  flat_map (fun v => map (cons v) tails) pool !! n
  = match pool !! (n / length tails)%nat, tails !! (n mod length tails)%nat with
    | Some v, Some c => Some (v :: c)
    | _, _ => None
    end.
Proof.
  set (m := length tails).
  revert n. induction pool as [|v pool IH]; intros n Hn; [cbn in Hn; lia|].
  assert (Hm : m <> 0%nat) by (intros E; rewrite E in Hn; lia).
  cbn [flat_map]. destruct (Nat.lt_ge_cases n m) as [Hlt | Hge].
  - rewrite lookup_app_l by (rewrite length_map; exact Hlt).
    rewrite Nat.div_small, Nat.mod_small by exact Hlt.
    rewrite list_lookup_fmap. cbn.
    destruct (lookup_lt_is_Some_2 tails n Hlt) as (c & ->). reflexivity.
  - rewrite lookup_app_r by (rewrite length_map; exact Hge).
    rewrite length_map. fold m.
    rewrite IH by (cbn [length] in Hn; lia).
    assert (Hdiv : (n / m = S ((n - m) / m))%nat).
    { replace n with ((n - m) + 1 * m)%nat at 1 by lia.
      rewrite Nat.div_add by exact Hm. lia. }
    assert (Hmod : (n mod m = (n - m) mod m)%nat).
    { replace n with ((n - m) + 1 * m)%nat at 1 by lia.
      apply Nat.Div0.mod_add. }
    rewrite Hdiv, Hmod. reflexivity.
Qed.

(** Position [n] of the enumeration holds, for each flag, the value whose
    rank is the digit of [n] in the mixed radix of the list lengths, the last
    flag being the least significant digit. *)
Lemma lex_product_lookup (pools : list (list A)) (n : nat) :
  (n < volume pools)%nat -> lex_product pools !! n = combo_at pools n.
Proof.
  revert n. induction pools as [|pool rest IH]; intros n Hn.
  - cbn in Hn. now replace n with 0%nat by lia.
  - cbn [lex_product combo_at volume] in *.
    rewrite <- lex_product_volume in *.
    rewrite blocks_lookup by exact Hn.
    destruct (pool !! (n / length (lex_product rest))%nat) as [v|]; [|reflexivity].
    rewrite IH; [reflexivity|].
    apply Nat.mod_upper_bound. intros E. rewrite E in Hn. lia.
Qed.
(** Exactly the tuples that take one value from each pool, in order. *)
Lemma lex_product_spec pools (c : list A) :
  In c (lex_product pools) <-> Forall2 (fun v pool => In v pool) c pools.
Proof.
  revert c. induction pools as [|pool rest IH]; intros c.
  - cbn. split.
    + intros [<- | []]. constructor.
    + intros H. inversion H. now left.
  - cbn [lex_product]. rewrite in_flat_map. split.
    + intros (v & Hv & Hc). apply in_map_iff in Hc as (c' & <- & Hc').
      constructor; [exact Hv | now apply IH].
    + intros H. inversion H as [|v pool' c' rest' Hv Hc']; subst.
      exists v. split; [exact Hv|]. apply in_map_iff.
      exists c'. split; [reflexivity | now apply IH].
Qed.
End Product.

(** ** The base-size search *)

Lemma accepts_inv (t : Z) (r : run_result) :
  accepts t r = true ->
  succeeded r = true /\ exists src, produced_path r = Some src /\ mb_ltb (size_mb r) t = false.
Proof.
  unfold accepts. destruct (succeeded r); [|discriminate].
  destruct (produced_path r) as [src|]; [|discriminate].
  cbn. intros H%negb_true_iff. eauto.
Qed.

Lemma retries_not_accepts (t : Z) (r : run_result) :
  retries t r = true -> accepts t r = false.
Proof.
  unfold retries, accepts. destruct (succeeded r); [|reflexivity].
  destruct (produced_path r); cbn; [|reflexivity]. now intros ->.
Qed.

(** An attempt is accepted, retried or fatal, and only one of them. *)
Lemma attempt_cases (t : Z) (r : run_result) :
  (accepts t r = true /\ retries t r = false /\ succeeded r = true)
  \/ (accepts t r = false /\ retries t r = true /\ succeeded r = true)
  \/ (accepts t r = false /\ retries t r = false /\ succeeded r = false).
Proof.
  unfold accepts, retries. destruct (succeeded r); cbn; [|tauto].
  destruct (produced_path r); [|tauto].
  destruct (mb_ltb (size_mb r) t); cbn; tauto.
Qed.


Lemma measure_failure (pr : proc) :
  returncode pr <> 0 ->
  measure pr = {| succeeded := false; size_mb := MbInt 0; produced_path := None |}.
Proof.
  intros H. unfold measure.
  destruct (Z.eqb_spec (returncode pr) 0); [contradiction | reflexivity].
Qed.

Lemma measure_succeeded (pr : proc) :
  succeeded (measure pr) = (returncode pr =? 0).
Proof.
  unfold measure. destruct (returncode pr =? 0); cbn; [|reflexivity].
  now destruct (matches pr).
Qed.

Section Search.

Variable shlex_split : string -> list string.
Variables (w : world) (p : profile) (bench_name : string) (bc : bconf).
Variable exe_path : string.

Local Abbreviation search := (base_search shlex_split w p bench_name bc exe_path).
Local Abbreviation threshold := (benchmark_trace_min_size_MB p).
Local Abbreviation cmd_at := (search_cmd shlex_split p bc exe_path).
Local Abbreviation retried_from := (retried shlex_split p bc exe_path).
Local Abbreviation accepted_at := (accepted shlex_split w p bench_name bc exe_path).

Lemma search_step_retry (fuel : nat) (c : Z) (st : state) :
  retries threshold (attempt w (clock st) 0) = true ->
  search (S fuel) c st = search fuel (c * 2) (log_run (cmd_at c) st).
Proof.
  unfold attempt, retries. rewrite Nat.add_0_r. cbn [base_search].
  unfold run_benchmark_and_get_size.
  destruct (succeeded (measure (w_proc w (clock st)))); [|discriminate].
  cbn [negb andb].
  destruct (produced_path (measure (w_proc w (clock st)))); [|reflexivity].
  now intros ->.
Qed.

Lemma search_step_abort (fuel : nat) (c : Z) (st : state) :
  succeeded (attempt w (clock st) 0) = false ->
  search (S fuel) c st = SearchAborted (log_run (cmd_at c) st).
Proof.
  unfold attempt. rewrite Nat.add_0_r. cbn [base_search].
  unfold run_benchmark_and_get_size. now intros ->.
Qed.

Lemma search_step_accept (fuel : nat) (c : Z) (st : state) :
  accepts threshold (attempt w (clock st) 0) = true ->
  search (S fuel) c st = SearchFound c (accepted_at c st).
Proof.
  unfold attempt. rewrite Nat.add_0_r.
  intros (Hs & src & Hp & Hlt)%accepts_inv.
  cbn [base_search]. unfold run_benchmark_and_get_size.
  rewrite Hs, Hp, Hlt. cbn [negb].
  unfold accepted, accepted_record, base_dest_name, write_data_record.
  rewrite Hp. reflexivity.
Qed.

Lemma retried_clock (n : nat) (c : Z) (st : state) :
  clock (retried_from n c st) = (clock st + n)%nat.
Proof.
  revert c st. induction n as [|n IH]; intros c st; cbn [retried].
  - lia.
  - rewrite IH. cbn. lia.
Qed.

(** Retried attempts only run commands. *)
Lemma retried_frame (n : nat) (c : Z) (st : state) :
  record_dir (retried_from n c st) = record_dir st
  /\ data_dir (retried_from n c st) = data_dir st
  /\ idx_counter (retried_from n c st) = idx_counter st
  /\ produced_traces (retried_from n c st) = produced_traces st
  /\ produced_records (retried_from n c st) = produced_records st.
Proof using shlex_split p bc exe_path.
  revert c st. induction n as [|n IH]; intros c st; cbn [retried].
  - repeat split; reflexivity.
  - destruct (IH (c * 2) (log_run (cmd_at c) st)) as (-> & -> & -> & -> & ->).
    repeat split; reflexivity.
Qed.

Lemma retried_executed (n : nat) (c : Z) (st : state) :
  executed (retried_from n c st)
  = executed st ++ map (fun j => cmd_at (c * 2 ^ Z.of_nat j)) (seq 0 n).
Proof.
  revert c st. induction n as [|n IH]; intros c st; cbn [retried].
  - cbn. now rewrite app_nil_r.
  - rewrite IH. cbn [log_run executed seq map]. rewrite <- app_assoc. cbn [app].
    do 2 f_equal.
    + f_equal. cbn. lia.
    + rewrite <- seq_shift, map_map. apply map_ext. intros j.
      f_equal. rewrite Nat2Z.inj_succ, Z.pow_succ_r by lia. lia.
Qed.

(** As long as the attempts are retried the search goes on, the size
    doubling each time. *)
Lemma search_retries (n fuel : nat) (c : Z) (st : state) :
  (forall j, (j < n)%nat -> retries threshold (attempt w (clock st) j) = true) ->
  search (n + fuel) c st = search fuel (c * 2 ^ Z.of_nat n) (retried_from n c st).
Proof.
  revert c st. induction n as [|n IH]; intros c st H.
  - cbn [retried Nat.add]. f_equal. cbn. lia.
  - cbn [Nat.add retried]. rewrite search_step_retry by (apply H; lia).
    rewrite IH.
    + f_equal. rewrite Nat2Z.inj_succ, Z.pow_succ_r by lia. lia.
    + intros j Hj. specialize (H (S j) ltac:(lia)).
      unfold attempt in *. cbn [log_run clock].
      now replace (S (clock st) + j)%nat with (clock st + S j)%nat by lia.
Qed.

(** Every way out of the search, read backwards. *)
Lemma search_found_inv (fuel : nat) (c bs : Z) (st st' : state) :
  search fuel c st = SearchFound bs st' ->
  exists k, (k < fuel)%nat
    /\ (forall j, (j < k)%nat -> retries threshold (attempt w (clock st) j) = true)
    /\ accepts threshold (attempt w (clock st) k) = true
    /\ bs = c * 2 ^ Z.of_nat k
    /\ st' = accepted_at bs (retried_from k c st).
Proof.
  revert c st. induction fuel as [|fuel IH]; intros c st H; [discriminate|].
  destruct (attempt_cases threshold (attempt w (clock st) 0))
    as [(Ha & _) | [(_ & Hr & _) | (_ & _ & Hf)]].
  - rewrite search_step_accept in H by exact Ha. injection H as <- <-.
    exists 0%nat. split; [lia|]. split; [intros j Hj; lia|].
    split; [exact Ha|]. split; [cbn; lia | reflexivity].
  - rewrite search_step_retry in H by exact Hr.
    apply IH in H as (k & Hk & Hpre & Hacc & -> & ->).
    assert (Hshift : forall j, attempt w (clock (log_run (cmd_at c) st)) j
                               = attempt w (clock st) (S j)).
    { intros j. unfold attempt. cbn [log_run clock]. f_equal. f_equal. lia. }
    assert (Hpow : c * 2 * 2 ^ Z.of_nat k = c * 2 ^ Z.of_nat (S k)).
    { rewrite Nat2Z.inj_succ, Z.pow_succ_r by lia. lia. }
    exists (S k). split; [lia|]. split.
    { intros [|j] Hj; [exact Hr|]. rewrite <- Hshift. apply Hpre. lia. }
    split; [now rewrite <- Hshift|]. split; [exact Hpow|].
    cbn [retried]. now rewrite Hpow.
  - rewrite search_step_abort in H by exact Hf. discriminate.
Qed.

Lemma search_aborted_inv (fuel : nat) (c : Z) (st st' : state) :
  search fuel c st = SearchAborted st' ->
  exists k, (k < fuel)%nat
    /\ (forall j, (j < k)%nat -> retries threshold (attempt w (clock st) j) = true)
    /\ succeeded (attempt w (clock st) k) = false
    /\ st' = log_run (cmd_at (c * 2 ^ Z.of_nat k)) (retried_from k c st).
Proof.
  revert c st. induction fuel as [|fuel IH]; intros c st H; [discriminate|].
  destruct (attempt_cases threshold (attempt w (clock st) 0))
    as [(Ha & _) | [(_ & Hr & _) | (_ & _ & Hf)]].
  - rewrite search_step_accept in H by exact Ha. discriminate.
  - rewrite search_step_retry in H by exact Hr.
    apply IH in H as (k & Hk & Hpre & Hacc & ->).
    assert (Hshift : forall j, attempt w (clock (log_run (cmd_at c) st)) j
                               = attempt w (clock st) (S j)).
    { intros j. unfold attempt. cbn [log_run clock]. f_equal. f_equal. lia. }
    assert (Hpow : c * 2 * 2 ^ Z.of_nat k = c * 2 ^ Z.of_nat (S k)).
    { rewrite Nat2Z.inj_succ, Z.pow_succ_r by lia. lia. }
    exists (S k). split; [lia|]. split.
    { intros [|j] Hj; [exact Hr|]. rewrite <- Hshift. apply Hpre. lia. }
    split; [now rewrite <- Hshift|].
    cbn [retried]. now rewrite Hpow.
  - rewrite search_step_abort in H by exact Hf. injection H as <-.
    exists 0%nat. split; [lia|]. split; [intros j Hj; lia|].
    split; [exact Hf|]. cbn [retried]. do 2 f_equal. cbn. lia.
Qed.

End Search.

(** ** The sweeps *)

Section Sweep.

Context {X : Type}.
Variables (w : world) (trace_name : nat -> string).
Variables (mkcmd : X -> list string) (mkrec : nat -> mb -> X -> record).

Local Abbreviation step := (sweep_step w trace_name mkcmd mkrec).
Local Abbreviation doc_at := (sweep_doc w mkrec).

(** One sweep iteration, field by field: whatever the run did, one command
    is logged, one record written, both names noted, the index advanced. *)
Lemma sweep_step_fields (st : state) (x : X) :
  clock (step st x) = S (clock st)
  /\ executed (step st x) = executed st ++ [mkcmd x]
  /\ record_dir (step st x)
     = record_dir st ++ [doc_at (clock st) (idx_counter st) x]
  /\ data_dir (step st x)
     = (if lands w (clock st)
        then {[ trace_name (idx_counter st) ]} ∪ data_dir st
        else data_dir st)
  /\ idx_counter (step st x) = S (idx_counter st)
  /\ produced_traces (step st x)
     = produced_traces st ++ [trace_name (idx_counter st)]
  /\ produced_records (step st x)
     = produced_records st
         ++ [basename (fst (doc_at (clock st) (idx_counter st) x))].
Proof.
  unfold sweep_step, run_benchmark_and_get_size, finish_run, write_data_record,
    sweep_doc, lands, relocate.
  destruct (produced_path (measure (w_proc w (clock st)))) as [src|];
    [destruct (w_move w (clock st))|]; cbn; tauto.
Qed.

Lemma sweep_fold (xs : list X) (st : state) :
  clock (fold_left step xs st) = (clock st + length xs)%nat
  /\ executed (fold_left step xs st) = executed st ++ map mkcmd xs
  /\ record_dir (fold_left step xs st)
     = record_dir st
         ++ imap (fun i x => doc_at (clock st + i) (idx_counter st + i) x) xs
  /\ idx_counter (fold_left step xs st) = (idx_counter st + length xs)%nat
  /\ produced_traces (fold_left step xs st)
     = produced_traces st
         ++ imap (fun i _ => trace_name (idx_counter st + i)) xs
  /\ produced_records (fold_left step xs st)
     = produced_records st
         ++ imap (fun i x =>
                    basename (fst (doc_at (clock st + i) (idx_counter st + i) x))) xs.
Proof.
  revert st. induction xs as [|x xs IH]; intros st.
  - cbn. rewrite !app_nil_r, !Nat.add_0_r. tauto.
  - cbn [fold_left]. destruct (IH (step st x)) as (-> & -> & -> & -> & -> & ->).
    destruct (sweep_step_fields st x) as (-> & -> & -> & _ & -> & -> & ->).
    rewrite !imap_cons, <- !app_assoc, !Nat.add_0_r. cbn [length map app].
    repeat split; try lia; do 2 f_equal; apply imap_ext; intros i y _; cbn;
      now rewrite !Nat.add_succ_r.
Qed.

(** The trace directory only gains the files of the runs whose artifact
    was relocated. *)
Lemma sweep_fold_data (xs : list X) (st : state) (f : string) :
  f ∈ data_dir (fold_left step xs st)
  <-> f ∈ data_dir st
      \/ exists i, (i < length xs)%nat
                   /\ lands w (clock st + i) = true
                   /\ f = trace_name (idx_counter st + i).
Proof.
  revert st. induction xs as [|x xs IH]; intros st.
  - cbn. split; [auto|]. intros [H | (i & Hi & _)]; [exact H | lia].
  - cbn [fold_left]. rewrite IH.
    destruct (sweep_step_fields st x) as (-> & _ & _ & -> & -> & _).
    split.
    + intros [H | (i & Hi & Hl & ->)].
      * destruct (lands w (clock st)) eqn:E.
        -- apply elem_of_union in H as [H%elem_of_singleton | H]; [|auto].
           right. exists 0%nat. rewrite !Nat.add_0_r. cbn. split; [lia|]. auto.
        -- auto.
      * right. exists (S i). rewrite !Nat.add_succ_r. cbn. split; [lia|]. auto.
    + intros [H | ([|i] & Hi & Hl & ->)].
      * left. destruct (lands w (clock st)); [|exact H].
        apply elem_of_union. now right.
      * left. rewrite !Nat.add_0_r in *. rewrite Hl.
        apply elem_of_union. left. now apply elem_of_singleton.
      * right. exists i. rewrite !Nat.add_succ_r in *. cbn in *.
        split; [lia|]. auto.
Qed.

End Sweep.

Lemma normal_step_sweep (sh : string -> list string) (w : world) (p : profile)
    (bn : string) (bc : bconf) (exe : string) (bs : Z) :
  normal_step sh w p bn bc exe bs
  = sweep_step w (format_data_filename (bc_id bc) "0")
      (normal_cmd sh p bc exe bs) (normal_record sh p bn bc exe).
Proof. reflexivity. Qed.

Lemma special_step_sweep (sh : string -> list string) (w : world) (p : profile)
    (bn : string) (bc : bconf) (exe : string) (bs : Z) :
  special_step sh w p bn bc exe bs
  = sweep_step w (format_data_filename (bc_id bc) "1")
      (special_cmd sh p bc exe bs) (special_record sh p bn bc exe bs).
Proof. reflexivity. Qed.

Section Passes.

Variable shlex_split : string -> list string.
Variables (w : world) (p : profile) (bench_name : string) (bc : bconf).
Variable exe_path : string.
Variable base_size : Z.

Local Abbreviation K := (length (normal_combinations bc)).
Local Abbreviation S' := (length (special_arg_list bc)).
Local Abbreviation trace0 := (format_data_filename (bc_id bc) "0").
Local Abbreviation trace1 := (format_data_filename (bc_id bc) "1").
Local Abbreviation doc0 :=
  (sweep_doc w (normal_record shlex_split p bench_name bc exe_path)).
Local Abbreviation doc1 :=
  (sweep_doc w (special_record shlex_split p bench_name bc exe_path base_size)).
Local Abbreviation run_sweeps :=
  (sweeps shlex_split w p bench_name bc exe_path base_size).

(** Both passes, field by field.  The normal runs are the invocations
    [clock st + i] with indices [1 + i]; the special runs follow at once,
    as invocations [clock st + K + j] with indices [1 + K + j]. *)
Lemma sweeps_fields (st : state) :
  clock (run_sweeps st) = (clock st + K + S')%nat
  /\ executed (run_sweeps st)
     = executed st
         ++ map (normal_cmd shlex_split p bc exe_path base_size) (normal_combinations bc)
         ++ map (special_cmd shlex_split p bc exe_path base_size) (special_arg_list bc)
  /\ record_dir (run_sweeps st)
     = record_dir st
         ++ imap (fun i x => doc0 (clock st + i) (1 + i) x) (normal_combinations bc)
         ++ imap (fun j x => doc1 (clock st + K + j) (1 + K + j) x) (special_arg_list bc)
  /\ idx_counter (run_sweeps st) = (1 + K + S')%nat
  /\ produced_traces (run_sweeps st)
     = produced_traces st
         ++ imap (fun i _ => trace0 (1 + i)) (normal_combinations bc)
         ++ imap (fun j _ => trace1 (1 + K + j)) (special_arg_list bc)
  /\ produced_records (run_sweeps st)
     = produced_records st
         ++ imap (fun i x => basename (fst (doc0 (clock st + i) (1 + i) x)))
              (normal_combinations bc)
         ++ imap (fun j x => basename (fst (doc1 (clock st + K + j) (1 + K + j) x)))
              (special_arg_list bc).
Proof.
  unfold sweeps, special_pass, normal_pass.
  rewrite special_step_sweep, normal_step_sweep.
  match goal with
  | |- context [fold_left ?f ?xs (fold_left ?g ?ys ?s0)] =>
      destruct (sweep_fold w trace1
                  (special_cmd shlex_split p bc exe_path base_size)
                  (special_record shlex_split p bench_name bc exe_path base_size)
                  xs (fold_left g ys s0))
        as (-> & -> & -> & -> & -> & ->);
      destruct (sweep_fold w trace0
                  (normal_cmd shlex_split p bc exe_path base_size)
                  (normal_record shlex_split p bench_name bc exe_path)
                  ys s0)
        as (-> & -> & -> & -> & -> & ->)
  end.
  cbn [set_idx_counter clock executed record_dir idx_counter produced_traces
         produced_records].
  rewrite <- !app_assoc. repeat split; lia || reflexivity.
Qed.

Lemma sweeps_data (st : state) (f : string) :
  f ∈ data_dir (run_sweeps st)
  <-> f ∈ data_dir st
      \/ (exists i, (i < K)%nat /\ lands w (clock st + i) = true /\ f = trace0 (1 + i))
      \/ (exists j, (j < S')%nat /\ lands w (clock st + K + j) = true
                    /\ f = trace1 (1 + K + j)).
Proof.
  unfold sweeps, special_pass, normal_pass.
  rewrite special_step_sweep, normal_step_sweep.
  rewrite sweep_fold_data, sweep_fold_data.
  match goal with
  | |- context [clock (fold_left ?g ?ys ?s0)] =>
      destruct (sweep_fold w trace0
                  (normal_cmd shlex_split p bc exe_path base_size)
                  (normal_record shlex_split p bench_name bc exe_path)
                  ys s0)
        as (-> & _ & _ & -> & _ & _)
  end.
  cbn [set_idx_counter clock idx_counter data_dir]. tauto.
Qed.

End Passes.

(** ** Whole runs *)

Section Runs.

Variable shlex_split : string -> list string.
Variable abspath : string -> string.
Variables (w : world) (p : profile) (bench_name : string) (bc : bconf).

Local Abbreviation exe := (executable abspath p bench_name bc).
Local Abbreviation K := (length (normal_combinations bc)).
Local Abbreviation S' := (length (special_arg_list bc)).
Local Abbreviation trace0 := (format_data_filename (bc_id bc) "0").
Local Abbreviation trace1 := (format_data_filename (bc_id bc) "1").
Local Abbreviation run := (process_benchmark shlex_split abspath).

Lemma process_benchmark_ready (fuel : nat) (st : state) :
  ready w p bench_name bc ->
  run fuel w p bench_name st
  = generate shlex_split w p bench_name bc exe fuel (enter st).
Proof.
  intros (Hc & Hd & Hb). unfold process_benchmark. now rewrite Hc, Hd, Hb.
Qed.

(** Enough fuel for the accepted attempt gives the whole run. *)
Lemma process_benchmark_completes (fuel k : nat) (st : state) :
  ready w p bench_name bc ->
  base_found_at w p st k ->
  (k < fuel)%nat ->
  run fuel w p bench_name st
  = Returned 0 (finished shlex_split w p bench_name bc exe st k).
Proof.
  intros Hready (Hpre & Hacc) Hk.
  rewrite process_benchmark_ready by exact Hready.
  unfold generate.
  replace fuel with (k + S (fuel - S k))%nat by lia.
  rewrite search_retries by exact Hpre.
  rewrite search_step_accept; [reflexivity|].
  rewrite retried_clock. unfold attempt in *. cbn [enter clock].
  now rewrite Nat.add_0_r.
Qed.

(** A run whose search meets a failing attempt stops there. *)
Lemma process_benchmark_aborts (fuel k : nat) (st : state) :
  ready w p bench_name bc ->
  (forall j, (j < k)%nat ->
     retries (benchmark_trace_min_size_MB p) (attempt w (clock st) j) = true) ->
  succeeded (attempt w (clock st) k) = false ->
  (k < fuel)%nat ->
  run fuel w p bench_name st
  = Returned 1
      (log_run (search_cmd shlex_split p bc exe (base_size_at bc k))
         (retried shlex_split p bc exe k (size_arg_start bc) (enter st))).
Proof.
  intros Hready Hpre Hfail Hk.
  rewrite process_benchmark_ready by exact Hready.
  unfold generate.
  replace fuel with (k + S (fuel - S k))%nat by lia.
  rewrite search_retries by exact Hpre.
  rewrite search_step_abort; [reflexivity|].
  rewrite retried_clock. unfold attempt in *. cbn [enter clock].
  now rewrite Nat.add_0_r.
Qed.

Section Completed.

Variables (st : state) (k : nat).

Local Abbreviation st_based := (based shlex_split w p bench_name bc exe st k).
Local Abbreviation st_swept := (swept shlex_split w p bench_name bc exe st k).
Local Abbreviation st_final := (finished shlex_split w p bench_name bc exe st k).
Local Abbreviation t0 := (clock st + k + 1)%nat.
Local Abbreviation doc0 :=
  (sweep_doc w (normal_record shlex_split p bench_name bc exe)).
Local Abbreviation doc1 :=
  (sweep_doc w (special_record shlex_split p bench_name bc exe (base_size_at bc k))).
Local Abbreviation base_rcd :=
  (accepted_record shlex_split w p bench_name bc exe (base_size_at bc k)
     (retried shlex_split p bc exe k (size_arg_start bc) (enter st))).
Local Abbreviation base_name :=
  (base_dest_name w bc (retried shlex_split p bc exe k (size_arg_start bc) (enter st))).

Lemma based_fields :
  clock st_based = t0
  /\ record_dir st_based
     = record_dir st ++ [(rec_id base_rcd +:+ ".json", DocRecord base_rcd)]
  /\ data_dir st_based
     = (if w_move w (clock st + k) then {[ trace0 0 ]} ∪ data_dir st else data_dir st)
  /\ idx_counter st_based = 0%nat
  /\ produced_traces st_based = [base_name]
  /\ produced_records st_based = [basename (rec_id base_rcd +:+ ".json")]
  /\ executed st_based
     = executed st
         ++ map (fun j => search_cmd shlex_split p bc exe (base_size_at bc j))
              (seq 0 (Datatypes.S k)).
Proof.
  unfold based, accepted, relocate.
  pose proof (retried_clock shlex_split p bc exe k (size_arg_start bc) (enter st)) as Hc.
  destruct (retried_frame shlex_split p bc exe k (size_arg_start bc) (enter st))
    as (Hr & Hd & Hi & Ht & Hp).
  pose proof (retried_executed shlex_split p bc exe k (size_arg_start bc) (enter st)) as He.
  cbn [enter clock record_dir data_dir idx_counter produced_traces
         produced_records executed] in Hc, Hr, Hd, Hi, Ht, Hp, He.
  rewrite Hc, Hi.
  destruct (w_move w (clock st + k));
    cbn [note_produced put_doc put_data log_run clock record_dir data_dir
           idx_counter produced_traces produced_records executed];
    rewrite ?Hc, ?Hr, ?Hd, ?Hi, ?Ht, ?Hp, ?He;
    (repeat split; try lia; try reflexivity);
    rewrite seq_S, map_app, app_assoc; reflexivity.
Qed.

Lemma base_name_cases :
  base_name
  = if w_move w (clock st + k) then basename (trace0 0)
    else default "" (produced_path (attempt w (clock st) k)).
Proof.
  unfold base_dest_name, attempt.
  rewrite retried_clock.
  destruct (retried_frame shlex_split p bc exe k (size_arg_start bc) (enter st))
    as (_ & _ & -> & _).
  reflexivity.
Qed.

Lemma base_rcd_fields :
  rec_id base_rcd = record_id (bc_id bc) "0" 0
  /\ rec_trace_file base_rcd = base_name
  /\ rec_size base_rcd = size_field (size_mb (attempt w (clock st) k))
  /\ rec_comment base_rcd = "base trace".
Proof.
  unfold accepted_record, base_record, attempt. cbn.
  rewrite retried_clock.
  destruct (retried_frame shlex_split p bc exe k (size_arg_start bc) (enter st))
    as (_ & _ & -> & _).
  cbn. tauto.
Qed.

Lemma swept_fields :
  clock st_swept = (t0 + K + S')%nat
  /\ record_dir st_swept
     = record_dir st
         ++ [(rec_id base_rcd +:+ ".json", DocRecord base_rcd)]
         ++ imap (fun i x => doc0 (t0 + i) (1 + i) x) (normal_combinations bc)
         ++ imap (fun j x => doc1 (t0 + K + j) (1 + K + j) x) (special_arg_list bc)
  /\ idx_counter st_swept = (1 + K + S')%nat
  /\ produced_traces st_swept
     = [base_name]
         ++ imap (fun i _ => trace0 (1 + i)) (normal_combinations bc)
         ++ imap (fun j _ => trace1 (1 + K + j)) (special_arg_list bc)
  /\ produced_records st_swept
     = [basename (rec_id base_rcd +:+ ".json")]
         ++ imap (fun i x => basename (fst (doc0 (t0 + i) (1 + i) x)))
              (normal_combinations bc)
         ++ imap (fun j x => basename (fst (doc1 (t0 + K + j) (1 + K + j) x)))
              (special_arg_list bc).
Proof.
  unfold swept.
  destruct (sweeps_fields shlex_split w p bench_name bc exe (base_size_at bc k) st_based)
    as (-> & _ & -> & -> & -> & ->).
  destruct based_fields as (-> & -> & _ & _ & -> & -> & _).
  rewrite <- !app_assoc. repeat split; reflexivity.
Qed.

Lemma swept_executed :
  executed st_swept
  = executed st
      ++ map (fun j => search_cmd shlex_split p bc exe (base_size_at bc j))
           (seq 0 (Datatypes.S k))
      ++ map (normal_cmd shlex_split p bc exe (base_size_at bc k))
           (normal_combinations bc)
      ++ map (special_cmd shlex_split p bc exe (base_size_at bc k))
           (special_arg_list bc).
Proof.
  unfold swept.
  destruct (sweeps_fields shlex_split w p bench_name bc exe (base_size_at bc k) st_based)
    as (_ & -> & _).
  destruct based_fields as (_ & _ & _ & _ & _ & _ & ->).
  now rewrite <- !app_assoc.
Qed.

Lemma swept_data (f : string) :
  f ∈ data_dir st_swept
  <-> f ∈ data_dir st
      \/ (w_move w (clock st + k) = true /\ f = trace0 0)
      \/ (exists i, (i < K)%nat /\ lands w (t0 + i) = true /\ f = trace0 (1 + i))
      \/ (exists j, (j < S')%nat /\ lands w (t0 + K + j) = true
                    /\ f = trace1 (1 + K + j)).
Proof.
  unfold swept. rewrite sweeps_data.
  destruct based_fields as (-> & _ & -> & _).
  destruct (w_move w (clock st + k)).
  - rewrite elem_of_union, elem_of_singleton. intuition congruence.
  - intuition congruence.
Qed.

(** Writing the summary adds at most one document and touches nothing
    else. *)
Lemma finished_fields :
  clock st_final = clock st_swept
  /\ executed st_final = executed st_swept
  /\ data_dir st_final = data_dir st_swept
  /\ idx_counter st_final = idx_counter st_swept
  /\ produced_traces st_final = produced_traces st_swept
  /\ produced_records st_final = produced_records st_swept
  /\ record_dir st_final
     = record_dir st_swept
         ++ (if w_summary_ok w
             then [(bench_name +:+ ".json",
                    DocSummary (the_summary bench_name st_swept))]
             else []).
Proof.
  unfold finished, write_summary.
  destruct (w_summary_ok w); cbn; rewrite ?app_nil_r; tauto.
Qed.

End Completed.

End Runs.

(** Names of one benchmark differ as soon as the type id or the index do. *)
Lemma format_data_filename_same_bench (b t t' : string) (i i' : nat) :
  String.length t = 1%nat -> String.length t' = 1%nat ->
  format_data_filename b t i = format_data_filename b t' i' ->
  t = t' /\ i = i'.
Proof.
  intros Ht Ht' E. unfold format_data_filename in E.
  apply (inj (String.app DATA_TASK_PREFIX)), (inj (String.app b)) in E.
  destruct t as [|c [|? ?]]; try discriminate.
  destruct t' as [|c' [|? ?]]; try discriminate.
  rewrite !string_app_cons, !string_app_nil_l in E. injection E as -> E.
  split; [reflexivity|].
  apply (f_equal (strip_suffix ".sqlite3")) in E.
  rewrite !strip_suffix_app in E. injection E as E. now apply fmt_04d_inj.
Qed.

Lemma size_field_failure (pr : proc) :
  returncode pr <> 0 -> size_field (size_mb (measure pr)) = "0 MB".
Proof. intros H. now rewrite measure_failure. Qed.

Lemma lands_failure (w : world) (k : nat) :
  returncode (w_proc w k) <> 0 -> lands w k = false.
Proof. intros H. unfold lands. now rewrite measure_failure. Qed.

(** Stepping over the leading segments of a journal to position [n] of
    the segment of interest. *)
Ltac skip_segment :=
  rewrite lookup_app_r
    by (rewrite ?length_imap, ?length_map, ?length_seq; cbn [length]; lia);
  rewrite ?length_imap, ?length_map, ?length_seq; cbn [length].

Ltac at_position n :=
  match goal with
  | |- ?l !! ?m = _ => replace m with n by lia
  end.

Ltac in_segment :=
  rewrite ?lookup_app_l
    by (rewrite ?length_imap, ?length_map, ?length_seq; cbn [length]; lia).

Section Lookups.

Variable shlex_split : string -> list string.
Variable abspath : string -> string.
Variables (w : world) (p : profile) (bench_name : string) (bc : bconf).
Variables (st : state) (k : nat).

Local Abbreviation exe := (executable abspath p bench_name bc).
Local Abbreviation K := (length (normal_combinations bc)).
Local Abbreviation S' := (length (special_arg_list bc)).
Local Abbreviation trace0 := (format_data_filename (bc_id bc) "0").
Local Abbreviation trace1 := (format_data_filename (bc_id bc) "1").
Local Abbreviation st_final := (finished shlex_split w p bench_name bc exe st k).
Local Abbreviation t0 := (clock st + k + 1)%nat.
Local Abbreviation rcd0 := (normal_record shlex_split p bench_name bc exe).
Local Abbreviation rcd1 :=
  (special_record shlex_split p bench_name bc exe (base_size_at bc k)).
Local Abbreviation base_rcd :=
  (accepted_record shlex_split w p bench_name bc exe (base_size_at bc k)
     (retried shlex_split p bc exe k (size_arg_start bc) (enter st))).

Lemma finished_counts :
  clock st_final = (t0 + K + S')%nat
  /\ idx_counter st_final = (1 + K + S')%nat
  /\ length (produced_traces st_final) = (1 + K + S')%nat
  /\ length (produced_records st_final) = (1 + K + S')%nat.
Proof.
  destruct (finished_fields shlex_split abspath w p bench_name bc st k)
    as (-> & _ & _ & -> & -> & -> & _).
  destruct (swept_fields shlex_split abspath w p bench_name bc st k)
    as (-> & _ & -> & -> & ->).
  rewrite !length_app, !length_imap. cbn [length]. repeat split; lia.
Qed.

Lemma finished_base :
  record_dir st_final !! length (record_dir st)
  = Some (rec_id base_rcd +:+ ".json", DocRecord base_rcd)
  /\ produced_traces st_final !! 0%nat = Some (rec_trace_file base_rcd)
  /\ produced_records st_final !! 0%nat = Some (basename (rec_id base_rcd +:+ ".json")).
Proof.
  destruct (finished_fields shlex_split abspath w p bench_name bc st k)
    as (_ & _ & _ & _ & -> & -> & ->).
  destruct (swept_fields shlex_split abspath w p bench_name bc st k)
    as (_ & -> & _ & -> & ->).
  rewrite <- !app_assoc. split; [|split; reflexivity].
  rewrite lookup_app_r by lia. now rewrite Nat.sub_diag.
Qed.

Lemma finished_normal (i : nat) (x : list jvalue) :
  normal_combinations bc !! i = Some x ->
  record_dir st_final !! (length (record_dir st) + 1 + i)%nat
  = Some (record_id (bc_id bc) "0" (1 + i) +:+ ".json",
          DocRecord (rcd0 (1 + i) (size_mb (measure (w_proc w (t0 + i)))) x))
  /\ produced_traces st_final !! (1 + i)%nat = Some (trace0 (1 + i))
  /\ produced_records st_final !! (1 + i)%nat
     = Some (basename (record_id (bc_id bc) "0" (1 + i) +:+ ".json"))
  /\ executed st_final !! (length (executed st) + k + 1 + i)%nat
     = Some (normal_cmd shlex_split p bc exe (base_size_at bc k) x).
Proof.
  intros Hx. pose proof (lookup_lt_Some _ _ _ Hx) as Hi.
  destruct (finished_fields shlex_split abspath w p bench_name bc st k)
    as (_ & -> & _ & _ & -> & -> & ->).
  destruct (swept_fields shlex_split abspath w p bench_name bc st k)
    as (_ & -> & _ & -> & ->).
  rewrite swept_executed.
  rewrite <- !app_assoc.
  split; [|split; [|split]].
  - do 2 skip_segment. at_position i. in_segment.
    rewrite list_lookup_imap, Hx. reflexivity.
  - skip_segment. at_position i. in_segment.
    rewrite list_lookup_imap, Hx. reflexivity.
  - skip_segment. at_position i. in_segment.
    rewrite list_lookup_imap, Hx. reflexivity.
  - do 2 skip_segment. at_position i. in_segment.
    rewrite list_lookup_fmap, Hx. reflexivity.
Qed.

Lemma finished_special (j : nat) (x : string) :
  special_arg_list bc !! j = Some x ->
  record_dir st_final !! (length (record_dir st) + 1 + K + j)%nat
  = Some (record_id (bc_id bc) "1" (1 + K + j) +:+ ".json",
          DocRecord (rcd1 (1 + K + j) (size_mb (measure (w_proc w (t0 + K + j)))) x))
  /\ produced_traces st_final !! (1 + K + j)%nat = Some (trace1 (1 + K + j))
  /\ produced_records st_final !! (1 + K + j)%nat
     = Some (basename (record_id (bc_id bc) "1" (1 + K + j) +:+ ".json"))
  /\ executed st_final !! (length (executed st) + k + 1 + K + j)%nat
     = Some (special_cmd shlex_split p bc exe (base_size_at bc k) x).
Proof.
  intros Hx. pose proof (lookup_lt_Some _ _ _ Hx) as Hj.
  destruct (finished_fields shlex_split abspath w p bench_name bc st k)
    as (_ & -> & _ & _ & -> & -> & ->).
  destruct (swept_fields shlex_split abspath w p bench_name bc st k)
    as (_ & -> & _ & -> & ->).
  rewrite swept_executed.
  rewrite <- !app_assoc.
  split; [|split; [|split]].
  - do 3 skip_segment. at_position j. in_segment.
    rewrite list_lookup_imap, Hx. reflexivity.
  - do 2 skip_segment. at_position j.
    rewrite list_lookup_imap, Hx. reflexivity.
  - do 2 skip_segment. at_position j.
    rewrite list_lookup_imap, Hx. reflexivity.
  - do 3 skip_segment. at_position j.
    rewrite list_lookup_fmap, Hx. reflexivity.
Qed.

(** A sweep run that leaves nothing in the trace directory leaves its
    nominal file name without a file, unless one was there before. *)
Lemma finished_dangling_normal (i : nat) :
  (i < K)%nat -> lands w (t0 + i) = false ->
  trace0 (1 + i) ∉ data_dir st -> trace0 (1 + i) ∉ data_dir st_final.
Proof.
  intros Hi Hl Hold Hin.
  destruct (finished_fields shlex_split abspath w p bench_name bc st k)
    as (_ & _ & Hd & _).
  rewrite Hd in Hin.
  apply swept_data in Hin
      as [Hin | [(_ & E) | [(i' & _ & Hl' & E) | (j & _ & _ & E)]]];
    [contradiction|..];
    apply format_data_filename_same_bench in E as (Et & Ei);
    try reflexivity; try discriminate; try lia.
  assert (i' = i) as -> by lia. congruence.
Qed.

Lemma finished_dangling_special (j : nat) :
  (j < S')%nat -> lands w (t0 + K + j) = false ->
  trace1 (1 + K + j) ∉ data_dir st -> trace1 (1 + K + j) ∉ data_dir st_final.
Proof.
  intros Hj Hl Hold Hin.
  destruct (finished_fields shlex_split abspath w p bench_name bc st k)
    as (_ & _ & Hd & _).
  rewrite Hd in Hin.
  apply swept_data in Hin
      as [Hin | [(_ & E) | [(i & _ & _ & E) | (j' & _ & Hl' & E)]]];
    [contradiction|..];
    apply format_data_filename_same_bench in E as (Et & Ei);
    try reflexivity; try discriminate; try lia.
  assert (j' = j) as -> by lia. congruence.
Qed.

End Lookups.

(** ** The claims *)

(** A sample run used to exhibit the theorems below. *)
Lemma sample_sweep_ready :
  ready Sample.sweep_world (Sample.mk_profile Sample.sweep_bconf 5) "kmeans"
    Sample.sweep_bconf.
Proof. repeat split; reflexivity. Defined.

Lemma sample_sweep_found :
  base_found_at Sample.sweep_world (Sample.mk_profile Sample.sweep_bconf 5)
    Sample.fresh 3.
Proof.
  split; [|reflexivity].
  intros j Hj. do 3 (destruct j as [|j]; [reflexivity|]). lia.
Defined.







(** The command string of a normal record: executable name, base arguments,
    flag/value pairs.  The size flag and the base size, which the command
    that ran carries and which the base and special records spell out, are
    not in it. *)
Lemma normal_record_cmd_shape (shlex_split : string -> list string) (p : profile)
    (bench_name : string) (bc : bconf) (exe_path : string) (idx : nat)
    (size : mb) (combo : list jvalue) :
  rec_benchmark_cmd (normal_record shlex_split p bench_name bc exe_path idx size combo)
  = String.concat " "
      (basename exe_path :: shlex_split (benchmark_base_arg p)
         ++ map (fun av => fst av +:+ " " +:+ py_str (snd av))
              (combine (normal_arg_list bc) combo)).
Proof. reflexivity. Qed.

(** C2 does not hold of the code.  In the sample run the first normal run
    executes [kmeans -timing -trace-vis -points 8 -a 1 -b 10], and its record
    says [kmeans -timing -trace-vis -a 1 -b 10]; the record of the special
    run does carry [-points 8]. *)
Theorem normal_record_omits_size :
  exists st' rcd rcd',
    process_benchmark Sample.split_ws Sample.abspath 10 Sample.sweep_world
      (Sample.mk_profile Sample.sweep_bconf 5) "kmeans" Sample.fresh
    = Returned 0 st'
    /\ executed st' !! 4%nat
       = Some ["/work/bench/kmeans/kmeans"; "-timing"; "-trace-vis";
               "-points"; "8"; "-a"; "1"; "-b"; "10"]
    /\ record_dir st' !! 1%nat = Some ("D0300001.json", DocRecord rcd)
    /\ rec_benchmark_cmd rcd = "kmeans -timing -trace-vis -a 1 -b 10"
    /\ record_dir st' !! 5%nat = Some ("D0310005.json", DocRecord rcd')
    /\ rec_benchmark_cmd rcd' = "kmeans -timing -trace-vis -points 8 -x 1 2".
Proof.
  eexists _, _, _. split; [vm_compute; reflexivity|].
  repeat split.
Qed.

(** C3, as stated, fails on the base run: when the relocation of the
    accepted artifact fails, the base record names the file the runner
    detected, not [D0300000.sqlite3]. *)
Lemma relocation_failure_base_counterexample :
  exists st' rcd,
    process_benchmark Sample.split_ws Sample.abspath 10 Sample.stuck_world
      (Sample.mk_profile Sample.plain_bconf 5) "kmeans" Sample.fresh
    = Returned 0 st'
    /\ w_move Sample.stuck_world 0 = false
    /\ record_dir st' !! 0%nat = Some ("D0300000.json", DocRecord rcd)
    /\ rec_trace_file rcd = "akita_sim_0.sqlite3"
    /\ rec_trace_file rcd <> format_data_filename "03" "0" 0.
Proof.
  eexists _, _. split; [vm_compute; reflexivity|].
  split; [reflexivity|]. split; [reflexivity|]. split; [reflexivity|].
  discriminate.
Qed.

(** C3, amended.  The record of every sweep run, normal or special, names
    the nominal file [D<bench_id><type_id><index>.sqlite3], also when the
    relocation fails, in which case no such file reaches the trace directory.
    The record of the base run names the nominal file when the relocation
    succeeds, and the file the runner detected when it fails; the summary
    lists the same name. *)
Theorem relocation_failure_names (shlex_split : string -> list string)
    (abspath : string -> string) (w : world) (p : profile)
    (bench_name : string) (bc : bconf) (st : state) (k fuel : nat) :
  ready w p bench_name bc ->
  base_found_at w p st k ->
  (k < fuel)%nat ->
  exists st',
    process_benchmark shlex_split abspath fuel w p bench_name st = Returned 0 st'
    /\ (forall i x, normal_combinations bc !! i = Some x ->
          exists rcd,
            record_dir st' !! (length (record_dir st) + 1 + i)%nat
            = Some (record_id (bc_id bc) "0" (1 + i) +:+ ".json", DocRecord rcd)
            /\ rec_trace_file rcd = format_data_filename (bc_id bc) "0" (1 + i)
            /\ (w_move w (clock st + k + 1 + i) = false ->
                format_data_filename (bc_id bc) "0" (1 + i) ∉ data_dir st ->
                format_data_filename (bc_id bc) "0" (1 + i) ∉ data_dir st'))
    /\ (forall j x, special_arg_list bc !! j = Some x ->
          exists rcd,
            record_dir st'
              !! (length (record_dir st) + 1 + length (normal_combinations bc) + j)%nat
            = Some (record_id (bc_id bc) "1"
                      (1 + length (normal_combinations bc) + j) +:+ ".json",
                    DocRecord rcd)
            /\ rec_trace_file rcd
               = format_data_filename (bc_id bc) "1"
                   (1 + length (normal_combinations bc) + j)
            /\ (w_move w (clock st + k + 1 + length (normal_combinations bc) + j) = false ->
                format_data_filename (bc_id bc) "1"
                  (1 + length (normal_combinations bc) + j) ∉ data_dir st ->
                format_data_filename (bc_id bc) "1"
                  (1 + length (normal_combinations bc) + j) ∉ data_dir st'))
    /\ (exists rcd src,
          record_dir st' !! length (record_dir st)
          = Some (record_id (bc_id bc) "0" 0 +:+ ".json", DocRecord rcd)
          /\ produced_path (attempt w (clock st) k) = Some src
          /\ rec_trace_file rcd
             = (if w_move w (clock st + k)
                then basename (format_data_filename (bc_id bc) "0" 0)
                else src)
          /\ produced_traces st' !! 0%nat = Some (rec_trace_file rcd)).
Proof.
  intros Hready Hfound Hfuel. eexists. split.
  { exact (process_benchmark_completes shlex_split abspath w p bench_name bc fuel k st
             Hready Hfound Hfuel). }
  split; [|split].
  - intros i x Hx.
    destruct (finished_normal shlex_split abspath w p bench_name bc st k i x Hx)
      as (Hr & _).
    eexists. split; [exact Hr|]. split; [reflexivity|].
    intros Hmove. apply finished_dangling_normal.
    + eapply lookup_lt_Some, Hx.
    + unfold lands. rewrite Hmove. now destruct (produced_path _).
  - intros j x Hx.
    destruct (finished_special shlex_split abspath w p bench_name bc st k j x Hx)
      as (Hr & _).
    eexists. split; [exact Hr|]. split; [reflexivity|].
    intros Hmove. apply finished_dangling_special.
    + eapply lookup_lt_Some, Hx.
    + unfold lands. rewrite Hmove. now destruct (produced_path _).
  - destruct Hfound as (_ & Hacc). apply accepts_inv in Hacc as (_ & src & Hsrc & _).
    destruct (finished_base shlex_split abspath w p bench_name bc st k) as (Hb & Ht & _).
    destruct (base_rcd_fields shlex_split abspath w p bench_name bc st k)
      as (Hid & Hfile & _).
    eexists _, src. split; [rewrite Hb, Hid; reflexivity|].
    split; [exact Hsrc|]. split; [|exact Ht].
    rewrite Hfile, base_name_cases, Hsrc. reflexivity.
Qed.

(** In the sample run the fourth normal run cannot be relocated: its record
    names [D0300004.sqlite3], and the trace directory has no such file. *)
Lemma relocation_failure_names_witness :
  exists st' rcd,
    process_benchmark Sample.split_ws Sample.abspath 10 Sample.sweep_world
      (Sample.mk_profile Sample.sweep_bconf 5) "kmeans" Sample.fresh
    = Returned 0 st'
    /\ w_move Sample.sweep_world 7 = false
    /\ record_dir st' !! 4%nat = Some ("D0300004.json", DocRecord rcd)
    /\ rec_trace_file rcd = "D0300004.sqlite3"
    /\ "D0300004.sqlite3" ∉ data_dir st'.
Proof.
  destruct (relocation_failure_names Sample.split_ws Sample.abspath Sample.sweep_world
              (Sample.mk_profile Sample.sweep_bconf 5) "kmeans" Sample.sweep_bconf
              Sample.fresh 3 10 sample_sweep_ready sample_sweep_found ltac:(lia))
    as (st' & Hrun & Hnormal & _).
  destruct (Hnormal 3%nat [JInt 2; JInt 20] eq_refl) as (rcd & Hr & Hfile & Hgone).
  exists st', rcd. split; [exact Hrun|]. split; [reflexivity|].
  split; [exact Hr|]. split; [exact Hfile|].
  apply Hgone; [reflexivity|]. apply not_elem_of_empty.
Defined.

(** Removing the extension from digits followed by the extension leaves the
    digits: no digit starts an occurrence of the extension. *)
Lemma strip_extension_digits (d : uint) :
  str_replace ".sqlite3" "" (NilEmpty.string_of_uint d +:+ ".sqlite3")
  = NilEmpty.string_of_uint d.
Proof.
  unfold str_replace.
  induction d; cbn [NilEmpty.string_of_uint];
    rewrite ?string_app_cons, ?string_app_nil_l;
    [reflexivity | cbn [replace_from String.prefix]; cbn; now rewrite IHd ..].
Qed.

(** A match of [old] that starts inside [s] ends inside [s] when the
    character after [s] is not one of [old]. *)
Lemma prefix_app_other (old s rest : string) (c : ascii) :
  ~ In c (list_ascii_of_string old) ->
  String.prefix old (s +:+ String c rest) = String.prefix old s.
Proof.
  revert s. induction old as [|a old IH]; intros s Hc.
  - destruct s; reflexivity.
  - destruct s as [|b s].
    + rewrite string_app_nil_l. cbn.
      destruct (ascii_dec a c) as [-> | _]; [|reflexivity].
      exfalso. apply Hc. now left.
    + rewrite string_app_cons. cbn.
      destruct (ascii_dec a b); [|reflexivity].
      apply IH. intros H. apply Hc. now right.
Qed.

Lemma prefix_length (old s : string) :
  String.prefix old s = true -> (String.length old <= String.length s)%nat.
Proof.
  revert s. induction old as [|a old IH]; intros s H; [cbn; lia|].
  destruct s as [|b s]; [discriminate|].
  cbn in H. destruct (ascii_dec a b); [|discriminate].
  apply IH in H. cbn. lia.
Qed.

Lemma replace_from_app_other (old new s rest : string) (c : ascii) :
  ~ In c (list_ascii_of_string old) ->
  forall skip, (skip <= String.length s)%nat ->
    replace_from old new skip (s +:+ String c rest)
    = replace_from old new skip s +:+ replace_from old new 0 (String c rest).
Proof.
  intros Hc. induction s as [|b s IH]; intros skip Hskip.
  - cbn in Hskip. assert (skip = 0%nat) as -> by lia.
    now rewrite !string_app_nil_l.
  - rewrite string_app_cons. cbn [replace_from]. destruct skip as [|skip'].
    + rewrite <- string_app_cons, (prefix_app_other old (String b s) rest c Hc).
      destruct (String.prefix old (String b s)) eqn:Hp.
      * apply prefix_length in Hp. cbn in Hp.
        rewrite IH by lia. now rewrite string_app_assoc.
      * rewrite IH by lia. now rewrite string_app_cons.
    + cbn in Hskip. apply IH. lia.
Qed.

(** The id of a record: what is left of the prefix and the benchmark id
    once the occurrences of the extension are removed, then the type id and
    the digits of the index. *)
Lemma record_id_suffix (b t : string) (index : nat) :
  t = "0" \/ t = "1" ->
  record_id b t index = str_replace ".sqlite3" "" ("D" +:+ b) +:+ t +:+ fmt_04d index.
Proof.
  intros Ht. unfold record_id, format_data_filename, DATA_TASK_PREFIX, str_replace.
  pose proof (strip_extension_digits
                (Nat.iter (4 - String.length (str_of_nat index)) D0 (Nat.to_uint index)))
    as Hd.
  rewrite <- zeros_uint in Hd. fold (str_of_nat index) in Hd. fold (fmt_04d index) in Hd.
  unfold str_replace in Hd.
  rewrite <- (string_app_assoc "D" b).
  destruct Ht as [-> | ->];
    rewrite (string_app_cons _ "" (fmt_04d index +:+ ".sqlite3")), string_app_nil_l;
    (rewrite replace_from_app_other;
       [| cbn; intros H; decompose [or] H; try discriminate; contradiction | lia]);
    f_equal; cbn [replace_from String.prefix]; cbn; now rewrite Hd.
Qed.

(** A benchmark id of two characters has no room for the extension. *)
Lemma record_stem_two (b : string) :
  String.length b = 2%nat -> str_replace ".sqlite3" "" ("D" +:+ b) = "D" +:+ b.
Proof.
  destruct b as [|b1 [|b2 [|b3 b]]]; try discriminate. intros _.
  unfold str_replace. rewrite !string_app_cons, !string_app_nil_l.
  cbn [replace_from String.prefix].
  destruct (ascii_dec "." b1); try destruct (ascii_dec "s" b2);
    destruct (ascii_dec "." b2); reflexivity.
Qed.

(** C4.  In every run that reaches the sweeps the counter, advanced once
    per sweep run, ends at [1 + K + S], where [K] is the number of normal
    combinations and [S] of special entries.  The base record holds index
    0; the i-th normal combination (counted from 0) holds index [1 + i]
    and the j-th special entry index [K + 1 + j], so that the first special
    run carries [K + 1].  The index is carried as the digits [index:04d] at
    the end of the record's id, of the name of its file and, before the
    extension, of its trace file name; before the digits come the type id
    and, before that, the prefix and the benchmark id (in the id and the
    record file name with any occurrence of the extension removed, which
    changes nothing for an id of two characters).  The digits read back as
    the index. *)
Theorem index_counter_shared (shlex_split : string -> list string)
    (abspath : string -> string) (w : world) (p : profile)
    (bench_name : string) (bc : bconf) (st : state) (k fuel : nat) :
  ready w p bench_name bc ->
  base_found_at w p st k ->
  (k < fuel)%nat ->
  exists st',
    process_benchmark shlex_split abspath fuel w p bench_name st = Returned 0 st'
    /\ idx_counter st'
       = (1 + length (normal_combinations bc) + length (special_arg_list bc))%nat
    /\ (exists rcd,
          record_dir st' !! length (record_dir st)
          = Some (str_replace ".sqlite3" "" ("D" +:+ bc_id bc)
                    +:+ "0" +:+ fmt_04d 0 +:+ ".json",
                  DocRecord rcd)
          /\ rec_id rcd
             = str_replace ".sqlite3" "" ("D" +:+ bc_id bc) +:+ "0" +:+ fmt_04d 0)
    /\ (forall i x, normal_combinations bc !! i = Some x ->
          produced_traces st' !! (1 + i)%nat
          = Some ("D" +:+ bc_id bc +:+ "0" +:+ fmt_04d (1 + i) +:+ ".sqlite3")
          /\ exists rcd,
               record_dir st' !! (length (record_dir st) + 1 + i)%nat
               = Some (str_replace ".sqlite3" "" ("D" +:+ bc_id bc)
                         +:+ "0" +:+ fmt_04d (1 + i) +:+ ".json",
                       DocRecord rcd)
               /\ rec_id rcd
                  = str_replace ".sqlite3" "" ("D" +:+ bc_id bc)
                      +:+ "0" +:+ fmt_04d (1 + i)
               /\ rec_trace_file rcd
                  = "D" +:+ bc_id bc +:+ "0" +:+ fmt_04d (1 + i) +:+ ".sqlite3")
    /\ (forall j x, special_arg_list bc !! j = Some x ->
          produced_traces st' !! (1 + length (normal_combinations bc) + j)%nat
          = Some ("D" +:+ bc_id bc +:+ "1"
                    +:+ fmt_04d (length (normal_combinations bc) + 1 + j)
                    +:+ ".sqlite3")
          /\ exists rcd,
               record_dir st'
                 !! (length (record_dir st) + 1 + length (normal_combinations bc) + j)%nat
               = Some (str_replace ".sqlite3" "" ("D" +:+ bc_id bc)
                         +:+ "1" +:+ fmt_04d (length (normal_combinations bc) + 1 + j)
                         +:+ ".json",
                       DocRecord rcd)
               /\ rec_id rcd
                  = str_replace ".sqlite3" "" ("D" +:+ bc_id bc)
                      +:+ "1" +:+ fmt_04d (length (normal_combinations bc) + 1 + j)
               /\ rec_trace_file rcd
                  = "D" +:+ bc_id bc +:+ "1"
                      +:+ fmt_04d (length (normal_combinations bc) + 1 + j)
                      +:+ ".sqlite3")
    /\ (String.length (bc_id bc) = 2%nat ->
        str_replace ".sqlite3" "" ("D" +:+ bc_id bc) = "D" +:+ bc_id bc)
    /\ (forall index,
          exists d, NilEmpty.uint_of_string (fmt_04d index) = Some d
                    /\ Nat.of_uint d = index).
Proof.
  intros Hready Hfound Hfuel. eexists. split.
  { exact (process_benchmark_completes shlex_split abspath w p bench_name bc fuel k st
             Hready Hfound Hfuel). }
  destruct (finished_counts shlex_split abspath w p bench_name bc st k)
    as (_ & Hidx & _).
  split; [exact Hidx|]. split; [|split; [|split; [|split]]].
  - destruct (finished_base shlex_split abspath w p bench_name bc st k) as (Hb & _).
    destruct (base_rcd_fields shlex_split abspath w p bench_name bc st k) as (Hid & _).
    rewrite Hid, record_id_suffix in Hb by now left.
    rewrite record_id_suffix in Hid by now left.
    rewrite !string_app_assoc in Hb.
    eexists. split; [exact Hb | exact Hid].
  - intros i x Hx.
    destruct (finished_normal shlex_split abspath w p bench_name bc st k i x Hx)
      as (Hr & Ht & _).
    rewrite record_id_suffix in Hr by now left.
    rewrite !string_app_assoc in Hr.
    split; [exact Ht|]. eexists. split; [exact Hr|].
    split; [|reflexivity].
    cbn [normal_record rec_id]. apply record_id_suffix. now left.
  - intros j x Hx.
    destruct (finished_special shlex_split abspath w p bench_name bc st k j x Hx)
      as (Hr & Ht & _).
    replace (length (normal_combinations bc) + 1 + j)%nat
      with (1 + length (normal_combinations bc) + j)%nat by lia.
    rewrite record_id_suffix in Hr by now right.
    rewrite !string_app_assoc in Hr.
    split; [exact Ht|]. eexists. split; [exact Hr|].
    split; [|reflexivity].
    cbn [special_record rec_id]. apply record_id_suffix. now right.
  - apply record_stem_two.
  - apply fmt_04d_read.
Qed.

(** In the sample run, with four combinations, the special run holds index
    5: its record is [D0310005.json], with that id, and names the trace
    [D0310005.sqlite3]. *)
Lemma index_counter_shared_witness :
  exists st' rcd,
    process_benchmark Sample.split_ws Sample.abspath 10 Sample.sweep_world
      (Sample.mk_profile Sample.sweep_bconf 5) "kmeans" Sample.fresh
    = Returned 0 st'
    /\ idx_counter st' = 6%nat
    /\ produced_traces st' !! 5%nat = Some "D0310005.sqlite3"
    /\ record_dir st' !! 5%nat = Some ("D0310005.json", DocRecord rcd)
    /\ rec_id rcd = "D0310005"
    /\ rec_trace_file rcd = "D0310005.sqlite3".
Proof.
  destruct (index_counter_shared Sample.split_ws Sample.abspath Sample.sweep_world
              (Sample.mk_profile Sample.sweep_bconf 5) "kmeans" Sample.sweep_bconf
              Sample.fresh 3 10 sample_sweep_ready sample_sweep_found ltac:(lia))
    as (st' & Hrun & Hidx & _ & _ & Hspecial & _).
  destruct (Hspecial 0%nat "-x 1 2" eq_refl) as (Ht & rcd & Hr & Hid & Hfile).
  exists st', rcd. split; [exact Hrun|]. split; [exact Hidx|].
  split; [exact Ht|]. split; [exact Hr|]. split; [exact Hid | exact Hfile].
Defined.

(** C5, as stated, fails when no flag is declared: the Cartesian product of
    no list has one element, the empty combination, and the normal pass
    enumerates nothing. *)
Lemma normal_combinations_empty_counterexample :
  lex_product (normal_values_lists Sample.plain_bconf) = [[]]
  /\ product (normal_values_lists Sample.plain_bconf) = [[]]
  /\ normal_combinations Sample.plain_bconf = []
  /\ normal_combinations Sample.plain_bconf
     <> lex_product (normal_values_lists Sample.plain_bconf).
Proof. repeat split. discriminate. Qed.

(** C5, amended.  When at least one flag is declared, the normal pass
    enumerates the lexicographic product of the value lists, taken in the
    declared order of the flags, the last flag varying fastest: exactly the
    tuples with one value of each flag, as many as the product of the
    lengths, the one at position [n] made of the values ranked by the digits
    of [n].  When no flag is declared it enumerates nothing. *)
Theorem normal_combinations_lexicographic (bc : bconf) :
  (normal_arg_list bc <> [] ->
   normal_combinations bc = lex_product (normal_values_lists bc)
   /\ (forall c, In c (normal_combinations bc)
                 <-> Forall2 (fun v pool => In v pool) c (normal_values_lists bc))
   /\ length (normal_combinations bc) = volume (normal_values_lists bc)
   /\ (forall n, (n < volume (normal_values_lists bc))%nat ->
         normal_combinations bc !! n = combo_at (normal_values_lists bc) n))
  /\ (normal_arg_list bc = [] -> normal_combinations bc = []).
Proof.
  split.
  - intros Hne.
    assert (E : normal_combinations bc = lex_product (normal_values_lists bc)).
    { unfold normal_combinations.
      destruct (normal_values_lists bc) as [|pool rest] eqn:Hl.
      - unfold normal_values_lists in Hl. apply map_eq_nil in Hl. contradiction.
      - apply product_lex. }
    rewrite E. split; [reflexivity|]. split; [|split].
    + intros c. apply lex_product_spec.
    + apply lex_product_volume.
    + apply lex_product_lookup.
  - intros Hnil. unfold normal_combinations, normal_values_lists.
    now rewrite Hnil.
Qed.

(** The example of the specification: (1,10), (1,20), (2,10), (2,20). *)
Lemma normal_combinations_lexicographic_witness :
  normal_arg_list Sample.sweep_bconf <> []
  /\ normal_combinations Sample.sweep_bconf
     = [ [JInt 1; JInt 10]; [JInt 1; JInt 20]; [JInt 2; JInt 10]; [JInt 2; JInt 20] ].
Proof.
  assert (H : normal_arg_list Sample.sweep_bconf <> []) by discriminate.
  split; [exact H|].
  destruct (normal_combinations_lexicographic Sample.sweep_bconf) as (Hlex & _).
  destruct (Hlex H) as (-> & _). reflexivity.
Defined.

(** A fatal return, whatever its cause, leaves the record directory and the
    trace directory as they were. *)
Lemma fatal_return_writes_nothing (shlex_split : string -> list string)
    (abspath : string -> string) (fuel : nat) (w : world) (p : profile)
    (bench_name : string) (st st' : state) :
  process_benchmark shlex_split abspath fuel w p bench_name st = Returned 1 st' ->
  record_dir st' = record_dir st /\ data_dir st' = data_dir st.
Proof.
  unfold process_benchmark.
  destruct (benchmark_config p !! bench_name) as [bc|]; [|now intros [= <-]].
  destruct (w_isdir w _); cbn [negb]; [|now intros [= <-]].
  destruct (w_go_build w _ =? 0); cbn [negb]; [|now intros [= <-]].
  unfold generate.
  destruct (base_search _ _ _ _ _ _ _ _ _) as [st1|bs st1|c st1] eqn:E;
    intros H; try discriminate.
  injection H as <-.
  apply search_aborted_inv in E as (k & _ & _ & _ & ->).
  destruct (retried_frame shlex_split p bc (executable abspath p bench_name bc) k
              (size_arg_start bc) (enter st)) as (Hr & Hd & _).
  cbn [log_run record_dir data_dir]. now rewrite Hr, Hd.
Qed.

(** C6.  When the search, having retried its earlier attempts, meets an
    attempt that exits with a non-zero code, the benchmark returns status 1,
    and the record directory is as it was: no record has been written, and
    none is listed. *)
Theorem base_search_failure_writes_nothing (shlex_split : string -> list string)
    (abspath : string -> string) (w : world) (p : profile)
    (bench_name : string) (bc : bconf) (st : state) (k fuel : nat) :
  ready w p bench_name bc ->
  (forall j, (j < k)%nat ->
     retries (benchmark_trace_min_size_MB p) (attempt w (clock st) j) = true) ->
  returncode (w_proc w (clock st + k)) <> 0 ->
  (k < fuel)%nat ->
  exists st',
    process_benchmark shlex_split abspath fuel w p bench_name st = Returned 1 st'
    /\ record_dir st' = record_dir st
    /\ produced_records st' = []
    /\ data_dir st' = data_dir st.
Proof.
  intros Hready Hpre Hexit Hfuel.
  assert (Hfail : succeeded (attempt w (clock st) k) = false).
  { unfold attempt. now rewrite measure_failure. }
  eexists. split.
  - exact (process_benchmark_aborts shlex_split abspath w p bench_name bc fuel k st
             Hready Hpre Hfail Hfuel).
  - destruct (retried_frame shlex_split p bc (executable abspath p bench_name bc) k
                (size_arg_start bc) (enter st)) as (Hr & Hd & _ & _ & Hp).
    cbn [log_run record_dir data_dir produced_records]. now rewrite Hr, Hd, Hp.
Qed.

(** A search whose second attempt fails: status 1, no record. *)
Lemma base_search_failure_writes_nothing_witness :
  exists st',
    process_benchmark Sample.split_ws Sample.abspath 10 Sample.failing_world
      (Sample.mk_profile Sample.plain_bconf 5) "kmeans" Sample.fresh
    = Returned 1 st'
    /\ record_dir st' = [].
Proof.
  destruct (base_search_failure_writes_nothing Sample.split_ws Sample.abspath
              Sample.failing_world (Sample.mk_profile Sample.plain_bconf 5)
              "kmeans" Sample.plain_bconf Sample.fresh 1 10)
    as (st' & Hrun & Hdir & _).
  - repeat split; reflexivity.
  - intros j Hj. destruct j as [|j]; [reflexivity | lia].
  - discriminate.
  - lia.
  - exists st'. split; [exact Hrun | exact Hdir].
Defined.

(** C7.  In every run that reaches the sweeps the status is 0, and every
    combination and every special entry has its command run and its record
    written at its index, whatever the runs before it did; the record of a
    run that exits with a non-zero code has the size field ["0 MB"]. *)
Theorem sweep_failure_recorded (shlex_split : string -> list string)
    (abspath : string -> string) (w : world) (p : profile)
    (bench_name : string) (bc : bconf) (st : state) (k fuel : nat) :
  ready w p bench_name bc ->
  base_found_at w p st k ->
  (k < fuel)%nat ->
  exists st',
    process_benchmark shlex_split abspath fuel w p bench_name st = Returned 0 st'
    /\ clock st'
       = (clock st + k + 1 + length (normal_combinations bc)
          + length (special_arg_list bc))%nat
    /\ (forall i x, normal_combinations bc !! i = Some x ->
          exists rcd,
            record_dir st' !! (length (record_dir st) + 1 + i)%nat
            = Some (record_id (bc_id bc) "0" (1 + i) +:+ ".json", DocRecord rcd)
            /\ rec_id rcd = record_id (bc_id bc) "0" (1 + i)
            /\ produced_records st' !! (1 + i)%nat
               = Some (basename (record_id (bc_id bc) "0" (1 + i) +:+ ".json"))
            /\ executed st' !! (length (executed st) + k + 1 + i)%nat
               = Some (normal_cmd shlex_split p bc (executable abspath p bench_name bc)
                         (base_size_at bc k) x)
            /\ (returncode (w_proc w (clock st + k + 1 + i)) <> 0 ->
                rec_size rcd = "0 MB"))
    /\ (forall j x, special_arg_list bc !! j = Some x ->
          exists rcd,
            record_dir st'
              !! (length (record_dir st) + 1 + length (normal_combinations bc) + j)%nat
            = Some (record_id (bc_id bc) "1"
                      (1 + length (normal_combinations bc) + j) +:+ ".json",
                    DocRecord rcd)
            /\ rec_id rcd
               = record_id (bc_id bc) "1" (1 + length (normal_combinations bc) + j)
            /\ produced_records st' !! (1 + length (normal_combinations bc) + j)%nat
               = Some (basename
                         (record_id (bc_id bc) "1"
                            (1 + length (normal_combinations bc) + j) +:+ ".json"))
            /\ executed st'
                 !! (length (executed st) + k + 1 + length (normal_combinations bc) + j)%nat
               = Some (special_cmd shlex_split p bc (executable abspath p bench_name bc)
                         (base_size_at bc k) x)
            /\ (returncode
                  (w_proc w (clock st + k + 1 + length (normal_combinations bc) + j)) <> 0 ->
                rec_size rcd = "0 MB")).
Proof.
  intros Hready Hfound Hfuel. eexists. split.
  { exact (process_benchmark_completes shlex_split abspath w p bench_name bc fuel k st
             Hready Hfound Hfuel). }
  destruct (finished_counts shlex_split abspath w p bench_name bc st k)
    as (Hclock & _).
  split; [exact Hclock|]. split.
  - intros i x Hx.
    destruct (finished_normal shlex_split abspath w p bench_name bc st k i x Hx)
      as (Hr & _ & Hp & He).
    eexists. split; [exact Hr|]. split; [reflexivity|]. split; [exact Hp|].
    split; [exact He|].
    intros Hexit. cbn [normal_record rec_size]. now apply size_field_failure.
  - intros j x Hx.
    destruct (finished_special shlex_split abspath w p bench_name bc st k j x Hx)
      as (Hr & _ & Hp & He).
    eexists. split; [exact Hr|]. split; [reflexivity|]. split; [exact Hp|].
    split; [exact He|].
    intros Hexit. cbn [special_record rec_size]. now apply size_field_failure.
Qed.

(** In the sample run the first normal run fails, and its record says so. *)
Lemma sweep_failure_recorded_witness :
  exists st' rcd,
    process_benchmark Sample.split_ws Sample.abspath 10 Sample.sweep_world
      (Sample.mk_profile Sample.sweep_bconf 5) "kmeans" Sample.fresh
    = Returned 0 st'
    /\ record_dir st' !! 1%nat = Some ("D0300001.json", DocRecord rcd)
    /\ rec_size rcd = "0 MB".
Proof.
  destruct (sweep_failure_recorded Sample.split_ws Sample.abspath Sample.sweep_world
              (Sample.mk_profile Sample.sweep_bconf 5) "kmeans" Sample.sweep_bconf
              Sample.fresh 3 10 sample_sweep_ready sample_sweep_found ltac:(lia))
    as (st' & Hrun & _ & Hnormal & _).
  destruct (Hnormal 0%nat [JInt 1; JInt 10] eq_refl) as (rcd & Hr & _ & _ & _ & Hsize).
  exists st', rcd. split; [exact Hrun|]. split; [exact Hr|].
  apply Hsize. discriminate.
Defined.

Lemma record_id_shape (b1 b2 : ascii) (t : string) (index : nat) :
  t = "0" \/ t = "1" ->
  record_id (String b1 (String b2 "")) t index
  = "D" +:+ String b1 (String b2 "") +:+ t +:+ fmt_04d index.
Proof.
  intros Ht. unfold record_id, format_data_filename, DATA_TASK_PREFIX, str_replace.
  pose proof (strip_extension_digits
                (Nat.iter (4 - String.length (str_of_nat index)) D0 (Nat.to_uint index)))
    as Hd.
  rewrite <- zeros_uint in Hd. fold (str_of_nat index) in Hd. fold (fmt_04d index) in Hd.
  unfold str_replace in Hd.
  destruct Ht as [-> | ->];
    rewrite !string_app_cons, !string_app_nil_l;
    cbn [replace_from String.prefix];
    destruct (ascii_dec "." b1); try destruct (ascii_dec "s" b2);
    destruct (ascii_dec "." b2); cbn; now rewrite Hd.
Qed.

Lemma length_two (s : string) :
  String.length s = 2%nat -> exists a b, s = String a (String b "").
Proof.
  destruct s as [|a [|b [|c s]]]; cbn; intros H; try discriminate.
  now exists a, b.
Qed.

Lemma format_data_filename_inj (b b' t t' : string) (i i' : nat) :
  String.length b = 2%nat -> String.length b' = 2%nat ->
  String.length t = 1%nat -> String.length t' = 1%nat ->
  format_data_filename b t i = format_data_filename b' t' i' ->
  b = b' /\ t = t' /\ i = i'.
Proof.
  intros (x & y & ->)%length_two (x' & y' & ->)%length_two Ht Ht' E.
  destruct t as [|c [|? ?]]; try discriminate.
  destruct t' as [|c' [|? ?]]; try discriminate.
  apply (f_equal parse_data_filename) in E.
  rewrite !parse_format in E. now inversion E.
Qed.

(** C8.  For a two-character benchmark id, a type id among "0" and "1" and
    any index, [format_data_filename] yields ["D" bench_id type_id digits
    ".sqlite3"], where the digits are at least four and read back as the
    index, and the record file derived from it is the same name with the
    extension [".json"]; reading the name recovers the triple; and names of
    runs that differ in type id or index differ. *)
Theorem format_data_filename_invertible (bench_id type_id : string) (index : nat) :
  String.length bench_id = 2%nat ->
  type_id = "0" \/ type_id = "1" ->
  format_data_filename bench_id type_id index
    = "D" +:+ bench_id +:+ type_id +:+ fmt_04d index +:+ ".sqlite3"
  /\ (4 <= String.length (fmt_04d index))%nat
  /\ (exists d, NilEmpty.uint_of_string (fmt_04d index) = Some d
                /\ Nat.of_uint d = index)
  /\ record_id bench_id type_id index +:+ ".json"
     = "D" +:+ bench_id +:+ type_id +:+ fmt_04d index +:+ ".json"
  /\ parse_data_filename (format_data_filename bench_id type_id index)
     = Some (bench_id, type_id, index)
  /\ (forall type_id' index',
        type_id' = "0" \/ type_id' = "1" ->
        (type_id, index) <> (type_id', index') ->
        format_data_filename bench_id type_id index
          <> format_data_filename bench_id type_id' index').
Proof.
  intros Hb Ht. split; [reflexivity|].
  split; [rewrite fmt_04d_length; lia|].
  split; [apply fmt_04d_read|].
  split; [|split].
  - destruct (length_two _ Hb) as (x & y & ->).
    rewrite record_id_shape by exact Ht. now rewrite !string_app_assoc.
  - destruct (length_two _ Hb) as (x & y & ->).
    destruct Ht as [-> | ->]; apply parse_format.
  - intros t' i' Ht' Hne E. apply Hne.
    apply format_data_filename_inj in E; trivial.
    + destruct E as (_ & -> & ->). reflexivity.
    + destruct Ht as [-> | ->]; reflexivity.
    + destruct Ht' as [-> | ->]; reflexivity.
Qed.

(** Benchmark "03", special run, index 12. *)
Lemma format_data_filename_invertible_witness :
  format_data_filename "03" "1" 12 = "D0310012.sqlite3"
  /\ parse_data_filename "D0310012.sqlite3" = Some ("03", "1", 12%nat).
Proof.
  destruct (format_data_filename_invertible "03" "1" 12)
    as (Hfmt & _ & _ & _ & Hparse & _).
  - reflexivity.
  - right; reflexivity.
  - split; [exact Hfmt | exact Hparse].
Defined.

Lemma stalled_commands (shlex_split : string -> list string) (p : profile)
    (bc : bconf) (exe_path : string) (n : nat) :
  map (fun j => search_cmd shlex_split p bc exe_path (0 * 2 ^ Z.of_nat j)) (seq 0 n)
  = repeat (search_cmd shlex_split p bc exe_path 0) n.
Proof.
  generalize 0%nat as from. induction n as [|n IH]; intros from; [reflexivity|].
  cbn [seq map repeat]. now rewrite IH.
Qed.

(** C9.  With a starting size of 0, and attempts that all succeed without
    an artifact or with one below the threshold, the current size is 0 at
    every iteration: however many iterations the loop is given, it has run
    that many commands, all with size 0, and is still searching. *)
Theorem zero_start_never_advances (shlex_split : string -> list string)
    (abspath : string -> string) (w : world) (p : profile)
    (bench_name : string) (bc : bconf) (st : state) :
  ready w p bench_name bc ->
  size_arg_start bc = 0 ->
  (forall j, retries (benchmark_trace_min_size_MB p) (attempt w (clock st) j) = true) ->
  forall fuel,
    exists st',
      process_benchmark shlex_split abspath fuel w p bench_name st = Pending 0 st'
      /\ clock st' = (clock st + fuel)%nat
      /\ executed st'
         = executed st
             ++ repeat (search_cmd shlex_split p bc
                          (executable abspath p bench_name bc) 0) fuel
      /\ record_dir st' = record_dir st.
Proof.
  intros Hready Hstart Hretry fuel.
  rewrite process_benchmark_ready with (bc := bc) by exact Hready.
  assert (Hloop :
            base_search shlex_split w p bench_name bc
              (executable abspath p bench_name bc) fuel 0 (enter st)
            = SearchPending 0
                (retried shlex_split p bc (executable abspath p bench_name bc)
                   fuel 0 (enter st))).
  { pose proof (search_retries shlex_split w p bench_name bc
                  (executable abspath p bench_name bc) fuel 0 0 (enter st)
                  (fun j _ => Hretry j)) as E.
    rewrite Nat.add_0_r in E. rewrite E. cbn [base_search].
    now rewrite Z.mul_0_l. }
  unfold generate. rewrite Hstart, Hloop.
  eexists. split; [reflexivity|].
  rewrite retried_clock, retried_executed, stalled_commands.
  destruct (retried_frame shlex_split p bc (executable abspath p bench_name bc)
              fuel 0 (enter st)) as (-> & _).
  repeat split.
Qed.

(** Three iterations from size 0: three commands at size 0, still searching. *)
Lemma zero_start_never_advances_witness :
  exists st',
    process_benchmark Sample.split_ws Sample.abspath 3 Sample.barren_world
      (Sample.mk_profile Sample.zero_bconf 5) "kmeans" Sample.fresh
    = Pending 0 st'
    /\ executed st'
       = [ ["/work/bench/kmeans/kmeans"; "-timing"; "-trace-vis"; "-points"; "0"];
           ["/work/bench/kmeans/kmeans"; "-timing"; "-trace-vis"; "-points"; "0"];
           ["/work/bench/kmeans/kmeans"; "-timing"; "-trace-vis"; "-points"; "0"] ].
Proof.
  destruct (zero_start_never_advances Sample.split_ws Sample.abspath
              Sample.barren_world (Sample.mk_profile Sample.zero_bconf 5)
              "kmeans" Sample.zero_bconf Sample.fresh) with (fuel := 3%nat)
    as (st' & Hrun & _ & Hcmds & _).
  - repeat split; reflexivity.
  - reflexivity.
  - intros j. destruct j; reflexivity.
  - exists st'. split; [exact Hrun | exact Hcmds].
Defined.

(** C10.  In every run that reaches the sweeps, the list of traces kept for
    the summary has exactly [1 + K + S] entries, and the summary, when it can
    be written, holds that list.  The entry of every sweep run is its nominal
    file name, whatever the run did; when the run failed or left no
    artifact, no such file reaches the trace directory, so that, unless a
    file of that name was there before the run, the summary names a file
    that does not exist. *)
Theorem summary_lists_every_run (shlex_split : string -> list string)
    (abspath : string -> string) (w : world) (p : profile)
    (bench_name : string) (bc : bconf) (st : state) (k fuel : nat) :
  ready w p bench_name bc ->
  base_found_at w p st k ->
  (k < fuel)%nat ->
  exists st',
    process_benchmark shlex_split abspath fuel w p bench_name st = Returned 0 st'
    /\ length (produced_traces st')
       = (1 + length (normal_combinations bc) + length (special_arg_list bc))%nat
    /\ (w_summary_ok w = true ->
        exists s,
          last (record_dir st') = Some (bench_name +:+ ".json", DocSummary s)
          /\ sum_data s = produced_traces st'
          /\ sum_data_record s = produced_records st')
    /\ (forall i, (i < length (normal_combinations bc))%nat ->
          produced_traces st' !! (1 + i)%nat
          = Some (format_data_filename (bc_id bc) "0" (1 + i))
          /\ (produced_path (measure (w_proc w (clock st + k + 1 + i))) = None ->
              format_data_filename (bc_id bc) "0" (1 + i) ∉ data_dir st ->
              format_data_filename (bc_id bc) "0" (1 + i) ∉ data_dir st'))
    /\ (forall j, (j < length (special_arg_list bc))%nat ->
          produced_traces st' !! (1 + length (normal_combinations bc) + j)%nat
          = Some (format_data_filename (bc_id bc) "1"
                    (1 + length (normal_combinations bc) + j))
          /\ (produced_path
                (measure
                   (w_proc w (clock st + k + 1 + length (normal_combinations bc) + j)))
              = None ->
              format_data_filename (bc_id bc) "1"
                (1 + length (normal_combinations bc) + j) ∉ data_dir st ->
              format_data_filename (bc_id bc) "1"
                (1 + length (normal_combinations bc) + j) ∉ data_dir st')).
Proof.
  intros Hready Hfound Hfuel. eexists. split.
  { exact (process_benchmark_completes shlex_split abspath w p bench_name bc fuel k st
             Hready Hfound Hfuel). }
  destruct (finished_counts shlex_split abspath w p bench_name bc st k)
    as (_ & _ & Hlen & _).
  split; [exact Hlen|]. split; [|split].
  - intros Hok.
    destruct (finished_fields shlex_split abspath w p bench_name bc st k)
      as (_ & _ & _ & _ & Ht & Hp & Hd).
    rewrite Hd, Hok, Ht, Hp. eexists. split; [apply last_snoc|].
    split; reflexivity.
  - intros i Hi.
    destruct (lookup_lt_is_Some_2 (normal_combinations bc) i Hi) as (x & Hx).
    destruct (finished_normal shlex_split abspath w p bench_name bc st k i x Hx)
      as (_ & Ht & _).
    split; [exact Ht|]. intros Hnone.
    apply finished_dangling_normal; [exact Hi|].
    unfold lands. now rewrite Hnone.
  - intros j Hj.
    destruct (lookup_lt_is_Some_2 (special_arg_list bc) j Hj) as (x & Hx).
    destruct (finished_special shlex_split abspath w p bench_name bc st k j x Hx)
      as (_ & Ht & _).
    split; [exact Ht|]. intros Hnone.
    apply finished_dangling_special; [exact Hj|].
    unfold lands. now rewrite Hnone.
Qed.

(** In the sample run the summary lists six traces, and the first normal run,
    which failed, is listed under a name that no file has. *)
Lemma summary_lists_every_run_witness :
  exists st',
    process_benchmark Sample.split_ws Sample.abspath 10 Sample.sweep_world
      (Sample.mk_profile Sample.sweep_bconf 5) "kmeans" Sample.fresh
    = Returned 0 st'
    /\ length (produced_traces st') = 6%nat
    /\ produced_traces st' !! 1%nat = Some "D0300001.sqlite3"
    /\ "D0300001.sqlite3" ∉ data_dir st'.
Proof.
  destruct (summary_lists_every_run Sample.split_ws Sample.abspath Sample.sweep_world
              (Sample.mk_profile Sample.sweep_bconf 5) "kmeans" Sample.sweep_bconf
              Sample.fresh 3 10 sample_sweep_ready sample_sweep_found ltac:(lia))
    as (st' & Hrun & Hlen & _ & Hnormal & _).
  destruct (Hnormal 0%nat) as (Ht & Hgone).
  - vm_compute. lia.
  - exists st'. split; [exact Hrun|]. split; [exact Hlen|]. split; [exact Ht|].
    apply Hgone; [reflexivity|]. apply not_elem_of_empty.
Defined.

(** * Further properties of the code *)

(** ** The runner *)

Lemma newest_spec (best : afile) (l : list afile) :
  exists pre post,
    best :: l = pre ++ newest best l :: post
    /\ (forall g, In g pre -> af_mtime g < af_mtime (newest best l))
    /\ (forall g, In g post -> af_mtime g <= af_mtime (newest best l)).
Proof.
  revert best. induction l as [|g l IH]; intros best.
  - exists [], []. cbn. repeat split; intros ? [].
  - cbn [newest]. destruct (Z.ltb_spec (af_mtime best) (af_mtime g)) as [Hlt | Hge].
    + destruct (IH g) as (pre & post & E & Hpre & Hpost).
      remember (newest g l) as m eqn:Hm. clear Hm IH.
      exists (best :: pre), post. rewrite E. split; [reflexivity|]. split; [|exact Hpost].
      intros x [<- | Hx]; [|now apply Hpre].
      destruct pre as [|y pre]; cbn in E.
      * injection E as E _. now subst m.
      * injection E as E _. subst y. specialize (Hpre g (or_introl eq_refl)). lia.
    + destruct (IH best) as (pre & post & E & Hpre & Hpost).
      remember (newest best l) as m eqn:Hm. clear Hm IH.
      destruct pre as [|y pre]; cbn in E.
      * injection E as E1 E2. subst m l. exists [], (g :: post).
        split; [reflexivity|]. split; [intros ? []|].
        intros x [<- | Hx]; [lia | now apply Hpost].
      * injection E as E1 E2. subst y l. exists (best :: g :: pre), post.
        split; [reflexivity|]. split; [|exact Hpost].
        pose proof (Hpre best (or_introl eq_refl)) as Hb.
        intros x [<- | [<- | Hx]]; [exact Hb | lia |].
        apply Hpre. now right.
Qed.

(** X1.  When the runner reports an artifact, the command exited with 0 and
    the artifact is the most recently modified of the matching files, the
    first listed among those of the latest time; the size reported is that
    file's. *)
Theorem measure_picks_newest (pr : proc) (src : string) :
  produced_path (measure pr) = Some src ->
  returncode pr = 0
  /\ succeeded (measure pr) = true
  /\ exists pre f post,
       matches pr = pre ++ f :: post
       /\ af_name f = src
       /\ size_mb (measure pr) = MbFloat (size_mb_of_bytes (af_size f))
       /\ (forall g, In g pre -> af_mtime g < af_mtime f)
       /\ (forall g, In g post -> af_mtime g <= af_mtime f).
Proof.
  unfold measure. destruct (Z.eqb_spec (returncode pr) 0) as [E0|]; [|discriminate].
  cbn [negb]. destruct (matches pr) as [|f l]; [discriminate|]. cbn.
  intros [= <-]. split; [exact E0|]. split; [reflexivity|].
  destruct (newest_spec f l) as (pre & post & E & Hpre & Hpost).
  exists pre, (newest f l), post. auto.
Qed.

(** Three files, the last two of the latest time: the second is measured. *)
Lemma measure_picks_newest_witness :
  exists pre f post,
    [ {| af_name := "akita_sim_a.sqlite3"; af_mtime := 5; af_size := 0 |};
      {| af_name := "akita_sim_b.sqlite3"; af_mtime := 9; af_size := 1048576 |};
      {| af_name := "akita_sim_c.sqlite3"; af_mtime := 9; af_size := 2097152 |} ]
    = pre ++ f :: post
    /\ af_name f = "akita_sim_b.sqlite3"
    /\ (forall g, In g pre -> af_mtime g < af_mtime f)
    /\ (forall g, In g post -> af_mtime g <= af_mtime f).
Proof.
  destruct (measure_picks_newest
              {| returncode := 0;
                 matches :=
                   [ {| af_name := "akita_sim_a.sqlite3"; af_mtime := 5; af_size := 0 |};
                     {| af_name := "akita_sim_b.sqlite3"; af_mtime := 9; af_size := 1048576 |};
                     {| af_name := "akita_sim_c.sqlite3"; af_mtime := 9; af_size := 2097152 |} ] |}
              "akita_sim_b.sqlite3" eq_refl)
    as (_ & _ & pre & f & post & E & Hn & _ & Hpre & Hpost).
  exists pre, f, post. auto.
Defined.

(** The rounding of [size_mb_of_bytes], spelled out: quotient, remainder and
    the three cases. *)
Lemma size_mb_of_bytes_cases (b : N) :
  exists q r : Z,
    100 * Z.of_N b = q * 1048576 + r /\ 0 <= r < 1048576 /\ 0 <= q
    /\ ((2 * r < 1048576 /\ Z.of_N (size_mb_of_bytes b) = q)
        \/ (1048576 < 2 * r /\ Z.of_N (size_mb_of_bytes b) = q + 1)
        \/ (2 * r = 1048576
            /\ ((exists h, q = 2 * h /\ Z.of_N (size_mb_of_bytes b) = q)
                \/ (exists h, q = 2 * h + 1 /\ Z.of_N (size_mb_of_bytes b) = q + 1)))).
Proof.
  unfold size_mb_of_bytes.
  set (n := (b * 100)%N).
  pose proof (N.div_mod n 1048576 ltac:(discriminate)) as Hdm.
  pose proof (N.mod_lt n 1048576 ltac:(discriminate)) as Hlt.
  assert (Hn : Z.of_N n = 100 * Z.of_N b) by (subst n; lia).
  generalize dependent (n / 1048576)%N. generalize dependent (n mod 1048576)%N.
  intros r Hr q Hdm. cbv zeta.
  exists (Z.of_N q), (Z.of_N r).
  split; [lia|]. split; [lia|]. split; [lia|].
  destruct (N.ltb_spec (2 * r) 1048576) as [H1|H1]; [left; lia|].
  destruct (N.ltb_spec 1048576 (2 * r)) as [H2|H2]; [right; left; lia|].
  right; right. split; [lia|].
  destruct (N.even q) eqn:Hev.
  - left. apply N.even_spec in Hev as (h & Hh). exists (Z.of_N h). lia.
  - right. apply (f_equal negb) in Hev. rewrite N.negb_even in Hev.
    apply N.odd_spec in Hev as (h & Hh). exists (Z.of_N h). lia.
Qed.

(** X2.  For a file below 2^53 bytes, where the float of the source is
    the rounding modelled here: in bytes, the search accepts an artifact
    exactly when twice its size reaches [(2 * T - 1/100) MiB] for the
    threshold [T]; an artifact of at least [T] MiB is always accepted, and so
    is, by the rounding to two decimals, one that is short of it by up to
    5242 bytes. *)
Theorem accepted_size_in_bytes (b : N) (threshold : Z) :
  (b < 2 ^ 53)%N ->
  (mb_ltb (MbFloat (size_mb_of_bytes b)) threshold = false
   <-> (200 * threshold - 1) * 1048576 <= 200 * Z.of_N b)
  /\ (threshold * 1048576 <= Z.of_N b ->
      mb_ltb (MbFloat (size_mb_of_bytes b)) threshold = false)
  /\ (mb_ltb (MbFloat (size_mb_of_bytes b)) threshold = false ->
      threshold * 1048576 - 5242 <= Z.of_N b).
Proof.
  intros _.
  assert (Hiff : mb_ltb (MbFloat (size_mb_of_bytes b)) threshold = false
                 <-> (200 * threshold - 1) * 1048576 <= 200 * Z.of_N b).
  { cbn [mb_ltb]. rewrite Z.ltb_ge.
    destruct (size_mb_of_bytes_cases b)
      as (q & r & Hn & Hr & Hq & [(H & ->) | [(H & ->) | (H & [(h & -> & ->) | (h & -> & ->)])]]);
      lia. }
  split; [exact Hiff|]. split.
  - intros H. apply Hiff. lia.
  - intros H. apply Hiff in H. lia.
Qed.

(** An artifact 5000 bytes short of 5 MiB against a threshold of 5 MB. *)
Lemma accepted_size_in_bytes_witness :
  (5237880 < 2 ^ 53)%N
  /\ mb_ltb (MbFloat (size_mb_of_bytes 5237880)) 5 = false.
Proof.
  assert (H : (5237880 < 2 ^ 53)%N) by reflexivity.
  split; [exact H|].
  apply (proj1 (accepted_size_in_bytes 5237880 5 H)). lia.
Defined.

(** X3.  For files below 2^53 bytes, the size reported is within half a
    hundredth of a MiB of the size of the file, and a larger file never
    reports a smaller size. *)
Theorem size_mb_of_bytes_accurate (b b' : N) :
  (b < 2 ^ 53)%N ->
  (b' < 2 ^ 53)%N ->
  2 * Z.abs (Z.of_N (size_mb_of_bytes b) * 1048576 - 100 * Z.of_N b) <= 1048576
  /\ ((b <= b')%N -> (size_mb_of_bytes b <= size_mb_of_bytes b')%N).
Proof.
  intros _ _.
  assert (Hacc : forall x,
             2 * Z.abs (Z.of_N (size_mb_of_bytes x) * 1048576 - 100 * Z.of_N x) <= 1048576).
  { intros x.
    destruct (size_mb_of_bytes_cases x)
      as (q & r & Hn & Hr & Hq & [(H & ->) | [(H & ->) | (H & [(h & -> & ->) | (h & -> & ->)])]]);
      lia. }
  split; [apply Hacc|]. intros Hle.
  destruct (N.eq_dec b b') as [-> | Hne]; [lia|].
  pose proof (Hacc b). pose proof (Hacc b'). lia.
Qed.

(** Files of 2 MiB and of 6 MiB. *)
Lemma size_mb_of_bytes_accurate_witness :
  (2097152 < 2 ^ 53)%N /\ (6291456 < 2 ^ 53)%N
  /\ (size_mb_of_bytes 2097152 <= size_mb_of_bytes 6291456)%N.
Proof.
  assert (H : (2097152 < 2 ^ 53)%N) by reflexivity.
  assert (H' : (6291456 < 2 ^ 53)%N) by reflexivity.
  split; [exact H|]. split; [exact H'|].
  apply (proj2 (size_mb_of_bytes_accurate 2097152 6291456 H H')). lia.
Defined.

(** ** The ways out of [process_benchmark] *)

Lemma search_pending_inv (shlex_split : string -> list string) (w : world)
    (p : profile) (bench_name : string) (bc : bconf) (exe_path : string)
    (fuel : nat) (c c' : Z) (st st' : state) :
  base_search shlex_split w p bench_name bc exe_path fuel c st = SearchPending c' st' ->
  (forall j, (j < fuel)%nat ->
     retries (benchmark_trace_min_size_MB p) (attempt w (clock st) j) = true)
  /\ c' = c * 2 ^ Z.of_nat fuel
  /\ st' = retried shlex_split p bc exe_path fuel c st.
Proof.
  revert c st. induction fuel as [|fuel IH]; intros c st H.
  - cbn in H. injection H as <- <-. split; [intros j Hj; lia|].
    split; [cbn; lia | reflexivity].
  - destruct (attempt_cases (benchmark_trace_min_size_MB p) (attempt w (clock st) 0))
      as [(Ha & _) | [(_ & Hr & _) | (_ & _ & Hf)]].
    + rewrite search_step_accept in H by exact Ha. discriminate.
    + rewrite search_step_retry in H by exact Hr.
      apply IH in H as (Hpre & -> & ->).
      split; [|split].
      * intros [|j] Hj; [exact Hr|].
        specialize (Hpre j ltac:(lia)). unfold attempt in *. cbn [log_run clock] in Hpre.
        now replace (clock st + S j)%nat with (S (clock st) + j)%nat by lia.
      * rewrite Nat2Z.inj_succ, Z.pow_succ_r by lia. lia.
      * reflexivity.
    + rewrite search_step_abort in H by exact Hf. discriminate.
Qed.

(** X5.  Status 0 is returned only by a run that passed the three checks,
    whose search accepted an attempt within the fuel after retrying every
    earlier one, and that then went through both sweeps and the summary: the
    base size is the start doubled once per retried attempt. *)
Theorem process_benchmark_success_inv (shlex_split : string -> list string)
    (abspath : string -> string) (fuel : nat) (w : world) (p : profile)
    (bench_name : string) (st st' : state) :
  process_benchmark shlex_split abspath fuel w p bench_name st = Returned 0 st' ->
  exists bc k,
    ready w p bench_name bc
    /\ base_found_at w p st k
    /\ (k < fuel)%nat
    /\ st' = finished shlex_split w p bench_name bc
               (executable abspath p bench_name bc) st k.
Proof.
  unfold process_benchmark.
  destruct (benchmark_config p !! bench_name) as [bc|] eqn:Hc; [|discriminate].
  destruct (w_isdir w (benchmark_dir p bench_name)) eqn:Hd; cbn [negb]; [|discriminate].
  destruct (Z.eqb_spec (w_go_build w (benchmark_dir p bench_name)) 0) as [Hb|];
    cbn [negb]; [|discriminate].
  unfold generate.
  destruct (base_search _ _ _ _ _ _ _ _ _) as [st1|bs st1|c st1] eqn:E;
    intros H; try discriminate.
  injection H as <-.
  apply search_found_inv in E as (k & Hk & Hpre & Hacc & -> & ->).
  exists bc, k. split; [repeat split; assumption|].
  split; [split; assumption|]. split; [exact Hk|]. reflexivity.
Qed.

(** The sample run. *)
Lemma process_benchmark_success_inv_witness :
  exists st' bc k,
    process_benchmark Sample.split_ws Sample.abspath 10 Sample.sweep_world
      (Sample.mk_profile Sample.sweep_bconf 5) "kmeans" Sample.fresh
    = Returned 0 st'
    /\ base_found_at Sample.sweep_world (Sample.mk_profile Sample.sweep_bconf 5)
         Sample.fresh k
    /\ st' = finished Sample.split_ws Sample.sweep_world
               (Sample.mk_profile Sample.sweep_bconf 5) "kmeans" bc
               (executable Sample.abspath (Sample.mk_profile Sample.sweep_bconf 5)
                  "kmeans" bc) Sample.fresh k.
Proof.
  pose proof (process_benchmark_completes Sample.split_ws Sample.abspath
                Sample.sweep_world (Sample.mk_profile Sample.sweep_bconf 5) "kmeans"
                Sample.sweep_bconf 10 3 Sample.fresh sample_sweep_ready
                sample_sweep_found ltac:(lia)) as Hrun.
  destruct (process_benchmark_success_inv _ _ _ _ _ _ _ _ Hrun)
    as (bc & k & _ & Hfound & _ & Hst).
  eexists _, bc, k. split; [exact Hrun|]. split; [exact Hfound | exact Hst].
Defined.

(** X6.  The benchmark is still in its search after [fuel] iterations
    exactly when the three checks passed and every one of the [fuel]
    attempts succeeded without an artifact that reaches the threshold; the
    current size is then the start doubled [fuel] times, and nothing but
    commands has happened.  Nothing bounds the number of attempts. *)
Theorem process_benchmark_pending_iff (shlex_split : string -> list string)
    (abspath : string -> string) (fuel : nat) (w : world) (p : profile)
    (bench_name : string) (st st' : state) (c : Z) :
  process_benchmark shlex_split abspath fuel w p bench_name st = Pending c st'
  <-> exists bc,
        ready w p bench_name bc
        /\ (forall j, (j < fuel)%nat ->
              retries (benchmark_trace_min_size_MB p) (attempt w (clock st) j) = true)
        /\ c = size_arg_start bc * 2 ^ Z.of_nat fuel
        /\ st' = retried shlex_split p bc (executable abspath p bench_name bc) fuel
                   (size_arg_start bc) (enter st).
Proof.
  split.
  - unfold process_benchmark.
    destruct (benchmark_config p !! bench_name) as [bc|] eqn:Hc; [|discriminate].
    destruct (w_isdir w (benchmark_dir p bench_name)) eqn:Hd; cbn [negb]; [|discriminate].
    destruct (Z.eqb_spec (w_go_build w (benchmark_dir p bench_name)) 0) as [Hb|];
      cbn [negb]; [|discriminate].
    unfold generate.
    destruct (base_search _ _ _ _ _ _ _ _ _) as [st1|bs st1|c1 st1] eqn:E;
      intros H; try discriminate.
    injection H as <- <-.
    apply search_pending_inv in E as (Hpre & -> & ->).
    exists bc. split; [repeat split; assumption|]. auto.
  - intros (bc & Hready & Hpre & -> & ->).
    rewrite process_benchmark_ready with (bc := bc) by exact Hready.
    unfold generate.
    pose proof (search_retries shlex_split w p bench_name bc
                  (executable abspath p bench_name bc) fuel 0 (size_arg_start bc)
                  (enter st) Hpre) as E.
    rewrite Nat.add_0_r in E. rewrite E. reflexivity.
Qed.

(** X7.  Whatever made the benchmark return status 1, be it a failed check
    or a failed attempt of the search after any number of retried ones, it
    has written no record and put no file in the trace directory: it has
    only run commands. *)
Theorem status_one_writes_nothing (shlex_split : string -> list string)
    (abspath : string -> string) (fuel : nat) (w : world) (p : profile)
    (bench_name : string) (st st' : state) :
  process_benchmark shlex_split abspath fuel w p bench_name st = Returned 1 st' ->
  record_dir st' = record_dir st
  /\ data_dir st' = data_dir st
  /\ exists cmds,
       executed st' = executed st ++ cmds
       /\ clock st' = (clock st + length cmds)%nat.
Proof.
  unfold process_benchmark.
  destruct (benchmark_config p !! bench_name) as [bc|];
    [|intros [= <-]; repeat split; exists []; now rewrite app_nil_r, Nat.add_0_r].
  destruct (w_isdir w _); cbn [negb];
    [|intros [= <-]; repeat split; exists []; now rewrite app_nil_r, Nat.add_0_r].
  destruct (w_go_build w _ =? 0); cbn [negb];
    [|intros [= <-]; repeat split; exists []; now rewrite app_nil_r, Nat.add_0_r].
  unfold generate.
  destruct (base_search _ _ _ _ _ _ _ _ _) as [st1|bs st1|c st1] eqn:E;
    intros H; try discriminate.
  injection H as <-.
  apply search_aborted_inv in E as (k & _ & _ & _ & ->).
  destruct (retried_frame shlex_split p bc (executable abspath p bench_name bc) k
              (size_arg_start bc) (enter st)) as (Hr & Hd & _).
  pose proof (retried_clock shlex_split p bc (executable abspath p bench_name bc) k
                (size_arg_start bc) (enter st)) as Hc.
  pose proof (retried_executed shlex_split p bc (executable abspath p bench_name bc) k
                (size_arg_start bc) (enter st)) as He.
  cbn [log_run record_dir data_dir clock executed].
  rewrite Hr, Hd, Hc, He. cbn [enter clock record_dir data_dir executed].
  split; [reflexivity|]. split; [reflexivity|].
  eexists. rewrite <- app_assoc. split; [reflexivity|].
  rewrite length_app, length_map, length_seq. cbn [length]. lia.
Qed.

(** A search whose second attempt fails: two commands, nothing else. *)
Lemma status_one_writes_nothing_witness :
  exists st',
    process_benchmark Sample.split_ws Sample.abspath 10 Sample.failing_world
      (Sample.mk_profile Sample.plain_bconf 5) "kmeans" Sample.fresh
    = Returned 1 st'
    /\ record_dir st' = [] /\ data_dir st' = ∅ /\ clock st' = 2%nat.
Proof.
  eexists. split; [vm_compute; reflexivity|].
  match goal with
  | |- record_dir ?s = _ /\ _ =>
      destruct (status_one_writes_nothing Sample.split_ws Sample.abspath 10
                  Sample.failing_world (Sample.mk_profile Sample.plain_bconf 5)
                  "kmeans" Sample.fresh s) as (Hr & Hd & _)
  end.
  - vm_compute. reflexivity.
  - split; [exact Hr|]. split; [exact Hd | reflexivity].
Defined.

(** ** The commands and what the records say of them *)

(** A profile that differs from [p] in the trace-file flag only. *)
Lemma base_search_trace_flag (shlex_split : string -> list string) (w : world)
    (p : profile) (bench_name : string) (bc : bconf) (exe_path : string)
    (flag : string) (fuel : nat) (c : Z) (st : state) :
  base_search shlex_split w
    {| benchmark_config := benchmark_config p;
       data_save_path := data_save_path p;
       data_record_save_path := data_record_save_path p;
       benchmark_path := benchmark_path p;
       benchmark_base_arg := benchmark_base_arg p;
       benchmark_trace_filename_arg := flag;
       benchmark_trace_min_size_MB := benchmark_trace_min_size_MB p |}
    bench_name bc exe_path fuel c st
  = base_search shlex_split w p bench_name bc exe_path fuel c st.
Proof.
  revert c st. induction fuel as [|fuel IH]; intros c st; [reflexivity|].
  cbn [base_search]. unfold run_benchmark_and_get_size.
  cbn [benchmark_base_arg benchmark_trace_min_size_MB].
  destruct (succeeded _); cbn [negb]; [|reflexivity].
  destruct (produced_path _); [|apply IH].
  destruct (mb_ltb _ _); [apply IH | reflexivity].
Qed.

(** X8.  The flag [benchmark_trace_filename_arg] of the profile never
    reaches a command, a record or the summary: a profile that differs in it
    only gives the same run, command for command.  The benchmark is not told
    where to write its trace. *)
Theorem trace_flag_unused (shlex_split : string -> list string)
    (abspath : string -> string) (fuel : nat) (w : world) (p : profile)
    (bench_name : string) (st : state) (flag : string) :
  process_benchmark shlex_split abspath fuel w
    {| benchmark_config := benchmark_config p;
       data_save_path := data_save_path p;
       data_record_save_path := data_record_save_path p;
       benchmark_path := benchmark_path p;
       benchmark_base_arg := benchmark_base_arg p;
       benchmark_trace_filename_arg := flag;
       benchmark_trace_min_size_MB := benchmark_trace_min_size_MB p |}
    bench_name st
  = process_benchmark shlex_split abspath fuel w p bench_name st.
Proof.
  unfold process_benchmark. cbn [benchmark_config].
  destruct (benchmark_config p !! bench_name) as [bc|]; [|reflexivity].
  change (benchmark_dir _ bench_name) with (benchmark_dir p bench_name).
  destruct (w_isdir w _); cbn [negb]; [|reflexivity].
  destruct (w_go_build w _ =? 0); cbn [negb]; [|reflexivity].
  change (executable abspath _ bench_name bc) with (executable abspath p bench_name bc).
  unfold generate. rewrite base_search_trace_flag.
  destruct (base_search _ _ _ _ _ _ _ _ _); reflexivity.
Qed.

Lemma concat_space_last (l : list string) (a b : string) :
  String.concat " " (l ++ [a +:+ " " +:+ b]) = String.concat " " (l ++ [a; b]).
Proof.
  induction l as [|x l IH]; [reflexivity|].
  cbn [app]. destruct l as [|y l].
  - reflexivity.
  - cbn [app String.concat] in *. now rewrite IH.
Qed.

(** X9.  The command string of a special record is the command that ran,
    joined with spaces, the path of the executable being replaced by its
    name.  The same holds of the base record, provided the tokenizer gives
    no token for an empty string of base arguments. *)
Theorem records_reconstruct_command (shlex_split : string -> list string)
    (p : profile) (bench_name : string) (bc : bconf) (exe_path : string)
    (base_size : Z) (idx : nat) (size : mb) (special dest_name : string) :
  shlex_split "" = [] ->
  rec_benchmark_cmd
    (special_record shlex_split p bench_name bc exe_path base_size idx size special)
  = String.concat " "
      (basename exe_path :: tl (special_cmd shlex_split p bc exe_path base_size special))
  /\ rec_benchmark_cmd
       (base_record shlex_split p bench_name bc exe_path idx base_size size dest_name)
     = String.concat " "
         (basename exe_path :: tl (search_cmd shlex_split p bc exe_path base_size)).
Proof.
  intros Hempty. split.
  - unfold special_record, special_cmd, sweep_cmd_prefix, strip_leading_dot_slash.
    cbn [rec_benchmark_cmd].
    destruct (String.eqb (benchmark_base_arg p) ""); reflexivity.
  - unfold base_record, search_cmd, build_base_benchmark_cmd, strip_leading_dot_slash.
    cbn [rec_benchmark_cmd].
    destruct (String.eqb_spec (benchmark_base_arg p) "") as [E|_].
    + rewrite E, Hempty. reflexivity.
    + cbn [app tl].
      change (basename exe_path :: shlex_split (benchmark_base_arg p)
                ++ [size_arg bc; str_of_Z base_size])
        with ((basename exe_path :: shlex_split (benchmark_base_arg p))
                ++ [size_arg bc; str_of_Z base_size]).
      rewrite <- concat_space_last. reflexivity.
Qed.

(** The special run of the sample: [-x 1 2] at base size 8. *)
Lemma records_reconstruct_command_witness :
  rec_benchmark_cmd
    (special_record Sample.split_ws (Sample.mk_profile Sample.sweep_bconf 5) "kmeans"
       Sample.sweep_bconf "/work/bench/kmeans/kmeans" 8 5 (MbInt 0) "-x 1 2")
  = "kmeans -timing -trace-vis -points 8 -x 1 2".
Proof.
  destruct (records_reconstruct_command Sample.split_ws
              (Sample.mk_profile Sample.sweep_bconf 5) "kmeans" Sample.sweep_bconf
              "/work/bench/kmeans/kmeans" 8 5 (MbInt 0) "-x 1 2" "" eq_refl)
    as (H & _).
  rewrite H. reflexivity.
Defined.

(** ** The names of a finished run *)

Lemma run_type_length (bc : bconf) (a : nat) : String.length (run_type bc a) = 1%nat.
Proof. unfold run_type. now destruct (a <=? _)%nat. Qed.

(** The run at position [a >= 1] holds index [a]. *)
Lemma finished_position (shlex_split : string -> list string)
    (abspath : string -> string) (w : world) (p : profile)
    (bench_name : string) (bc : bconf) (st : state) (k a : nat) :
  (1 <= a)%nat ->
  (a < 1 + length (normal_combinations bc) + length (special_arg_list bc))%nat ->
  exists r,
    record_dir (finished shlex_split w p bench_name bc
                  (executable abspath p bench_name bc) st k)
      !! (length (record_dir st) + a)%nat
    = Some (record_id (bc_id bc) (run_type bc a) a +:+ ".json", DocRecord r)
    /\ rec_id r = record_id (bc_id bc) (run_type bc a) a
    /\ rec_trace_file r = format_data_filename (bc_id bc) (run_type bc a) a
    /\ rec_benchmark r = bench_name
    /\ rec_mgpusim_commit_SHA r = MGPUSIM_COMMIT_SHA
    /\ produced_traces (finished shlex_split w p bench_name bc
                          (executable abspath p bench_name bc) st k) !! a
       = Some (format_data_filename (bc_id bc) (run_type bc a) a)
    /\ produced_records (finished shlex_split w p bench_name bc
                           (executable abspath p bench_name bc) st k) !! a
       = Some (basename (record_id (bc_id bc) (run_type bc a) a +:+ ".json")).
Proof.
  intros H1 Ha. unfold run_type.
  destruct (Nat.leb_spec a (length (normal_combinations bc))) as [Hle | Hgt].
  - destruct (lookup_lt_is_Some_2 (normal_combinations bc) (a - 1)) as (x & Hx); [lia|].
    destruct (finished_normal shlex_split abspath w p bench_name bc st k (a - 1) x Hx)
      as (Hr & Ht & Hp & _).
    replace (1 + (a - 1))%nat with a in * by lia.
    replace (length (record_dir st) + 1 + (a - 1))%nat
      with (length (record_dir st) + a)%nat in Hr by lia.
    eexists. split; [exact Hr|]. repeat split; assumption.
  - destruct (lookup_lt_is_Some_2 (special_arg_list bc)
                (a - 1 - length (normal_combinations bc))) as (x & Hx); [lia|].
    destruct (finished_special shlex_split abspath w p bench_name bc st k _ x Hx)
      as (Hr & Ht & Hp & _).
    replace (1 + length (normal_combinations bc)
             + (a - 1 - length (normal_combinations bc)))%nat with a in * by lia.
    replace (length (record_dir st) + 1 + length (normal_combinations bc)
             + (a - 1 - length (normal_combinations bc)))%nat
      with (length (record_dir st) + a)%nat in Hr by lia.
    eexists. split; [exact Hr|]. repeat split; assumption.
Qed.

(** X10.  In a finished run no two sweep runs share a trace file name, and
    none has the name of the base trace: a relocated artifact is never
    replaced by the artifact of a later run of the same orchestration. *)
Theorem sweep_trace_names_distinct (shlex_split : string -> list string)
    (abspath : string -> string) (w : world) (p : profile)
    (bench_name : string) (bc : bconf) (st : state) (k fuel : nat) :
  ready w p bench_name bc ->
  base_found_at w p st k ->
  (k < fuel)%nat ->
  exists st',
    process_benchmark shlex_split abspath fuel w p bench_name st = Returned 0 st'
    /\ forall a b x y,
         (1 <= a)%nat -> a <> b ->
         produced_traces st' !! a = Some x ->
         (b = 0%nat /\ y = format_data_filename (bc_id bc) "0" 0
          \/ (1 <= b)%nat /\ produced_traces st' !! b = Some y) ->
         x <> y.
Proof.
  intros Hready Hfound Hfuel. eexists. split.
  { exact (process_benchmark_completes shlex_split abspath w p bench_name bc fuel k st
             Hready Hfound Hfuel). }
  destruct (finished_counts shlex_split abspath w p bench_name bc st k)
    as (_ & _ & Hlen & _).
  intros a b x y Ha Hab Hx Hy E. subst y.
  pose proof (lookup_lt_Some _ _ _ Hx) as Halt. rewrite Hlen in Halt.
  destruct (finished_position shlex_split abspath w p bench_name bc st k a Ha Halt)
    as (_ & _ & _ & _ & _ & _ & Hta & _).
  rewrite Hta in Hx. injection Hx as <-.
  destruct Hy as [(-> & Hy) | (Hb & Hy)].
  - apply format_data_filename_same_bench in Hy as (_ & Hy);
      [lia | apply run_type_length | reflexivity].
  - pose proof (lookup_lt_Some _ _ _ Hy) as Hblt. rewrite Hlen in Hblt.
    destruct (finished_position shlex_split abspath w p bench_name bc st k b Hb Hblt)
      as (_ & _ & _ & _ & _ & _ & Htb & _).
    rewrite Htb in Hy.
    assert (Hy' : format_data_filename (bc_id bc) (run_type bc b) b
                  = format_data_filename (bc_id bc) (run_type bc a) a) by congruence.
    apply format_data_filename_same_bench in Hy' as (_ & Hy');
      [lia | apply run_type_length | apply run_type_length].
Qed.

(** In the sample run the traces of the second and of the fifth sweep run. *)
Lemma sweep_trace_names_distinct_witness :
  exists st' x y,
    process_benchmark Sample.split_ws Sample.abspath 10 Sample.sweep_world
      (Sample.mk_profile Sample.sweep_bconf 5) "kmeans" Sample.fresh
    = Returned 0 st'
    /\ produced_traces st' !! 2%nat = Some x
    /\ produced_traces st' !! 5%nat = Some y
    /\ x <> y.
Proof.
  destruct (sweep_trace_names_distinct Sample.split_ws Sample.abspath Sample.sweep_world
              (Sample.mk_profile Sample.sweep_bconf 5) "kmeans" Sample.sweep_bconf
              Sample.fresh 3 10 sample_sweep_ready sample_sweep_found ltac:(lia))
    as (st' & Hrun & Hdistinct).
  pose proof Hrun as Hrun'. vm_compute in Hrun'. injection Hrun' as <-.
  eexists _, _, _. split; [exact Hrun|]. split; [reflexivity|]. split; [reflexivity|].
  apply (Hdistinct 2%nat 5%nat); [lia | lia | reflexivity |].
  right. split; [lia | reflexivity].
Defined.

Ltac skip_segment_in H :=
  rewrite lookup_app_r in H
    by (rewrite ?length_imap, ?length_map, ?length_seq; cbn [length]; lia);
  rewrite ?length_imap, ?length_map, ?length_seq in H; cbn [length] in H.

Lemma record_name_inj (b : string) (t t' : string) (i i' : nat) :
  String.length b = 2%nat ->
  t = "0" \/ t = "1" -> t' = "0" \/ t' = "1" ->
  record_id b t i +:+ ".json" = record_id b t' i' +:+ ".json" ->
  t = t' /\ i = i'.
Proof.
  intros (x & y & ->)%length_two Ht Ht' E.
  rewrite !record_id_shape in E by assumption.
  rewrite !string_app_assoc in E.
  apply (inj (String.app "D")), (inj (String.app (String x (String y "")))) in E.
  destruct Ht as [-> | ->], Ht' as [-> | ->];
    rewrite !string_app_cons, !string_app_nil_l in E; try discriminate;
    injection E as E; (split; [reflexivity|]);
    apply (f_equal (strip_suffix ".json")) in E;
    rewrite !strip_suffix_app in E; injection E as E; now apply fmt_04d_inj.
Qed.

Lemma run_type_cases (bc : bconf) (a : nat) : run_type bc a = "0" \/ run_type bc a = "1".
Proof. unfold run_type. destruct (a <=? _)%nat; auto. Qed.

(** X11.  With a benchmark id of two characters, the records of a finished
    run, the base record included, are written to files of pairwise distinct
    names: no record of the run replaces another. *)
Theorem record_names_distinct (shlex_split : string -> list string)
    (abspath : string -> string) (w : world) (p : profile)
    (bench_name : string) (bc : bconf) (st : state) (k fuel : nat) :
  ready w p bench_name bc ->
  base_found_at w p st k ->
  (k < fuel)%nat ->
  String.length (bc_id bc) = 2%nat ->
  exists st',
    process_benchmark shlex_split abspath fuel w p bench_name st = Returned 0 st'
    /\ forall a b na nb ra rb,
         a <> b ->
         record_dir st' !! (length (record_dir st) + a)%nat = Some (na, DocRecord ra) ->
         record_dir st' !! (length (record_dir st) + b)%nat = Some (nb, DocRecord rb) ->
         na <> nb.
Proof.
  intros Hready Hfound Hfuel Hid. eexists. split.
  { exact (process_benchmark_completes shlex_split abspath w p bench_name bc fuel k st
             Hready Hfound Hfuel). }
  set (st' := finished shlex_split w p bench_name bc (executable abspath p bench_name bc) st k).
  assert (Hname : forall a n r,
             record_dir st' !! (length (record_dir st) + a)%nat = Some (n, DocRecord r) ->
             exists t, (t = "0" \/ t = "1") /\ n = record_id (bc_id bc) t a +:+ ".json").
  { intros a n r Hn.
    destruct (Nat.eq_dec a 0%nat) as [-> | Ha0].
    - destruct (finished_base shlex_split abspath w p bench_name bc st k) as (Hb & _).
      destruct (base_rcd_fields shlex_split abspath w p bench_name bc st k) as (Hidb & _).
      rewrite Nat.add_0_r in Hn. fold st' in Hb. rewrite Hb in Hn.
      injection Hn as <- _. exists "0". split; [now left|]. f_equal. exact Hidb.
    - destruct (Nat.lt_ge_cases a
                  (1 + length (normal_combinations bc) + length (special_arg_list bc)))
        as [Hlt | Hge].
      + destruct (finished_position shlex_split abspath w p bench_name bc st k a
                    ltac:(lia) Hlt) as (r' & Hr' & _).
        fold st' in Hr'. rewrite Hr' in Hn. injection Hn as <- _.
        exists (run_type bc a). split; [apply run_type_cases | reflexivity].
      + exfalso.
        destruct (finished_fields shlex_split abspath w p bench_name bc st k)
          as (_ & _ & _ & _ & _ & _ & Hd).
        destruct (swept_fields shlex_split abspath w p bench_name bc st k)
          as (_ & Hs & _).
        fold st' in Hd. rewrite Hd, Hs in Hn. rewrite <- !app_assoc in Hn.
        do 4 skip_segment_in Hn.
        destruct (w_summary_ok w);
          [|apply lookup_lt_Some in Hn; cbn [length] in Hn; lia].
        match type of Hn with
        | _ !! ?m = _ =>
            destruct m;
            [discriminate | apply lookup_lt_Some in Hn; cbn [length] in Hn; lia]
        end. }
  intros a b na nb ra rb Hab Ha Hb E. subst nb.
  destruct (Hname a na ra Ha) as (t & Ht & Hn).
  destruct (Hname b na rb Hb) as (t' & Ht' & Hn').
  rewrite Hn in Hn'.
  apply record_name_inj in Hn' as (_ & Hn'); auto.
Qed.

(** In the sample run the base record and the record of the special run. *)
Lemma record_names_distinct_witness :
  exists st' na nb ra rb,
    process_benchmark Sample.split_ws Sample.abspath 10 Sample.sweep_world
      (Sample.mk_profile Sample.sweep_bconf 5) "kmeans" Sample.fresh
    = Returned 0 st'
    /\ record_dir st' !! 0%nat = Some (na, DocRecord ra)
    /\ record_dir st' !! 5%nat = Some (nb, DocRecord rb)
    /\ na <> nb.
Proof.
  destruct (record_names_distinct Sample.split_ws Sample.abspath Sample.sweep_world
              (Sample.mk_profile Sample.sweep_bconf 5) "kmeans" Sample.sweep_bconf
              Sample.fresh 3 10 sample_sweep_ready sample_sweep_found ltac:(lia)
              eq_refl)
    as (st' & Hrun & Hdistinct).
  pose proof Hrun as Hrun'. vm_compute in Hrun'. injection Hrun' as <-.
  eexists _, _, _, _, _. split; [exact Hrun|].
  split; [reflexivity|]. split; [reflexivity|].
  eapply (Hdistinct 0%nat 5%nat); [lia | reflexivity | reflexivity].
Defined.

(** X12.  In a finished run the three lists go together, position by
    position, the base run included: the record written at a position is
    stored under its id followed by [".json"], the summary lists the name of
    that file among the records and the [trace_file] of that record among the
    traces, and the record names the benchmark and the fixed revision. *)
Theorem summary_pairs_records (shlex_split : string -> list string)
    (abspath : string -> string) (w : world) (p : profile)
    (bench_name : string) (bc : bconf) (st : state) (k fuel : nat) :
  ready w p bench_name bc ->
  base_found_at w p st k ->
  (k < fuel)%nat ->
  exists st',
    process_benchmark shlex_split abspath fuel w p bench_name st = Returned 0 st'
    /\ forall a,
         (a < 1 + length (normal_combinations bc) + length (special_arg_list bc))%nat ->
         exists r,
           record_dir st' !! (length (record_dir st) + a)%nat
           = Some (rec_id r +:+ ".json", DocRecord r)
           /\ produced_records st' !! a = Some (basename (rec_id r +:+ ".json"))
           /\ produced_traces st' !! a = Some (rec_trace_file r)
           /\ rec_benchmark r = bench_name
           /\ rec_mgpusim_commit_SHA r = MGPUSIM_COMMIT_SHA.
Proof.
  intros Hready Hfound Hfuel. eexists. split.
  { exact (process_benchmark_completes shlex_split abspath w p bench_name bc fuel k st
             Hready Hfound Hfuel). }
  intros a Ha. destruct (Nat.eq_dec a 0%nat) as [-> | Ha0].
  - destruct (finished_base shlex_split abspath w p bench_name bc st k)
      as (Hb & Ht & Hp).
    rewrite Nat.add_0_r. eexists. split; [exact Hb|].
    split; [exact Hp|]. split; [exact Ht|]. split; reflexivity.
  - destruct (finished_position shlex_split abspath w p bench_name bc st k a
                ltac:(lia) Ha) as (r & Hr & Hid & Hfile & Hbn & Hsha & Ht & Hp).
    exists r. rewrite Hid, Hfile. repeat split; assumption.
Qed.

(** In the sample run, the record of the first sweep run. *)
Lemma summary_pairs_records_witness :
  exists st' r,
    process_benchmark Sample.split_ws Sample.abspath 10 Sample.sweep_world
      (Sample.mk_profile Sample.sweep_bconf 5) "kmeans" Sample.fresh
    = Returned 0 st'
    /\ record_dir st' !! 1%nat = Some (rec_id r +:+ ".json", DocRecord r)
    /\ produced_traces st' !! 1%nat = Some (rec_trace_file r).
Proof.
  destruct (summary_pairs_records Sample.split_ws Sample.abspath Sample.sweep_world
              (Sample.mk_profile Sample.sweep_bconf 5) "kmeans" Sample.sweep_bconf
              Sample.fresh 3 10 sample_sweep_ready sample_sweep_found ltac:(lia))
    as (st' & Hrun & Hpairs).
  destruct (Hpairs 1%nat) as (r & Hr & _ & Ht & _); [vm_compute; lia|].
  exists st', r. split; [exact Hrun|]. split; [exact Hr | exact Ht].
Defined.

(** ** The normal pass and its configuration *)

Lemma volume_zero {A : Type} (pools : list (list A)) :
  volume pools = 0%nat <-> exists pool, In pool pools /\ pool = [].
Proof.
  induction pools as [|pool rest IH]; cbn [volume].
  - split; [discriminate | intros (? & [] & _)].
  - rewrite Nat.eq_mul_0, IH. split.
    + intros [H | (q & Hq & ->)].
      * exists pool. split; [now left | now apply length_zero_iff_nil].
      * exists []. split; [now right | reflexivity].
    + intros (q & [<- | Hq] & ->); [now left|]. right. now exists [].
Qed.

(** X13.  The normal pass has nothing to run exactly when no flag is
    declared or some declared flag has no value: its name, the dashes in
    front removed, is missing from [normal_arg_values], or is given an empty
    list.  One such flag silences every other. *)
Theorem normal_pass_empty_iff (bc : bconf) :
  normal_combinations bc = []
  <-> normal_arg_list bc = []
      \/ exists arg,
           In arg (normal_arg_list bc)
           /\ (normal_arg_values bc !! lstrip_dash arg = None
               \/ normal_arg_values bc !! lstrip_dash arg = Some []).
Proof.
  assert (Hvol : normal_combinations bc = []
                 <-> normal_arg_list bc = [] \/ volume (normal_values_lists bc) = 0%nat).
  { unfold normal_combinations.
    destruct (normal_values_lists bc) as [|pool rest] eqn:E.
    - apply map_eq_nil in E. split; auto.
    - rewrite product_lex, <- lex_product_volume. split.
      + intros ->. now right.
      + intros [H | H].
        * unfold normal_values_lists in E. rewrite H in E. discriminate.
        * now apply length_zero_iff_nil. }
  rewrite Hvol, volume_zero. unfold normal_values_lists. split.
  - intros [H | (pool & Hin & ->)]; [now left|]. right.
    apply in_map_iff in Hin as (arg & Hd & Harg). exists arg. split; [exact Harg|].
    destruct (normal_arg_values bc !! lstrip_dash arg) as [l|]; cbn in Hd; subst; auto.
  - intros [H | (arg & Harg & Hv)]; [now left|]. right.
    exists []. split; [|reflexivity]. apply in_map_iff. exists arg.
    split; [|exact Harg]. destruct Hv as [-> | ->]; reflexivity.
Qed.

(** X14.  Every combination the normal pass enumerates gives to every
    declared flag, in order, one of the values configured for it: pairing
    the flags with the combination drops nothing, and the command has the
    common prefix followed by each flag and its value. *)
Theorem normal_combination_covers_flags (shlex_split : string -> list string)
    (p : profile) (bc : bconf) (exe_path : string) (base_size : Z)
    (combo : list jvalue) :
  In combo (normal_combinations bc) ->
  length combo = length (normal_arg_list bc)
  /\ map fst (combine (normal_arg_list bc) combo) = normal_arg_list bc
  /\ map snd (combine (normal_arg_list bc) combo) = combo
  /\ Forall2
       (fun arg v => In v (default [] (normal_arg_values bc !! lstrip_dash arg)))
       (normal_arg_list bc) combo
  /\ length (normal_cmd shlex_split p bc exe_path base_size combo)
     = (length (sweep_cmd_prefix shlex_split p bc exe_path base_size)
        + 2 * length (normal_arg_list bc))%nat.
Proof.
  intros Hin.
  assert (HF : Forall2 (fun v pool => In v pool) combo (normal_values_lists bc)).
  { unfold normal_combinations in Hin.
    destruct (normal_values_lists bc) as [|pool rest] eqn:E; [destruct Hin|].
    rewrite product_lex in Hin. now apply lex_product_spec. }
  unfold normal_values_lists in HF.
  assert (HF2 : Forall2
                  (fun arg v => In v (default [] (normal_arg_values bc !! lstrip_dash arg)))
                  (normal_arg_list bc) combo).
  { clear Hin. revert combo HF. generalize (normal_arg_list bc) as flags.
    induction flags as [|arg flags IH]; intros combo HF; inversion HF; subst.
    - constructor.
    - constructor; [assumption | now apply IH]. }
  assert (Hlen : length combo = length (normal_arg_list bc)).
  { clear -HF2. induction HF2; cbn; congruence. }
  split; [exact Hlen|].
  assert (Hfst : map fst (combine (normal_arg_list bc) combo) = normal_arg_list bc).
  { clear -HF2. induction HF2; cbn; congruence. }
  assert (Hsnd : map snd (combine (normal_arg_list bc) combo) = combo).
  { clear -HF2. induction HF2; cbn; congruence. }
  split; [exact Hfst|]. split; [exact Hsnd|]. split; [exact HF2|].
  unfold normal_cmd. rewrite length_app. f_equal.
  clear -HF2. induction HF2; cbn; [reflexivity | lia].
Qed.

(** The last combination of the sample. *)
Lemma normal_combination_covers_flags_witness :
  map fst (combine (normal_arg_list Sample.sweep_bconf) [JInt 2; JInt 20])
  = ["-a"; "-b"].
Proof.
  destruct (normal_combination_covers_flags Sample.split_ws
              (Sample.mk_profile Sample.sweep_bconf 5) Sample.sweep_bconf
              "/work/bench/kmeans/kmeans" 8 [JInt 2; JInt 20])
    as (_ & H & _).
  - vm_compute. tauto.
  - exact H.
Defined.

(** ** The command line *)

Lemma process_benchmark_status (shlex_split : string -> list string)
    (abspath : string -> string) (fuel : nat) (w : world) (p : profile)
    (bench_name : string) (st st' : state) (status : Z) :
  process_benchmark shlex_split abspath fuel w p bench_name st = Returned status st' ->
  status = 0 \/ status = 1.
Proof.
  unfold process_benchmark, generate.
  destruct (benchmark_config p !! bench_name); [|intros [= <- _]; auto].
  destruct (w_isdir w _); cbn [negb]; [|intros [= <- _]; auto].
  destruct (w_go_build w _ =? 0); cbn [negb]; [|intros [= <- _]; auto].
  destruct (base_search _ _ _ _ _ _ _ _ _); intros [= <- _]; auto.
Qed.

Lemma run_benchmarks_exit (shlex_split : string -> list string)
    (abspath : string -> string) (fuel : nat) (w : world) (p : profile)
    (benchmarks : list string) (rc rc' : Z) (st st' : state) :
  run_benchmarks shlex_split abspath fuel w p benchmarks rc st = Exit rc' st'
  <-> exists statuses,
        processed shlex_split abspath fuel w p benchmarks st statuses st'
        /\ rc' = fold_left Z.lor statuses rc.
Proof.
  revert rc st. induction benchmarks as [|b rest IH]; intros rc st; cbn [run_benchmarks].
  - split.
    + intros [= <- <-]. exists []. split; [constructor | reflexivity].
    + intros (ss & H & ->). inversion H; subst. reflexivity.
  - destruct (process_benchmark shlex_split abspath fuel w p b st) as [s st1|c st1] eqn:E.
    + rewrite IH. split.
      * intros (ss & H & ->). exists (s :: ss). split; [|reflexivity].
        econstructor; eassumption.
      * intros (ss & H & ->). inversion H; subst.
        match goal with
        | H1 : process_benchmark _ _ _ _ _ _ _ = Returned ?s' ?t |- _ =>
            rewrite E in H1; injection H1 as <- <-
        end.
        eexists. split; [eassumption | reflexivity].
    + split; [discriminate|]. intros (ss & H & _). inversion H; subst. congruence.
Qed.

Lemma fold_lor_statuses (statuses : list Z) (rc : Z) :
  (rc = 0 \/ rc = 1) ->
  Forall (fun s => s = 0 \/ s = 1) statuses ->
  fold_left Z.lor statuses rc
  = if (rc =? 1) || existsb (Z.eqb 1) statuses then 1 else 0.
Proof.
  intros Hrc H. revert rc Hrc. induction H as [|s ss Hs _ IH]; intros rc Hrc.
  - cbn. destruct Hrc as [-> | ->]; reflexivity.
  - cbn [fold_left existsb]. rewrite IH.
    + destruct Hrc as [-> | ->], Hs as [-> | ->]; reflexivity.
    + destruct Hrc as [-> | ->], Hs as [-> | ->]; cbn; auto.
Qed.

Lemma processed_statuses (shlex_split : string -> list string)
    (abspath : string -> string) (fuel : nat) (w : world) (p : profile)
    (benchmarks : list string) (st st' : state) (statuses : list Z) :
  processed shlex_split abspath fuel w p benchmarks st statuses st' ->
  Forall (fun s => s = 0 \/ s = 1) statuses
  /\ length statuses = length benchmarks.
Proof.
  induction 1 as [|b rest st0 st1 st2 s ss Hrun _ (IH1 & IH2)].
  - split; [constructor | reflexivity].
  - split; [|cbn; congruence].
    constructor; [|exact IH1]. eapply process_benchmark_status, Hrun.
Qed.

(** X15.  Nothing is run unless the profile was found, at least one name
    was given and every name given is a configured benchmark: otherwise the
    exit code is 1 and no benchmark is processed, not even the configured
    ones named before an unknown one. *)
Theorem main_validates_first (shlex_split : string -> list string)
    (abspath : string -> string) (fuel : nat) (w : world)
    (loaded : option profile) (benchmarks : list string) (st : state) :
  loaded = None
  \/ benchmarks = []
  \/ (exists p b, loaded = Some p /\ In b benchmarks /\ benchmark_config p !! b = None) ->
  main shlex_split abspath fuel w loaded benchmarks st = Exit 1 st.
Proof.
  intros [-> | [-> | (p & b & -> & Hin & Hnone)]]; cbn [main].
  - reflexivity.
  - now destruct loaded.
  - destruct benchmarks as [|b0 rest]; [reflexivity|].
    destruct (List.filter _ (b0 :: rest)) as [|m ms] eqn:E; [|reflexivity].
    exfalso.
    assert (Hm : In b (List.filter
                         (fun b => negb (bool_decide (is_Some (benchmark_config p !! b))))
                         (b0 :: rest))).
    { apply filter_In. split; [exact Hin|]. rewrite Hnone.
      rewrite bool_decide_eq_false_2; [reflexivity|]. intros (x & Hx). discriminate. }
    rewrite E in Hm. destruct Hm.
Qed.

(** A configured name followed by one that is not. *)
Lemma main_validates_first_witness :
  main Sample.split_ws Sample.abspath 10 Sample.sweep_world
    (Some (Sample.mk_profile Sample.sweep_bconf 5)) ["kmeans"; "fir"] Sample.fresh
  = Exit 1 Sample.fresh.
Proof.
  apply main_validates_first. right. right.
  exists (Sample.mk_profile Sample.sweep_bconf 5), "fir".
  split; [reflexivity|]. split; [right; left; reflexivity | reflexivity].
Defined.

(** X16.  When the names pass the validation, the program exits exactly when
    every benchmark returns, each being processed from the state the one
    before left, whatever that one's status; the exit code is then 1 if some
    benchmark returned 1 and 0 otherwise. *)
Theorem main_exit_code (shlex_split : string -> list string)
    (abspath : string -> string) (fuel : nat) (w : world) (p : profile)
    (benchmarks : list string) (st st' : state) (rc : Z) :
  benchmarks <> [] ->
  (forall b, In b benchmarks -> is_Some (benchmark_config p !! b)) ->
  main shlex_split abspath fuel w (Some p) benchmarks st = Exit rc st'
  <-> exists statuses,
        processed shlex_split abspath fuel w p benchmarks st statuses st'
        /\ length statuses = length benchmarks
        /\ Forall (fun s => s = 0 \/ s = 1) statuses
        /\ rc = if existsb (Z.eqb 1) statuses then 1 else 0.
Proof.
  intros Hne Hall.
  assert (Hmain : main shlex_split abspath fuel w (Some p) benchmarks st
                  = run_benchmarks shlex_split abspath fuel w p benchmarks 0 st).
  { cbn [main]. destruct benchmarks as [|b0 rest]; [contradiction|].
    destruct (List.filter _ (b0 :: rest)) as [|m ms] eqn:E; [reflexivity|].
    exfalso.
    assert (Hm : In m (List.filter
                         (fun b => negb (bool_decide (is_Some (benchmark_config p !! b))))
                         (b0 :: rest))) by (rewrite E; now left).
    apply filter_In in Hm as (Hin & Hm).
    rewrite bool_decide_eq_true_2 in Hm by (now apply Hall). discriminate. }
  rewrite Hmain, run_benchmarks_exit. split.
  - intros (ss & H & ->). exists ss.
    destruct (processed_statuses _ _ _ _ _ _ _ _ _ H) as (Hbin & Hlen).
    split; [exact H|]. split; [exact Hlen|]. split; [exact Hbin|].
    rewrite fold_lor_statuses by auto. reflexivity.
  - intros (ss & H & _ & Hbin & ->). exists ss. split; [exact H|].
    rewrite fold_lor_statuses by auto. reflexivity.
Qed.

(** The sample benchmark named twice: the first run finishes, the second
    finds the world out of artifacts and fails in its search, and the exit
    code is 1. *)
Lemma main_exit_code_witness :
  exists st' statuses,
    main Sample.split_ws Sample.abspath 10 Sample.sweep_world
      (Some (Sample.mk_profile Sample.sweep_bconf 5)) ["kmeans"; "kmeans"] Sample.fresh
    = Exit 1 st'
    /\ processed Sample.split_ws Sample.abspath 10 Sample.sweep_world
         (Sample.mk_profile Sample.sweep_bconf 5) ["kmeans"; "kmeans"] Sample.fresh
         statuses st'
    /\ statuses = [0; 1].
Proof.
  assert (Hrun : exists st',
             main Sample.split_ws Sample.abspath 10 Sample.sweep_world
               (Some (Sample.mk_profile Sample.sweep_bconf 5)) ["kmeans"; "kmeans"]
               Sample.fresh = Exit 1 st').
  { eexists. vm_compute. reflexivity. }
  destruct Hrun as (st' & Hrun).
  pose proof (proj1 (main_exit_code Sample.split_ws Sample.abspath 10 Sample.sweep_world
                (Sample.mk_profile Sample.sweep_bconf 5) ["kmeans"; "kmeans"]
                Sample.fresh st' 1 ltac:(discriminate)
                ltac:(intros b [<- | [<- | []]]; eexists; reflexivity)) Hrun)
    as (ss & Hproc & Hlen & Hbin & Hrc).
  assert (ss = [0; 1]) as ->.
  { destruct ss as [|a [|b [|c ss]]]; try discriminate Hlen.
    inversion Hproc as [|? ? ? ? ? ? ? H1 Hrest]; subst.
    inversion Hrest as [|? ? ? ? ? ? ? H2 _]; subst.
    vm_compute in H1. injection H1 as <- <-.
    vm_compute in H2. injection H2 as <- _. reflexivity. }
  exists st', [0; 1]. split; [exact Hrun|]. split; [exact Hproc | reflexivity].
Defined.

(** * Properties of the upload *)

(** ** Paths *)

Lemma split_slash_cons (s : string) : exists x xs, split_slash s = x :: xs.
Proof.
  induction s as [|c s (x & xs & IH)]; cbn; [eauto|].
  destruct (Ascii.eqb c "/"); [eauto|]. rewrite IH. eauto.
Qed.

Lemma rstrip_slash_cons (c : ascii) (s : string) :
  rstrip_slash (String c s)
  = if String.eqb (rstrip_slash s) ""
    then (if Ascii.eqb c "/" then "" else String c "")
    else String c (rstrip_slash s).
Proof. cbn. now destruct (rstrip_slash s). Qed.

(** Stripping the separators at the end only removes empty components at
    the end. *)
Lemma split_slash_rstrip (s : string) :
  exists n, split_slash s = split_slash (rstrip_slash s) ++ repeat "" n.
Proof.
  induction s as [|c s (n & IH)]; [exists 0%nat; reflexivity|].
  rewrite rstrip_slash_cons.
  destruct (Ascii.eqb_spec c "/") as [-> | NC].
  - destruct (String.eqb_spec (rstrip_slash s) "") as [E | NE].
    + rewrite E in IH. exists (S n). cbn. now rewrite IH.
    + exists n. cbn. now rewrite IH.
  - pose proof NC as NC'. apply Ascii.eqb_neq in NC'.
    destruct (String.eqb_spec (rstrip_slash s) "") as [E | NE].
    + rewrite E in IH. exists n. cbn [split_slash]. rewrite NC', IH. reflexivity.
    + exists n. cbn [split_slash]. rewrite NC'.
      destruct (split_slash_cons (rstrip_slash s)) as (x & xs & Hx).
      rewrite IH, Hx. reflexivity.
Qed.

Lemma filter_repeat_empty (f : string -> bool) (n : nat) :
  f "" = false -> List.filter f (repeat "" n) = [].
Proof. intros H. induction n; cbn; [reflexivity|]. now rewrite H. Qed.

Lemma lstrip_slash_length (s : string) :
  (String.length (lstrip_slash s) <= String.length s)%nat.
Proof.
  induction s as [|c s IH]; cbn; [lia|].
  destruct c as [[] [] [] [] [] [] [] []]; cbn; lia.
Qed.

Lemma lstrip_slash_other (c : ascii) (s : string) :
  c <> "/"%char -> lstrip_slash (String c s) = String c s.
Proof.
  intros NC. destruct c as [[] [] [] [] [] [] [] []]; try reflexivity. congruence.
Qed.

Lemma is_rooted_other (c : ascii) (s : string) :
  c <> "/"%char -> is_rooted (String c s) = false.
Proof.
  intros NC. destruct c as [[] [] [] [] [] [] [] []]; try reflexivity. congruence.
Qed.

Lemma rstrip_slash_empty (s : string) :
  rstrip_slash s = "" -> lstrip_slash s = "".
Proof.
  induction s as [|c s IH]; [reflexivity|].
  rewrite rstrip_slash_cons.
  destruct (String.eqb_spec (rstrip_slash s) "") as [E | NE]; [|discriminate].
  destruct (Ascii.eqb_spec c "/") as [-> | NC]; [|discriminate].
  intros _. cbn. auto.
Qed.

(** On a path that is not made of separators only, stripping them at the
    end leaves the root and the number of leading separators as they are. *)
Lemma rstrip_slash_root (t : string) :
  lstrip_slash t <> "" ->
  is_rooted (rstrip_slash t) = is_rooted t
  /\ lstrip_slash (rstrip_slash t) = rstrip_slash (lstrip_slash t)
  /\ (String.length (rstrip_slash t) - String.length (lstrip_slash (rstrip_slash t))
      = String.length t - String.length (lstrip_slash t))%nat.
Proof.
  induction t as [|c t IH]; [now intros []|].
  intros NE. destruct (Ascii.eqb_spec c "/") as [-> | NC].
  - cbn [lstrip_slash] in NE |- *. specialize (IH NE) as (_ & IH2 & IH3).
    rewrite rstrip_slash_cons.
    destruct (String.eqb_spec (rstrip_slash t) "") as [E | NE'].
    { apply rstrip_slash_empty in E. contradiction. }
    cbn [is_rooted lstrip_slash String.length]. split; [reflexivity|]. split; [exact IH2|].
    pose proof (lstrip_slash_length (rstrip_slash t)).
    pose proof (lstrip_slash_length t). lia.
  - rewrite (lstrip_slash_other c t NC).
    assert (exists r, rstrip_slash (String c t) = String c r) as (r & Hr).
    { rewrite rstrip_slash_cons. apply Ascii.eqb_neq in NC. rewrite NC.
      destruct (String.eqb (rstrip_slash t) ""); eauto. }
    rewrite Hr, (lstrip_slash_other c r NC), !(is_rooted_other c _ NC).
    repeat split; lia.
Qed.

Lemma head_of_cons (c : ascii) (p : string) :
  head_of (String c p)
  = match head_of p with
    | "" => if Ascii.eqb c "/" then "/" else ""
    | h => String c h
    end.
Proof. reflexivity. Qed.

Lemma head_of_trailing_slash (t : string) :
  ends_with_slash t = true -> head_of t = t.
Proof.
  induction t as [|c t IH]; [discriminate|].
  destruct t as [|c' t'].
  - cbn. destruct (Ascii.eqb_spec c "/") as [-> | NC]; [reflexivity | discriminate].
  - intros H. change (ends_with_slash (String c' t') = true) in H.
    specialize (IH H). rewrite head_of_cons, IH. reflexivity.
Qed.

(** For a path that ends with a separator, [dirname] only strips
    separators off the end, which [pathlib] does not see. *)
Lemma path_parts_dirname (t : string) :
  ends_with_slash t = true ->
  dirname t <> "" /\ path_parts (dirname t) = path_parts t.
Proof.
  intros H. unfold dirname. rewrite (head_of_trailing_slash t H).
  assert (Ht : t <> "") by (destruct t; [discriminate | congruence]).
  destruct (String.eqb_spec t "") as [E | _]; [contradiction|].
  destruct (String.eqb_spec (lstrip_slash t) "") as [E | NE]; cbn [negb andb].
  - split; [exact Ht | reflexivity].
  - split.
    + intros E. apply rstrip_slash_empty in E. contradiction.
    + destruct (rstrip_slash_root t NE) as (H1 & H2 & H3).
      unfold path_parts, splitroot. cbv zeta. rewrite H1, H3, H2.
      destruct (is_rooted t) eqn:Hroot.
      * destruct (split_slash_rstrip (lstrip_slash t)) as (n & Hn).
        destruct (_ =? 2)%nat;
          rewrite Hn, List.filter_app, filter_repeat_empty, app_nil_r by reflexivity;
          reflexivity.
      * destruct t as [|c t']; [contradiction|].
        destruct (Ascii.eqb_spec c "/") as [-> | NC]; [discriminate|].
        rewrite (lstrip_slash_other c t' NC) in *.
        destruct (split_slash_rstrip (String c t')) as (n & Hn).
        rewrite Hn, List.filter_app, filter_repeat_empty, app_nil_r by reflexivity.
        reflexivity.
Qed.

(** ** Resolving a Drive path *)

Lemma truthy_nonempty (o : option string) (id : string) :
  truthy o = Some id -> id <> "".
Proof. destruct o as [[|c s]|]; cbn; congruence. Qed.

Lemma walk_nonempty (service : drive) (j : list request) (parts : list string) :
  forall current_id id,
    current_id <> "" -> walk service j current_id parts = Done id -> id <> "".
Proof.
  induction parts as [|seg rest IH]; intros cur id Hcur; cbn [walk].
  - congruence.
  - destruct rest as [|seg' rest'].
    + destruct (_find_child_id service j cur seg (Some false)) as [fid|]; [|discriminate].
      destruct (truthy fid) as [fid'|] eqn:Hf.
      { intros [= <-]. exact (truthy_nonempty _ _ Hf). }
      destruct (_find_child_id service j cur seg (Some true)) as [fid2|]; [|discriminate].
      destruct (truthy fid2) as [fid'|] eqn:Hf2; [|discriminate].
      intros [= <-]. exact (truthy_nonempty _ _ Hf2).
    + destruct (_find_child_id service j cur seg (Some true)) as [next|]; [|discriminate].
      destruct (truthy next) as [next'|] eqn:Hn; [|discriminate].
      apply IH. exact (truthy_nonempty _ _ Hn).
Qed.

(** The id [path_to_id] returns is never the empty string. *)
Lemma path_to_id_nonempty (service : drive) (j : list request) (path id : string) :
  path_to_id service j path = Done id -> id <> "".
Proof.
  unfold path_to_id.
  destruct (List.filter _ (path_parts path)) as [|first rest]; [congruence|].
  apply walk_nonempty. discriminate.
Qed.

Lemma path_to_id_dirname (service : drive) (j : list request) (t : string) :
  ends_with_slash t = true ->
  path_to_id service j (dirname t) = path_to_id service j t.
Proof.
  intros H. unfold path_to_id.
  now rewrite (proj2 (path_parts_dirname t H)).
Qed.

Lemma lstrip_slash_unrooted (s : string) : is_rooted s = false -> lstrip_slash s = s.
Proof.
  destruct s as [|c s]; [reflexivity|].
  destruct (Ascii.eqb_spec c "/") as [-> | NC]; [discriminate|].
  intros _. now apply lstrip_slash_other.
Qed.

(** The parts of a path that is not rooted, after one, two and three
    separators. *)
Lemma path_parts_rooted (rest : string) :
  is_rooted rest = false ->
  path_parts ("/" +:+ rest) = "/" :: path_parts rest
  /\ path_parts ("//" +:+ rest) = "//" :: path_parts rest
  /\ path_parts ("///" +:+ rest) = "/" :: path_parts rest.
Proof.
  intros H. pose proof (lstrip_slash_unrooted rest H) as Hl.
  unfold path_parts, splitroot. rewrite H.
  rewrite !string_app_cons, !string_app_nil_l.
  cbn [is_rooted lstrip_slash String.length]. rewrite Hl.
  replace (S (String.length rest) - String.length rest)%nat with 1%nat by lia.
  replace (S (S (String.length rest)) - String.length rest)%nat with 2%nat by lia.
  replace (S (S (S (String.length rest))) - String.length rest)%nat with 3%nat by lia.
  cbn. repeat split; reflexivity.
Qed.

(** X17.  One separator in front of a path, or three, change nothing to
    what [path_to_id] resolves; exactly two do: [pathlib] keeps them as a
    root of their own, which the filter of the segments lets through, so the
    walk starts by looking for a folder named [//] at the top of the
    Drive, and a root marker after them is not taken as one. *)
Theorem path_to_id_leading_slashes (service : drive) (j : list request) (rest : string) :
  is_rooted rest = false ->
  path_to_id service j ("/" +:+ rest) = path_to_id service j rest
  /\ path_to_id service j ("///" +:+ rest) = path_to_id service j rest
  /\ path_to_id service j ("//" +:+ rest)
     = walk service j "root"
         ("//" :: List.filter (fun seg => negb (String.eqb seg "" || String.eqb seg "/"))
                    (path_parts rest)).
Proof.
  intros H. destruct (path_parts_rooted rest H) as (H1 & H2 & H3).
  unfold path_to_id. rewrite H1, H2, H3. repeat split; reflexivity.
Qed.

(** The folder [Workspace] of the sample Drive. *)
Lemma path_to_id_leading_slashes_witness :
  path_to_id DriveSample.dataset_drive [] "/My Drive/Workspace" = Done "W"
  /\ path_to_id DriveSample.dataset_drive [] "My Drive/Workspace" = Done "W"
  /\ path_to_id DriveSample.dataset_drive [] "//My Drive/Workspace"
     = Raised (FileNotFoundError "Folder '//' not found under parent id root").
Proof.
  destruct (path_to_id_leading_slashes DriveSample.dataset_drive [] "My Drive/Workspace"
              eq_refl) as (H1 & _ & H2).
  split; [etransitivity; [exact H1 | reflexivity]|].
  split; [reflexivity|].
  etransitivity; [exact H2 | reflexivity].
Defined.

(** ** Uploading one file *)

Lemma send_journal (service : drive) (src parent_id file_name : string)
    (existing : option string) (j : list request) :
  snd (send service src parent_id file_name existing j)
  = j ++ (if media_ok service src
          then match truthy existing with
               | Some id => [UpdateFile id src]
               | None => [CreateFile file_name parent_id src]
               end
          else []).
Proof.
  unfold send, issue. destruct (media_ok service src); cbn [negb].
  - destruct (truthy existing); destruct (files_write service j _); reflexivity.
  - cbn. now rewrite app_nil_r.
Qed.

(** The only way [upload_file] comes to update a file. *)
Lemma upload_file_update_inv (service : drive) (src target : string)
    (overwrite : bool) (j : list request) :
  exists new,
    snd (upload_file service src target overwrite j) = j ++ new
    /\ (length new <= 2)%nat
    /\ forall f s,
         In (UpdateFile f s) new ->
         overwrite = true /\ s = src
         /\ path_to_id service j target = Done f
         /\ (exists mime, files_mimeType service j f = Ok mime /\ mime <> FOLDER_MIME)
         /\ files_parents service j f <> Failed
         /\ media_ok service src = true.
Proof.
  unfold upload_file.
  destruct (path_to_id service j target) as [target_id | e] eqn:Hp.
  - destruct (files_mimeType service j target_id) as [mime|] eqn:Hm.
    2:{ exists []. cbn. rewrite app_nil_r. split; [reflexivity|]. split; [lia|]. now intros. }
    destruct (String.eqb_spec mime FOLDER_MIME) as [-> | Hmime].
    { eexists. split; [apply send_journal|]. cbn [truthy].
      destruct (media_ok service src); cbn; (split; [lia|]); intros f s H;
        decompose [or] H; try discriminate; contradiction. }
    destruct overwrite.
    2:{ exists []. cbn. rewrite app_nil_r. split; [reflexivity|]. split; [lia|]. now intros. }
    destruct (files_parents service j target_id) as [parents|] eqn:Hpar.
    2:{ exists []. cbn. rewrite app_nil_r. split; [reflexivity|]. split; [lia|]. now intros. }
    eexists. split; [apply send_journal|].
    destruct (media_ok service src) eqn:Hmedia.
    2:{ cbn. split; [lia|]. now intros. }
    assert (Ht : truthy (Some target_id) = Some target_id).
    { pose proof (path_to_id_nonempty _ _ _ _ Hp). destruct target_id; [congruence|reflexivity]. }
    rewrite Ht. cbn [length]. split; [lia|].
    intros f s [[= <- <-] | []].
    repeat split; try reflexivity; [eauto | congruence].
  - assert (Hnone' : forall e' : exn,
              exists new, snd (@Raised string e', j) = j ++ new
                /\ (length new <= 2)%nat
                /\ forall f s, In (UpdateFile f s) new ->
                     overwrite = true /\ s = src /\ Raised e = Done f
                     /\ (exists mime, files_mimeType service j f = Ok mime
                                      /\ mime <> FOLDER_MIME)
                     /\ files_parents service j f <> Failed
                     /\ media_ok service src = true).
    { intros e'. exists []. cbn. rewrite app_nil_r. split; [reflexivity|].
      split; [lia|]. now intros. }
    destruct e as [msg | msg | |]; try apply Hnone'.
    destruct (if String.eqb (dirname target) "" then Done "root"
              else path_to_id service j (dirname target)) as [parent_id | e']; [|apply Hnone'].
    unfold issue.
    destruct (files_write service j (CreateFolder (basename target) parent_id))
      as [created|].
    + exists ([CreateFolder (basename target) parent_id]
               ++ (if media_ok service src
                   then [CreateFile (basename src) created src] else [])).
      rewrite send_journal. cbn [truthy]. rewrite <- app_assoc.
      split; [reflexivity|].
      destruct (media_ok service src); cbn; (split; [lia|]);
        intros f s H; decompose [or] H; try discriminate; contradiction.
    + exists [CreateFolder (basename target) parent_id]. cbn.
      split; [reflexivity|]. split; [lia|].
      intros f s [H | []]. discriminate.
Qed.

(** X18.  [upload_file] asks the Drive to update a file exactly when
    [overwrite] is set and the target path resolves to an item that is not a
    folder (and the two look-ups and the opening of the local file
    succeed); the file updated is that item.  In particular a file sent
    into a folder never replaces one of the same name there: it is created
    beside it. *)
Theorem upload_file_replaces_only_named_file (service : drive) (src target : string)
    (overwrite : bool) (j : list request) :
  exists new,
    snd (upload_file service src target overwrite j) = j ++ new
    /\ forall f s,
         In (UpdateFile f s) new
         <-> overwrite = true /\ s = src
             /\ path_to_id service j target = Done f
             /\ (exists mime, files_mimeType service j f = Ok mime /\ mime <> FOLDER_MIME)
             /\ files_parents service j f <> Failed
             /\ media_ok service src = true.
Proof.
  destruct (upload_file_update_inv service src target overwrite j)
    as (new & Hnew & _ & Hinv).
  exists new. split; [exact Hnew|]. intros f s. split; [apply Hinv|].
  intros (-> & -> & Hp & (mime & Hm & Hmime) & Hpar & Hmedia).
  unfold upload_file in Hnew. rewrite Hp, Hm in Hnew.
  apply String.eqb_neq in Hmime. rewrite Hmime in Hnew.
  destruct (files_parents service j f) as [parents|]; [|congruence].
  rewrite send_journal, Hmedia in Hnew.
  pose proof (path_to_id_nonempty _ _ _ _ Hp) as Hne.
  assert (Ht : truthy (Some f) = Some f) by (destruct f; [congruence|reflexivity]).
  rewrite Ht in Hnew. apply app_inv_head in Hnew. subst new. now left.
Qed.

(** X19.  A target that ends with a separator and does not resolve is not
    created: its directory name is the same path without the separator,
    which does not resolve either, so [upload_file] raises the same
    [FileNotFoundError] and sends nothing to the Drive. *)
Theorem upload_file_unresolved_folder_target (service : drive)
    (src target msg : string) (overwrite : bool) (j : list request) :
  ends_with_slash target = true ->
  path_to_id service j target = Raised (FileNotFoundError msg) ->
  upload_file service src target overwrite j = (Raised (FileNotFoundError msg), j).
Proof.
  intros Hs Hp. unfold upload_file. rewrite Hp.
  destruct (path_parts_dirname target Hs) as (Hne & _).
  apply String.eqb_neq in Hne. rewrite Hne.
  rewrite (path_to_id_dirname service j target Hs), Hp. reflexivity.
Qed.

(** On a Drive that holds nothing, the remote folder of the traces. *)
Lemma upload_file_unresolved_folder_target_witness :
  path_to_id DriveSample.empty_drive [] (DRIVE_BASE +:+ "/data/")
  = Raised (FileNotFoundError "Folder 'Workspace' not found under parent id root")
  /\ upload_file DriveSample.empty_drive "data/D0300000.sqlite3"
       (DRIVE_BASE +:+ "/data/") true []
     = (Raised (FileNotFoundError "Folder 'Workspace' not found under parent id root"), []).
Proof.
  split; [reflexivity|].
  apply (upload_file_unresolved_folder_target DriveSample.empty_drive
           "data/D0300000.sqlite3" (DRIVE_BASE +:+ "/data/")
           "Folder 'Workspace' not found under parent id root" true []);
    reflexivity.
Defined.

(** ** Uploading several files *)

Lemma upload_files_app (service : drive) (overwrite : bool)
    (a b : list (string * string)) :
  forall j,
    upload_files service (a ++ b) overwrite j
    = let '(r1, j1) := upload_files service a overwrite j in
      let '(r2, j2) := upload_files service b overwrite j1 in
      (r1 ++ r2, j2).
Proof.
  induction a as [|[src tgt] a IH]; intros j; cbn [upload_files app].
  - now destruct (upload_files service b overwrite j).
  - destruct (upload_file service src tgt overwrite j) as [o j1].
    rewrite IH.
    destruct (upload_files service a overwrite j1) as [r1 j2].
    now destruct (upload_files service b overwrite j2).
Qed.

Lemma upload_files_unresolved (service : drive) (overwrite : bool)
    (target msg : string) (j : list request) (srcs : list string) :
  ends_with_slash target = true ->
  path_to_id service j target = Raised (FileNotFoundError msg) ->
  upload_files service (map (fun src => (src, target)) srcs) overwrite j
  = (map (fun src => (src, target, Raised (FileNotFoundError msg))) srcs, j).
Proof.
  intros Hs Hp. induction srcs as [|src srcs IH]; [reflexivity|].
  cbn [map upload_files].
  unfold upload_file at 1. rewrite Hp.
  destruct (path_parts_dirname target Hs) as (Hne & _).
  apply String.eqb_neq in Hne. rewrite Hne.
  rewrite (path_to_id_dirname service j target Hs), Hp.
  now rewrite IH.
Qed.

(** With [overwrite] off, [upload_files] never updates a file of the
    Drive, whatever the earlier uploads of the same call did to it. *)
Lemma upload_files_journal (service : drive) (overwrite : bool)
    (pairs : list (string * string)) :
  forall j, exists new,
    snd (upload_files service pairs overwrite j) = j ++ new
    /\ (length new <= 2 * length pairs)%nat
    /\ (overwrite = false -> forall f s, ~ In (UpdateFile f s) new).
Proof.
  induction pairs as [|[src tgt] pairs IH]; intros j.
  - exists []. cbn. rewrite app_nil_r. split; [reflexivity|]. split; [lia|]. now intros.
  - cbn [upload_files].
    destruct (upload_file_update_inv service src tgt overwrite j)
      as (new1 & H1 & Hlen1 & Hinv).
    destruct (upload_file service src tgt overwrite j) as [o j1]. cbn [snd] in H1.
    destruct (IH j1) as (new2 & H2 & Hlen2 & Hno).
    destruct (upload_files service pairs overwrite j1) as [results j2]. cbn [snd] in *.
    exists (new1 ++ new2). subst j1 j2. rewrite app_assoc.
    split; [reflexivity|]. split; [rewrite length_app; cbn [length]; lia|].
    intros -> f s Hin. apply in_app_or in Hin as [Hin | Hin].
    + apply Hinv in Hin as (? & _). discriminate.
    + exact (Hno eq_refl f s Hin).
Qed.

(** X20.  [upload_files] gives one result per pair, in the order of the
    pairs and with their source and target, whether the uploads succeed or
    raise; it sends at most two requests per pair, and with [overwrite] off
    none of them updates a file. *)
Theorem upload_files_results (service : drive) (overwrite : bool)
    (pairs : list (string * string)) (j : list request) :
  map fst (fst (upload_files service pairs overwrite j)) = pairs
  /\ exists new,
       snd (upload_files service pairs overwrite j) = j ++ new
       /\ (length new <= 2 * length pairs)%nat
       /\ (overwrite = false -> forall f s, ~ In (UpdateFile f s) new).
Proof.
  split; [|apply upload_files_journal].
  revert j. induction pairs as [|[src tgt] pairs IH]; intros j; [reflexivity|].
  cbn [upload_files].
  destruct (upload_file service src tgt overwrite j) as [o j1].
  specialize (IH j1).
  destruct (upload_files service pairs overwrite j1) as [results j2].
  cbn [fst map] in *. now rewrite IH.
Qed.

(** ** [upload] *)

(** The two loops of [upload]: the files that exist are paired with the
    remote folder, the others are listed as missing, both in the order of
    the summary. *)
Lemma collect_fold (fs : local_files) (dir drive_target : string) (names : list string) :
  forall pairs missing,
    fold_left (collect fs dir drive_target) names (pairs, missing)
    = (pairs ++ map (fun src => (src, drive_target))
                  (List.filter (lf_exists fs) (map (local_path dir) names)),
       missing ++ List.filter (fun src => negb (lf_exists fs src))
                    (map (local_path dir) names)).
Proof.
  induction names as [|n names IH]; intros pairs missing; cbn [fold_left map List.filter].
  - now rewrite !app_nil_r.
  - unfold collect at 2. cbn [fst snd].
    destruct (lf_exists fs (local_path dir n)); cbn [negb];
      rewrite IH, <- app_assoc; reflexivity.
Qed.

Lemma filter_all {A : Type} (f : A -> bool) (l : list A) :
  (forall x, In x l -> f x = true) -> List.filter f l = l.
Proof.
  induction l as [|x l IH]; intros H; cbn; [reflexivity|].
  rewrite (H x) by now left. rewrite IH; [reflexivity|]. intros y Hy. apply H. now right.
Qed.

Lemma filter_nothing {A : Type} (f : A -> bool) (l : list A) :
  (forall x, In x l -> f x = false) -> List.filter f l = [].
Proof.
  induction l as [|x l IH]; intros H; cbn; [reflexivity|].
  rewrite (H x) by now left. apply IH. intros y Hy. apply H. now right.
Qed.

Lemma filter_none_empty {A : Type} (f : A -> bool) (l : list A) :
  List.filter (fun x => negb (f x)) l = [] -> List.filter f l = l.
Proof.
  intros H. apply filter_all. intros x Hx.
  destruct (f x) eqn:E; [reflexivity|].
  assert (In x (List.filter (fun x => negb (f x)) l)) as Hin
    by (apply filter_In; now rewrite E).
  rewrite H in Hin. contradiction.
Qed.

(** What [upload] does once the summary is there, by the list of the
    listed files that are not. *)
Lemma upload_cases (fs : local_files) (service : drive) (benchmark : string)
    (overwrite : bool) (j : list request) :
  lf_exists fs (summary_path benchmark) = true ->
  upload fs service benchmark overwrite j
  = let s := lf_summary fs (summary_path benchmark) in
    let data := map (local_path "data") (sum_data s) in
    let records := map (local_path "data_record") (sum_data_record s) in
    match List.filter (fun src => negb (lf_exists fs src)) (data ++ records) with
    | (_ :: _) as missing =>
        (Raised (FileNotFoundError (missing_message benchmark missing)), j)
    | [] =>
        let '(results, j1) :=
          upload_files service
            (map (fun src => (src, DRIVE_BASE +:+ "/data/")) data
               ++ map (fun src => (src, DRIVE_BASE +:+ "/data_record/")) records)
            overwrite j in
        (Done results, j1)
    end.
Proof.
  intros Hsum. unfold upload. rewrite Hsum. cbn [negb]. cbv zeta.
  rewrite !collect_fold. cbn [fst snd app]. rewrite List.filter_app.
  destruct (List.filter _ (map (local_path "data") _) ++ List.filter _ _) as [|m ms] eqn:Hmiss;
    [|reflexivity].
  apply app_eq_nil in Hmiss as (H1 & H2).
  now rewrite (filter_none_empty _ _ H1), (filter_none_empty _ _ H2).
Qed.

(** X21.  [upload] checks every listed file before it uploads any: if one
    of them is not there it raises [FileNotFoundError] naming all the
    missing ones, traces first and in the order of the summary, and nothing
    has been sent to the Drive, not even the files that are there.
    Otherwise every listed file is handed to [upload_files], the traces
    for the remote folder [data/] and then the records for [data_record/]. *)
Theorem upload_all_or_nothing (fs : local_files) (service : drive)
    (benchmark : string) (overwrite : bool) (j : list request) :
  lf_exists fs (summary_path benchmark) = true ->
  let s := lf_summary fs (summary_path benchmark) in
  let data := map (local_path "data") (sum_data s) in
  let records := map (local_path "data_record") (sum_data_record s) in
  let missing := List.filter (fun src => negb (lf_exists fs src)) (data ++ records) in
  (missing <> [] ->
   upload fs service benchmark overwrite j
   = (Raised (FileNotFoundError (missing_message benchmark missing)), j))
  /\ (missing = [] ->
      upload fs service benchmark overwrite j
      = let '(results, j1) :=
          upload_files service
            (map (fun src => (src, DRIVE_BASE +:+ "/data/")) data
               ++ map (fun src => (src, DRIVE_BASE +:+ "/data_record/")) records)
            overwrite j in
        (Done results, j1)).
Proof.
  intros Hsum s data records missing.
  rewrite (upload_cases fs service benchmark overwrite j Hsum). cbv zeta.
  fold s. fold data. fold records. fold missing.
  split; intros H.
  - destruct missing; [contradiction | reflexivity].
  - now rewrite H.
Qed.

(** Two of the four listed files are not there. *)
Lemma upload_all_or_nothing_witness :
  upload
    (DriveSample.files_of
       ["data_record/kmeans.json"; "data/D0300000.sqlite3"; "data_record/D0300001.json"]
       DriveSample.kmeans_summary)
    DriveSample.dataset_drive "kmeans" true []
  = (Raised (FileNotFoundError
               "Missing local files referenced by data_record/kmeans.json: data/D0300001.sqlite3, data_record/D0300000.json"),
     []).
Proof.
  apply (upload_all_or_nothing
           (DriveSample.files_of
              ["data_record/kmeans.json"; "data/D0300000.sqlite3";
               "data_record/D0300001.json"]
              DriveSample.kmeans_summary)
           DriveSample.dataset_drive "kmeans" true []);
    [reflexivity | discriminate].
Defined.

(** X22.  [upload] does not make the remote folders.  When every listed
    file is there but the remote folder [data/] does not resolve, every
    trace gets the result of that failed resolution and nothing is sent for
    it; the records are then uploaded from the journal as it was. *)
Theorem upload_needs_remote_folder (fs : local_files) (service : drive)
    (benchmark msg : string) (overwrite : bool) (j : list request) :
  lf_exists fs (summary_path benchmark) = true ->
  let s := lf_summary fs (summary_path benchmark) in
  (forall n, In n (sum_data s) -> lf_exists fs (local_path "data" n) = true) ->
  (forall n, In n (sum_data_record s) ->
             lf_exists fs (local_path "data_record" n) = true) ->
  path_to_id service j (DRIVE_BASE +:+ "/data/") = Raised (FileNotFoundError msg) ->
  upload fs service benchmark overwrite j
  = let '(results, j1) :=
      upload_files service
        (map (fun n => (local_path "data_record" n, DRIVE_BASE +:+ "/data_record/"))
           (sum_data_record s))
        overwrite j in
    (Done (map (fun n => (local_path "data" n, DRIVE_BASE +:+ "/data/",
                          Raised (FileNotFoundError msg)))
             (sum_data s) ++ results), j1).
Proof.
  intros Hsum s Hdata Hrecords Hp.
  rewrite (upload_cases fs service benchmark overwrite j Hsum). cbv zeta. fold s.
  assert (Hnone : List.filter (fun src => negb (lf_exists fs src))
                    (map (local_path "data") (sum_data s)
                       ++ map (local_path "data_record") (sum_data_record s)) = []).
  { apply filter_nothing. intros x Hx.
    apply in_app_or in Hx as [Hx | Hx]; apply in_map_iff in Hx as (n & <- & Hn).
    - now rewrite Hdata.
    - now rewrite Hrecords. }
  rewrite Hnone, upload_files_app.
  rewrite (upload_files_unresolved service overwrite (DRIVE_BASE +:+ "/data/") msg j
             (map (local_path "data") (sum_data s)) eq_refl Hp).
  rewrite !map_map.
  now destruct (upload_files service _ overwrite j).
Qed.

(** The sample summary with all its files, and a Drive that has the folder
    [Workspace/Daisenbot_Dataset] but nothing in it. *)
Lemma upload_needs_remote_folder_witness :
  exists j1,
    upload
      (DriveSample.files_of
         ["data_record/kmeans.json"; "data/D0300000.sqlite3"; "data/D0300001.sqlite3";
          "data_record/D0300000.json"; "data_record/D0300001.json"]
         DriveSample.kmeans_summary)
      DriveSample.bare_drive "kmeans" true []
    = (Done [ ("data/D0300000.sqlite3", DRIVE_BASE +:+ "/data/",
               Raised (FileNotFoundError "Item 'data' not found under parent id DD"));
              ("data/D0300001.sqlite3", DRIVE_BASE +:+ "/data/",
               Raised (FileNotFoundError "Item 'data' not found under parent id DD"));
              ("data_record/D0300000.json", DRIVE_BASE +:+ "/data_record/",
               Raised (FileNotFoundError "Item 'data_record' not found under parent id DD"));
              ("data_record/D0300001.json", DRIVE_BASE +:+ "/data_record/",
               Raised (FileNotFoundError "Item 'data_record' not found under parent id DD")) ],
       j1)
    /\ j1 = [].
Proof.
  exists []. split; [|reflexivity].
  rewrite (upload_needs_remote_folder
             (DriveSample.files_of
                ["data_record/kmeans.json"; "data/D0300000.sqlite3";
                 "data/D0300001.sqlite3"; "data_record/D0300000.json";
                 "data_record/D0300001.json"]
                DriveSample.kmeans_summary)
             DriveSample.bare_drive "kmeans"
             "Item 'data' not found under parent id DD" true []).
  - reflexivity.
  - reflexivity.
  - intros n H. cbn in H. decompose [or] H; subst; try reflexivity. contradiction.
  - intros n H. cbn in H. decompose [or] H; subst; try reflexivity. contradiction.
  - reflexivity.
Defined.

(** ** A benchmark generated, then uploaded *)

(** X23.  A finished run can leave a summary that [upload] refuses.  When
    a sweep run leaves nothing in the trace directory (its process failed,
    left no artifact, or the artifact could not be moved), the summary still
    lists its nominal trace name; unless a file of that name was there
    before the run, [upload] of the benchmark raises [FileNotFoundError]
    with that trace among the missing files, and uploads none of the other
    traces and records. *)
Theorem upload_refuses_dangling_trace (shlex_split : string -> list string)
    (abspath : string -> string) (w : world) (p : profile)
    (bench_name : string) (bc : bconf) (st : state) (k fuel a : nat) :
  ready w p bench_name bc ->
  base_found_at w p st k ->
  (k < fuel)%nat ->
  w_summary_ok w = true ->
  (1 <= a)%nat ->
  (a < 1 + length (normal_combinations bc) + length (special_arg_list bc))%nat ->
  lands w (clock st + k + a) = false ->
  format_data_filename (bc_id bc) (run_type bc a) a ∉ data_dir st ->
  exists st' s,
    process_benchmark shlex_split abspath fuel w p bench_name st = Returned 0 st'
    /\ last (record_dir st') = Some (bench_name +:+ ".json", DocSummary s)
    /\ forall (fs : local_files) (service : drive) (overwrite : bool) (j : list request),
         lf_exists fs (summary_path bench_name) = true ->
         lf_summary fs (summary_path bench_name) = s ->
         (forall n, In n (sum_data s) ->
                    lf_exists fs (local_path "data" n) = true -> n ∈ data_dir st') ->
         exists missing,
           In (local_path "data" (format_data_filename (bc_id bc) (run_type bc a) a))
              missing
           /\ upload fs service bench_name overwrite j
              = (Raised (FileNotFoundError (missing_message bench_name missing)), j).
Proof.
  intros Hready Hfound Hfuel Hok H1 Ha Hlands Hold.
  exists (finished shlex_split w p bench_name bc (executable abspath p bench_name bc) st k).
  exists (the_summary bench_name
            (swept shlex_split w p bench_name bc (executable abspath p bench_name bc) st k)).
  split.
  { exact (process_benchmark_completes shlex_split abspath w p bench_name bc fuel k st
             Hready Hfound Hfuel). }
  destruct (finished_fields shlex_split abspath w p bench_name bc st k)
    as (_ & _ & _ & _ & Htraces & _ & Hjournal).
  rewrite Hok in Hjournal.
  split; [rewrite Hjournal; apply last_snoc|].
  intros fs service overwrite j Hsum Hs Hfs.
  (* the trace is listed *)
  destruct (finished_position shlex_split abspath w p bench_name bc st k a H1 Ha)
    as (_ & _ & _ & _ & _ & _ & Hlisted & _).
  rewrite Htraces in Hlisted.
  apply list_elem_of_lookup_2, list_elem_of_In in Hlisted.
  (* and is not in the trace directory *)
  assert (Hgone : format_data_filename (bc_id bc) (run_type bc a) a
                  ∉ data_dir (finished shlex_split w p bench_name bc
                                (executable abspath p bench_name bc) st k)).
  { revert Hold. unfold run_type.
    destruct (Nat.leb_spec a (length (normal_combinations bc))) as [Hle | Hgt]; intros Hold.
    - replace a with (1 + (a - 1))%nat in Hold |- * by lia.
      apply finished_dangling_normal; [lia | | exact Hold].
      replace (clock st + k + 1 + (a - 1))%nat with (clock st + k + a)%nat by lia.
      exact Hlands.
    - replace a with (1 + length (normal_combinations bc)
                      + (a - 1 - length (normal_combinations bc)))%nat in Hold |- * by lia.
      apply finished_dangling_special; [lia | | exact Hold].
      replace (clock st + k + 1 + length (normal_combinations bc)
               + (a - 1 - length (normal_combinations bc)))%nat
        with (clock st + k + a)%nat by lia.
      exact Hlands. }
  assert (Hnot : lf_exists fs (local_path "data"
                                 (format_data_filename (bc_id bc) (run_type bc a) a))
                 = false).
  { match goal with |- ?x = false => destruct x eqn:E end; [|reflexivity].
    exfalso. apply Hgone, Hfs; [exact Hlisted | exact E]. }
  rewrite (upload_cases fs service bench_name overwrite j Hsum). cbv zeta. rewrite Hs.
  cbn [the_summary sum_data sum_data_record].
  match goal with
  | |- context [List.filter ?f ?l] =>
      assert (Hin : In (local_path "data"
                          (format_data_filename (bc_id bc) (run_type bc a) a))
                       (List.filter f l))
  end.
  { apply filter_In. split; [|now rewrite Hnot].
    apply in_or_app. left. apply in_map. exact Hlisted. }
  destruct (List.filter _ _) as [|m ms]; [contradiction|].
  exists (m :: ms). split; [exact Hin | reflexivity].
Qed.

(** The sample run: its second sweep run leaves no artifact.  The files
    in [data] are the two traces that were relocated. *)
Lemma upload_refuses_dangling_trace_witness :
  exists st' msg,
    process_benchmark Sample.split_ws Sample.abspath 10 Sample.sweep_world
      (Sample.mk_profile Sample.sweep_bconf 5) "kmeans" Sample.fresh
    = Returned 0 st'
    /\ upload
         (DriveSample.files_of
            ["data_record/kmeans.json"; "data/D0300000.sqlite3"; "data/D0300003.sqlite3"]
            {| sum_benchmark := "kmeans";
               sum_data := produced_traces st';
               sum_data_record := produced_records st' |})
         DriveSample.dataset_drive "kmeans" true []
       = (Raised (FileNotFoundError msg), []).
Proof.
  destruct (upload_refuses_dangling_trace Sample.split_ws Sample.abspath Sample.sweep_world
              (Sample.mk_profile Sample.sweep_bconf 5) "kmeans" Sample.sweep_bconf
              Sample.fresh 3 10 2 sample_sweep_ready sample_sweep_found
              ltac:(lia) eq_refl ltac:(lia) ltac:(vm_compute; lia) eq_refl
              ltac:(apply not_elem_of_empty))
    as (st' & s & Hrun & Hlast & Hupload).
  pose proof Hrun as Hrun'. vm_compute in Hrun'. injection Hrun' as <-.
  vm_compute in Hlast. injection Hlast as <-.
  destruct (Hupload
              (DriveSample.files_of
                 ["data_record/kmeans.json"; "data/D0300000.sqlite3";
                  "data/D0300003.sqlite3"]
                 {| sum_benchmark := "kmeans";
                    sum_data := ["D0300000.sqlite3"; "D0300001.sqlite3"; "D0300002.sqlite3";
                                 "D0300003.sqlite3"; "D0300004.sqlite3"; "D0310005.sqlite3"];
                    sum_data_record := ["D0300000.json"; "D0300001.json"; "D0300002.json";
                                        "D0300003.json"; "D0300004.json"; "D0310005.json"] |})
              DriveSample.dataset_drive true [] eq_refl eq_refl)
    as (missing & _ & Hraise).
  - intros n Hn Hex. cbn in Hn.
    decompose [or] Hn; subst; try discriminate Hex; try contradiction;
      apply (bool_decide_unpack _); vm_compute; exact I.
  - eexists _, _. split; [exact Hrun|]. exact Hraise.
Defined.
